(** * Parameter-Visualiser: the equipment backend

    A shallow embedding of [backend/equipment/views.py] and
    [backend/equipment/models.py]: the CSV upload view with its summary
    statistics and five-dataset retention rule, the history listing, the
    detail view and the PDF report view.

    Layout of the development:
    - Python and pandas values the views compute with (binary64 floats,
      strings, a parsed frame, [Series.mean], [Series.value_counts]);
    - the two Django models and the tables that hold their rows;
    - the ORM calls of the views as operations of a state-and-exception
      monad over those tables;
    - the views themselves;
    - the properties of the views. *)

From Stdlib Require Import ZArith List String Ascii Bool Lia.
From Stdlib Require Import Permutation Sorted DecimalString DecimalZ.
From Stdlib Require Import PrimFloat FloatOps SpecFloat Uint63.
Import ListNotations.

Local Open Scope string_scope.
Local Open Scope list_scope.

(* ================================================================= *)
(** * Python values *)

(** Python's [float] is an IEEE 754 binary64; so is Rocq's primitive
    [float], and the kernel evaluates its operations bit for bit. *)

Definition nan : float := PrimFloat.nan.

(** [float(n)] for a non-negative count (exact below [2^53]). *)
Definition float_of_nat (n : nat) : float :=
  PrimFloat.of_uint63 (Uint63.of_Z (Z.of_nat n)).

(** ** Strings *)

(** A Python [str] is a sequence of characters (code points). A [string]
    holds it in UTF-8, one [ascii] for each byte: a character is one byte
    that is not of the form [10xxxxxx], followed by the bytes of that form
    that continue it. Characters below 128 are one byte each. *)
Definition continuation (c : ascii) : bool :=
  match c with
  | Ascii _ _ _ _ _ _ b6 b7 => b7 && negb b6
  end.

(** [len(s)]: the number of characters of [s]. *)
Fixpoint str_len (s : string) : nat :=
  match s with
  | EmptyString => 0
  | String c s' => if continuation c then str_len s' else S (str_len s')
  end.

(** [s[:n]]: at most the first [n] characters of [s], each with all of
    its bytes. *)
Fixpoint slice_to (n : nat) (s : string) : string :=
  match s with
  | EmptyString => EmptyString
  | String c s' =>
      if continuation c then String c (slice_to n s')
      else
        match n with
        | O => EmptyString
        | S n' => String c (slice_to n' s')
        end
  end.

Fixpoint string_rev_onto (s acc : string) : string :=
  match s with
  | EmptyString => acc
  | String c s' => string_rev_onto s' (String c acc)
  end.

Definition string_rev (s : string) : string := string_rev_onto s EmptyString.

(** [s.endswith(suffix)], case-sensitive. *)
Definition endswith (s suffix : string) : bool :=
  String.prefix (string_rev suffix) (string_rev s).

(** [", ".join(l)]. *)
Fixpoint join (sep : string) (l : list string) : string :=
  match l with
  | [] => ""
  | [x] => x
  | x :: rest => (x ++ sep ++ join sep rest)%string
  end.

(** [sub in s] for strings. *)
Definition occurs_in (sub s : string) : Prop :=
  exists pre post, s = (pre ++ sub ++ post)%string.

(** [sub in s], decided. *)
Fixpoint occursb (sub s : string) : bool :=
  String.prefix sub s
  || match s with
     | EmptyString => false
     | String _ s' => occursb sub s'
     end.

(** ** Decimal output *)

(** [str(n)] for an integer. *)
Definition str_int (n : Z) : string :=
  NilZero.string_of_int (Z.to_int n).

Definition digit_char (d : Z) : ascii :=
  ascii_of_nat (48 + Z.to_nat (d mod 10)).

(** The [k] least significant decimal digits of [n], most significant
    first, with leading zeros. *)
Fixpoint digits_fixed (k : nat) (n : Z) : string :=
  match k with
  | O => ""
  | S k' => (digits_fixed k' (n / 10) ++ String (digit_char n) "")%string
  end.

(** Round the non-negative rational [num / den] to an integer, ties to
    even. *)
Definition round_half_even (num den : Z) : Z :=
  let q := (num / den)%Z in
  let r := (num mod den)%Z in
  match (2 * r ?= den)%Z with
  | Lt => q
  | Gt => (q + 1)%Z
  | Eq => if Z.even q then q else (q + 1)%Z
  end.

(** The digits of [|x| * 10^prec] rounded to an integer, for the finite
    float of mantissa [m] and exponent [e]. The conversion is exact: the
    binary value is rounded once, ties to even, as CPython's [format]
    does. *)
Definition scaled_digits (prec : nat) (m : positive) (e : Z) : Z :=
  let p10 := (10 ^ Z.of_nat prec)%Z in
  if (0 <=? e)%Z then (Z.pos m * 2 ^ e * p10)%Z
  else round_half_even (Z.pos m * p10) (2 ^ (- e)).

Definition sign_prefix (s : bool) : string := if s then "-" else "".

Definition fixed_point (prec : nat) (s : bool) (n : Z) : string :=
  let p10 := (10 ^ Z.of_nat prec)%Z in
  (sign_prefix s ++ str_int (n / p10) ++
   match prec with
   | O => ""
   | _ => "." ++ digits_fixed prec (n mod p10)
   end)%string.

(** [f"{x:.<prec>f}"]. *)
Definition format_f (prec : nat) (x : float) : string :=
  match Prim2SF x with
  | S754_nan => "nan"
  | S754_infinity s => (sign_prefix s ++ "inf")%string
  | S754_zero s => fixed_point prec s 0
  | S754_finite s m e => fixed_point prec s (scaled_digits prec m e)
  end.

(* ================================================================= *)
(** * Ordering rows *)

(** [ORDER BY] is modelled by a stable insertion sort over the rows in
    table order: rows that compare equal keep their insertion order. *)

Section Ordering.
Context {A : Type}.
Variable leb : A -> A -> bool.

Fixpoint insert_sorted (x : A) (l : list A) : list A :=
  match l with
  | [] => [x]
  | y :: l' => if leb x y then x :: l else y :: insert_sorted x l'
  end.

Definition order_by (l : list A) : list A :=
  fold_right insert_sorted [] l.

End Ordering.


(* ================================================================= *)
(** * The parsed frame *)

(** A cell of a frame read by [pandas.read_csv]: a number, or a text that
    did not parse as one. A missing cell is the number NaN. Integer
    columns are taken at their float value. *)
Inductive cell : Type :=
| Num (x : float)
| Text (s : string).

(** [df.columns], the data rows, each row holding one cell per column,
    and of [df.dtypes] the labels of the columns that the parser read as
    integers ([int64]); the others are [float64] columns or hold text. *)
Record DataFrame : Type := {
  columns : list string;
  rows : list (list cell);
  int64 : list string
}.

(** Python exceptions: Django's [Http404], and every other exception with
    its [str(e)]. *)
Inductive Exception : Type :=
| Http404
| Raised (msg : string).

Definition str (e : Exception) : string :=
  match e with
  | Http404 => "Not found."
  | Raised msg => msg
  end.

Definition result (A : Type) : Type := (Exception + A)%type.

(** [col in df.columns]. *)
Definition contains (labels : list string) (col : string) : bool :=
  existsb (String.eqb col) labels.

(** [df.columns.get_loc(col)]: [read_csv] makes the labels distinct. *)
Fixpoint get_loc (labels : list string) (col : string) : option nat :=
  match labels with
  | [] => None
  | l :: labels' =>
      if String.eqb l col then Some O
      else option_map S (get_loc labels' col)
  end.

Definition KeyError (col : string) : Exception :=
  Raised ("'" ++ col ++ "'")%string.

(** [row[col]] for a row of [df.iterrows()]; a row shorter than the
    header was padded with NaN by the parser. *)
Definition row_getitem (labels : list string) (row : list cell) (col : string)
  : result cell :=
  match get_loc labels col with
  | Some i => inr (nth i row (Num nan))
  | None => inl (KeyError col)
  end.

(** [df[col]]: the column as a Series. *)
Definition getitem (df : DataFrame) (col : string) : result (list cell) :=
  match get_loc (columns df) col with
  | Some i => inr (map (fun row => nth i row (Num nan)) (rows df))
  | None => inl (KeyError col)
  end.

(** [len(df)]. *)
Definition len (df : DataFrame) : nat := List.length (rows df).

(** [pandas.isna]. *)
Definition isna (c : cell) : bool :=
  match c with
  | Num x => PrimFloat.is_nan x
  | Text _ => false
  end.

Definition notna (c : cell) : bool := negb (isna c).

Definition is_text (c : cell) : bool :=
  match c with
  | Num _ => false
  | Text _ => true
  end.

(** The value a cell contributes to a NaN-skipping sum. *)
Definition fill_zero (c : cell) : float :=
  match c with
  | Num x => if PrimFloat.is_nan x then 0%float else x
  | Text _ => 0%float
  end.

(** ** Sums

    [Series.mean] adds a column with [ndarray.sum], which is numpy's
    [add.reduce]; its inner loop on binary64 is [DOUBLE_pairwise_sum]
    ([numpy/_core/src/umath/loops_utils.h.src]). The order of the
    additions decides the last bits of the sum, so it is kept as numpy
    has it. The inner loop is handed a column of at most [buffersize]
    values in one piece, and a longer one in several. *)

(** The blocks of at most 128 values with at least 8 of them: eight
    running sums [r0] .. [r7] take every eighth value each, as long as
    eight more values are left; the running sums are then added in
    pairs, and the values left over are added one by one. *)
Fixpoint accumulate (r0 r1 r2 r3 r4 r5 r6 r7 : float) (a : list float)
  : float :=
  match a with
  | x0 :: x1 :: x2 :: x3 :: x4 :: x5 :: x6 :: x7 :: a' =>
      accumulate (r0 + x0) (r1 + x1) (r2 + x2) (r3 + x3)
                 (r4 + x4) (r5 + x5) (r6 + x6) (r7 + x7) a'
  | _ =>
      fold_left PrimFloat.add a
        (((r0 + r1) + (r2 + r3)) + ((r4 + r5) + (r6 + r7)))%float
  end.

(** A block of at most 128 values: fewer than 8 are added one by one,
    from [-0.0]. *)
Definition block_sum (a : list float) : float :=
  match a with
  | x0 :: x1 :: x2 :: x3 :: x4 :: x5 :: x6 :: x7 :: a' =>
      accumulate x0 x1 x2 x3 x4 x5 x6 x7 a'
  | _ => fold_left PrimFloat.add a (-0)%float
  end.

(** More than 128 values are split in two, the first part the half
    rounded down to a multiple of 8, and the sums of the parts are
    added. Both parts are shorter than [a], so a [depth] of the length
    of [a] is never used up ([pairwise_sum_rec_depth]). *)
Fixpoint pairwise_sum_rec (depth : nat) (a : list float) : float :=
  let n := List.length a in
  match depth with
  | S depth' =>
      if (128 <? n)%nat then
        let n2 := (n / 2 - (n / 2) mod 8)%nat in
        (pairwise_sum_rec depth' (firstn n2 a)
         + pairwise_sum_rec depth' (skipn n2 a))%float
      else block_sum a
  | O => block_sum a
  end.

Definition pairwise_sum (a : list float) : float :=
  pairwise_sum_rec (List.length a) a.

(** numpy's default buffer size, in values. *)
Definition buffersize : nat := 2 ^ 13.

(** The inner loop is handed the column in consecutive pieces: the
    pieces of the lengths [sizes], and then the rest. The empty list of
    lengths hands it over in one piece. *)
Fixpoint pieces (sizes : list nat) (xs : list float) : list (list float) :=
  match sizes with
  | [] => [xs]
  | n :: sizes' => firstn n xs :: pieces sizes' (skipn n xs)
  end.

(** [values.sum(dtype=float64)]: the result starts at 0.0, and the inner
    loop adds to it the pairwise sum of each piece that it is handed. *)
Definition add_reduce (sizes : list nat) (xs : list float) : float :=
  fold_left (fun acc piece => (acc + pairwise_sum piece)%float)
            (pieces sizes xs) 0%float.

(** The sum that [nanops.nanmean] takes: missing cells are replaced by
    zero, in place, and the column is added. *)
Definition nansum (sizes : list nat) (s : list cell) : float :=
  add_reduce sizes (map fill_zero s).

(** [nanops.nanmean] on a numeric column ([skipna=True]): the sum over the
    present cells divided by their number, NaN when there is none. *)
Definition nanmean (sizes : list nat) (s : list cell) : float :=
  let count := List.length (filter notna s) in
  if (0 <? count)%nat
  then PrimFloat.div (nansum sizes s) (float_of_nat count)
  else nan.

(** Count one more occurrence of [label], keeping first-seen order. *)
Fixpoint tally (label : string) (acc : list (string * nat))
  : list (string * nat) :=
  match acc with
  | [] => [(label, 1%nat)]
  | (k, n) :: acc' =>
      if String.eqb k label then (k, S n) :: acc'
      else (k, n) :: tally label acc'
  end.

Definition tally_all (labels : list string) : list (string * nat) :=
  fold_left (fun acc label => tally label acc) labels [].

Definition more_frequent_first (a b : string * nat) : bool :=
  (snd b <=? snd a)%nat.

(* ================================================================= *)
(** * The models ([models.py]) *)

(** The mapping stored in a [JSONField]: a JSON object, as the list of
    its members. *)
Definition JsonObject : Type := list (string * nat).

Module EquipmentDataset.
(** [uploaded_at] is a point in time, in microseconds; [uploaded_by] is
    the user name, [None] for SQL NULL; [file] is the stored name. *)
Record t : Type := {
  id : Z;
  name : string;
  uploaded_at : Z;
  uploaded_by : option string;
  file : string;
  total_count : nat;
  avg_flowrate : float;
  avg_pressure : float;
  avg_temperature : float;
  equipment_types : JsonObject
}.
End EquipmentDataset.

Module Equipment.
(** [dataset] is the foreign key, the id of the parent row; [id] is
    [None] until the row is inserted. *)
Record t : Type := {
  id : option Z;
  dataset : Z;
  equipment_name : string;
  type : string;
  flowrate : float;
  pressure : float;
  temperature : float
}.
End Equipment.

(** [EquipmentDataset.Meta.ordering = ['-uploaded_at']]. *)
Definition newest_first (a b : EquipmentDataset.t) : bool :=
  (EquipmentDataset.uploaded_at b <=? EquipmentDataset.uploaded_at a)%Z.

(** [Equipment.Meta.ordering = ['equipment_name']], by character code. *)
Definition by_equipment_name (a b : Equipment.t) : bool :=
  String.leb (Equipment.equipment_name a) (Equipment.equipment_name b).

(** The two tables, rows in insertion order, and the last key each
    table handed out. *)
Record Store : Type := {
  datasets : list EquipmentDataset.t;
  equipment : list Equipment.t;
  dataset_seq : Z;
  equipment_seq : Z
}.

(* ================================================================= *)
(** * Statements over the store *)

(** A statement runs on the store, returns a value or raises, and leaves
    a store behind. Every ORM write is committed when it returns
    (Django's autocommit): the views open no transaction, so what was
    written before an exception stays written. *)
Definition M (A : Type) : Type := Store -> result A * Store.

Definition ret {A} (a : A) : M A := fun db => (inr a, db).

Definition raise {A} (e : Exception) : M A := fun db => (inl e, db).

Definition bind {A B} (m : M A) (k : A -> M B) : M B :=
  fun db =>
    match m db with
    | (inr a, db') => k a db'
    | (inl e, db') => (inl e, db')
    end.

Notation "x <- m ;; k" := (bind m (fun x => k))
  (at level 61, m at next level, right associativity).
Notation "m ;;; k" := (bind m (fun _ => k))
  (at level 61, right associativity).

(** A computation that touches no table. *)
Definition lift {A} (r : result A) : M A := fun db => (r, db).

(** [try: body except Exception as e: handler(e)]. *)
Definition try_except {A} (body : M A) (handler : Exception -> M A) : M A :=
  fun db =>
    match body db with
    | (inl e, db') => handler e db'
    | done => done
    end.

(** [for x in l: body(x)]. *)
Fixpoint for_each {A} (l : list A) (body : A -> M unit) : M unit :=
  match l with
  | [] => ret tt
  | x :: l' => body x ;;; for_each l' body
  end.

(** [[f(x) for x in l]] where [f] may raise. *)
Fixpoint collect {A B} (f : A -> result B) (l : list A) : result (list B) :=
  match l with
  | [] => inr []
  | x :: l' =>
      match f x with
      | inl e => inl e
      | inr y =>
          match collect f l' with
          | inl e => inl e
          | inr ys => inr (y :: ys)
          end
      end
  end.

(** A lazy [QuerySet]: the rows it yields on the store it is evaluated
    on. *)
Definition QuerySet (A : Type) : Type := Store -> list A.

(** Evaluating a query set, by iteration. *)
Definition fetch {A} (qs : QuerySet A) : M (list A) :=
  fun db => (inr (qs db), db).

(** [qs.count()]. *)
Definition count {A} (qs : QuerySet A) : M nat :=
  fun db => (inr (List.length (qs db)), db).

(** [qs[n:]] and [qs[:n]]. *)
Definition slice_from {A} (n : nat) (qs : QuerySet A) : QuerySet A :=
  fun db => skipn n (qs db).

Definition slice_until {A} (n : nat) (qs : QuerySet A) : QuerySet A :=
  fun db => firstn n (qs db).

(** [EquipmentDataset.objects.all()], in the model's default order. *)
Definition EquipmentDataset_objects_all : QuerySet EquipmentDataset.t :=
  fun db => order_by newest_first (datasets db).

(** [qs.order_by('-uploaded_at')]. *)
Definition order_by_uploaded_at_desc (qs : QuerySet EquipmentDataset.t)
  : QuerySet EquipmentDataset.t :=
  fun db => order_by newest_first (qs db).

(** [dataset.equipment_items.all()]: the rows whose foreign key is
    [dataset], in the model's default order. *)
Definition equipment_items (dataset : EquipmentDataset.t)
  : QuerySet Equipment.t :=
  fun db =>
    order_by by_equipment_name
      (filter (fun e => (Equipment.dataset e =? EquipmentDataset.id dataset)%Z)
              (equipment db)).

(** [ds.delete()]: the rows that reference [ds] go first
    ([on_delete=CASCADE]), then the row itself. Deleting a row that is
    gone deletes nothing. *)
Definition delete (ds : EquipmentDataset.t) : M unit :=
  fun db =>
    let pk := EquipmentDataset.id ds in
    (inr tt,
     {| datasets :=
          filter (fun d => negb (EquipmentDataset.id d =? pk)%Z) (datasets db);
        equipment :=
          filter (fun e => negb (Equipment.dataset e =? pk)%Z) (equipment db);
        dataset_seq := dataset_seq db;
        equipment_seq := equipment_seq db |}).

(** Keys for the rows of one [bulk_create]. *)
Fixpoint assign_ids (last : Z) (objs : list Equipment.t) : list Equipment.t :=
  match objs with
  | [] => []
  | e :: objs' =>
      {| Equipment.id := Some (last + 1)%Z;
         Equipment.dataset := Equipment.dataset e;
         Equipment.equipment_name := Equipment.equipment_name e;
         Equipment.type := Equipment.type e;
         Equipment.flowrate := Equipment.flowrate e;
         Equipment.pressure := Equipment.pressure e;
         Equipment.temperature := Equipment.temperature e |}
      :: assign_ids (last + 1) objs'
  end.

(** The store after the [INSERT] of one dataset row, and after the
    [INSERT] of a batch of equipment rows. *)
Definition insert_dataset (obj : EquipmentDataset.t) (db : Store) : Store :=
  {| datasets := datasets db ++ [obj];
     equipment := equipment db;
     dataset_seq := (dataset_seq db + 1)%Z;
     equipment_seq := equipment_seq db |}.

Definition insert_equipment (objs : list Equipment.t) (db : Store) : Store :=
  {| datasets := datasets db;
     equipment := equipment db ++ assign_ids (equipment_seq db) objs;
     dataset_seq := dataset_seq db;
     equipment_seq := (equipment_seq db + Z.of_nat (List.length objs))%Z |}.

(* ================================================================= *)
(** * Requests and responses *)

(** An uploaded file: [csv_file.name] and the bytes. *)
Record UploadedFile : Type := {
  name : string;
  content : string
}.

(** [request.FILES.get('file')] and the authenticated user's name, [None]
    for an anonymous request. *)
Record Request : Type := {
  FILES_file : option UploadedFile;
  user : option string
}.

(** The tables handed to reportlab by [generate_pdf], and the file name
    of the attachment. *)
Record Report : Type := {
  attachment : string;
  info_data : list (list string);
  stats_data : list (list string);
  type_data : list (list string);
  equipment_data : list (list string)
}.

Inductive Body : Type :=
| Error (error : string)
| DatasetData (dataset : EquipmentDataset.t)
              (equipment_items : list Equipment.t)
| SummaryList (summaries : list EquipmentDataset.t)
| Pdf (report : Report).

Record Response : Type := {
  status : nat;
  data : Body
}.

Definition HTTP_200_OK : nat := 200.
Definition HTTP_201_CREATED : nat := 201.
Definition HTTP_400_BAD_REQUEST : nat := 400.

Definition required_columns : list string :=
  ["Equipment Name"; "Type"; "Flowrate"; "Pressure"; "Temperature"]%string.

(** What the views call and this repository does not define. *)
Record Environment : Type := {
  (** [pandas.read_csv]: the frame, or the parser's exception. *)
  read_csv : UploadedFile -> result DataFrame;
  (** The exception [Series.mean] raises on a column that holds text
      (a [TypeError] since pandas 2.0). *)
  mean_type_error : list cell -> Exception;
  (** numpy's buffered iteration over a column of more than
      [buffersize] values: the lengths of the consecutive pieces, but
      for the last, in which the column is handed to the inner loop of
      the sum, for a column that has to be converted ([int64]) or not
      and of the given length. They depend on the version of numpy. *)
  sum_pieces : bool -> nat -> list nat;
  (** Python's [float(s)] on a string. *)
  float_of_text : string -> result float;
  (** Python's [repr(x)] of a float, which is also its [str(x)]. *)
  repr_float : float -> string;
  (** [t.strftime('%Y-%m-%d %H:%M:%S')]. *)
  strftime : Z -> string;
  (** The constraints the database enforces on an inserted row, and the
      exception of a rejected [INSERT]. *)
  db_accepts_dataset : EquipmentDataset.t -> bool;
  db_accepts_equipment : Equipment.t -> bool;
  db_error : Exception
}.

Section Views.
Variable E : Environment.

(** ** pandas and Python calls of the views *)

(** The pieces in which a column of [n] values is added: a column of
    at most [buffersize] values in one piece, whatever its dtype. *)
Definition sum_sizes (converted : bool) (n : nat) : list nat :=
  if (n <=? buffersize)%nat then [] else sum_pieces E converted n.

(** [Series.mean()], on a column of dtype [int64], which is converted
    before it is added, or of another dtype. *)
Definition mean (converted : bool) (s : list cell) : result float :=
  if existsb is_text s then inl (mean_type_error E s)
  else inr (nanmean (sum_sizes converted (List.length s)) s).

(** [float(c)] on a cell. *)
Definition py_float (c : cell) : result float :=
  match c with
  | Num x => inr x
  | Text s => float_of_text E s
  end.

(** The string a [CharField] stores for a cell, and the key a JSON
    object gets for it: the text, or [str] of the number. *)
Definition char_value (c : cell) : string :=
  match c with
  | Text s => s
  | Num x => repr_float E x
  end.

(** [Series.value_counts().to_dict()] as the JSON object it is stored
    as: missing cells are dropped ([dropna=True]), the labels are
    counted, the most frequent comes first. *)
Definition value_counts (s : list cell) : JsonObject :=
  order_by more_frequent_first (tally_all (map char_value (filter notna s))).

(** ** ORM writes *)

(** [EquipmentDataset.objects.create(...)]: one [INSERT]; the key is
    the next of the sequence and [uploaded_at] the time of the call
    ([auto_now_add]). *)
Definition EquipmentDataset_objects_create
    (now : Z) (name : string) (uploaded_by : option string) (file : string)
    (total_count : nat) (avg_flowrate avg_pressure avg_temperature : float)
    (equipment_types : JsonObject) : M EquipmentDataset.t :=
  fun db =>
    let obj :=
      {| EquipmentDataset.id := (dataset_seq db + 1)%Z;
         EquipmentDataset.name := name;
         EquipmentDataset.uploaded_at := now;
         EquipmentDataset.uploaded_by := uploaded_by;
         EquipmentDataset.file := file;
         EquipmentDataset.total_count := total_count;
         EquipmentDataset.avg_flowrate := avg_flowrate;
         EquipmentDataset.avg_pressure := avg_pressure;
         EquipmentDataset.avg_temperature := avg_temperature;
         EquipmentDataset.equipment_types := equipment_types |} in
    if db_accepts_dataset E obj then (inr obj, insert_dataset obj db)
    else (inl (db_error E), db).

(** [Equipment.objects.bulk_create(objs)]: all the rows are inserted
    in one transaction of its own, or none is. *)
Definition Equipment_objects_bulk_create (objs : list Equipment.t)
  : M unit :=
  fun db =>
    if forallb (db_accepts_equipment E) objs then
      (inr tt, insert_equipment objs db)
    else (inl (db_error E), db).

(** ** [EquipmentDatasetViewSet] *)

(** [get_queryset] for the [list] action, and for the others. *)
Definition get_queryset_list : QuerySet EquipmentDataset.t :=
  slice_until 5 (order_by_uploaded_at_desc EquipmentDataset_objects_all).

Definition get_queryset : QuerySet EquipmentDataset.t :=
  EquipmentDataset_objects_all.

(** [self.get_object()]: the row of key [pk], or [Http404]. *)
Definition get_object (pk : Z) : M EquipmentDataset.t :=
  fun db =>
    match find (fun d => (EquipmentDataset.id d =? pk)%Z) (get_queryset db)
    with
    | Some d => ret d db
    | None => raise Http404 db
    end.

(** [EquipmentDatasetSerializer(dataset).data]: the fields and the
    nested [equipment_items]. *)
Definition serializer_data (dataset : EquipmentDataset.t) : M Body :=
  items <- fetch (equipment_items dataset) ;;
  ret (DatasetData dataset items).

(** The loop of [upload_csv] over [df.iterrows()]. *)
Definition equipment_object (df : DataFrame) (dataset : EquipmentDataset.t)
    (row : list cell) : result Equipment.t :=
  let get := row_getitem (columns df) row in
  match get "Equipment Name"%string with inl e => inl e | inr equipment_name =>
  match get "Type"%string with inl e => inl e | inr type =>
  match get "Flowrate"%string with inl e => inl e | inr c1 =>
  match py_float c1 with inl e => inl e | inr flowrate =>
  match get "Pressure"%string with inl e => inl e | inr c2 =>
  match py_float c2 with inl e => inl e | inr pressure =>
  match get "Temperature"%string with inl e => inl e | inr c3 =>
  match py_float c3 with inl e => inl e | inr temperature =>
    inr {| Equipment.id := None;
           Equipment.dataset := EquipmentDataset.id dataset;
           Equipment.equipment_name := char_value equipment_name;
           Equipment.type := char_value type;
           Equipment.flowrate := flowrate;
           Equipment.pressure := pressure;
           Equipment.temperature := temperature |}
  end end end end end end end end.

Definition equipment_objects (df : DataFrame) (dataset : EquipmentDataset.t)
  : result (list Equipment.t) :=
  collect (equipment_object df dataset) (rows df).

(** [df[col].mean()]. *)
Definition column_mean (df : DataFrame) (col : string) : result float :=
  match getitem df col with
  | inl e => inl e
  | inr s => mean (contains (int64 df) col) s
  end.

(** [df['Type'].value_counts().to_dict()]. *)
Definition type_distribution (df : DataFrame) : result JsonObject :=
  match getitem df "Type"%string with
  | inl e => inl e
  | inr s => inr (value_counts s)
  end.

(** "Maintain only last 5 datasets". *)
Definition maintain_last_five : M unit :=
  let all_datasets := EquipmentDataset_objects_all in
  n <- count all_datasets ;;
  if (5 <? n)%nat then
    datasets_to_delete <- fetch (slice_from 5 all_datasets) ;;
    for_each datasets_to_delete delete
  else ret tt.

Definition bad_request (msg : string) : Response :=
  {| status := HTTP_400_BAD_REQUEST; data := Error msg |}.

(** [upload_csv], called at time [now]. *)
Definition upload_csv (now : Z) (request : Request) : M Response :=
  match FILES_file request with
  | None => ret (bad_request "No file provided")
  | Some csv_file =>
      if negb (endswith (name csv_file) ".csv") then
        ret (bad_request "File must be a CSV")
      else
        try_except
          (df <- lift (read_csv E csv_file) ;;
           if negb (forallb (contains (columns df)) required_columns) then
             ret (bad_request
                    ("CSV must contain columns: "
                       ++ join ", " required_columns)%string)
           else
             let total_count := len df in
             avg_flowrate <- lift (column_mean df "Flowrate") ;;
             avg_pressure <- lift (column_mean df "Pressure") ;;
             avg_temperature <- lift (column_mean df "Temperature") ;;
             type_distribution <- lift (type_distribution df) ;;
             let dataset_name := name csv_file in
             dataset <- EquipmentDataset_objects_create
                          now dataset_name (user request) (name csv_file)
                          total_count avg_flowrate avg_pressure
                          avg_temperature type_distribution ;;
             equipment_objects <- lift (equipment_objects df dataset) ;;
             Equipment_objects_bulk_create equipment_objects ;;;
             maintain_last_five ;;;
             body <- serializer_data dataset ;;
             ret {| status := HTTP_201_CREATED; data := body |})
          (fun e =>
             ret (bad_request ("Error processing CSV: " ++ str e)%string))
  end.

(** [retrieve], inherited from [ModelViewSet]: get by id. *)
Definition retrieve (pk : Z) : M Response :=
  dataset <- get_object pk ;;
  body <- serializer_data dataset ;;
  ret {| status := HTTP_200_OK; data := body |}.

(** One line of the "Equipment Details" table. *)
Definition equipment_line (equipment : Equipment.t) : list string :=
  [ slice_to 20 (Equipment.equipment_name equipment);
    slice_to 15 (Equipment.type equipment);
    format_f 1 (Equipment.flowrate equipment);
    format_f 1 (Equipment.pressure equipment);
    format_f 1 (Equipment.temperature equipment) ].

(** [generate_pdf]: the tables of the document. *)
Definition generate_pdf (pk : Z) : M Response :=
  dataset <- get_object pk ;;
  let attachment :=
    ("equipment_report_" ++ str_int (EquipmentDataset.id dataset) ++ ".pdf")
      %string in
  let info_data :=
    [ ["Dataset Name:"; EquipmentDataset.name dataset];
      ["Upload Date:"; strftime E (EquipmentDataset.uploaded_at dataset)];
      ["Total Equipment:";
       str_int (Z.of_nat (EquipmentDataset.total_count dataset))] ]%string in
  let stats_data :=
    [ ["Metric"; "Average Value"];
      ["Flowrate"; format_f 2 (EquipmentDataset.avg_flowrate dataset)];
      ["Pressure"; format_f 2 (EquipmentDataset.avg_pressure dataset)];
      ["Temperature"; format_f 2 (EquipmentDataset.avg_temperature dataset)]
    ]%string in
  let type_data :=
    ["Equipment Type"; "Count"]%string
    :: map (fun item => [fst item; str_int (Z.of_nat (snd item))])
           (EquipmentDataset.equipment_types dataset) in
  items <- fetch (slice_until 20 (equipment_items dataset)) ;;
  let equipment_data :=
    ["Name"; "Type"; "Flowrate"; "Pressure"; "Temp"]%string
    :: map equipment_line items in
  ret {| status := HTTP_200_OK;
         data := Pdf {| attachment := attachment;
                        info_data := info_data;
                        stats_data := stats_data;
                        type_data := type_data;
                        equipment_data := equipment_data |} |}.

(** ** [history_list] *)

Definition history_list : M Response :=
  datasets <- fetch (slice_until 5
                       (order_by_uploaded_at_desc
                          EquipmentDataset_objects_all)) ;;
  ret {| status := HTTP_200_OK; data := SummaryList datasets |}.

End Views.

(* ================================================================= *)
(** * Vocabulary of the properties *)

(** [s] is a sum of the values [xs] in floating point: the values are
    added two by two, in some order and grouping, every addition rounded;
    a zero may be added along the way. *)
Inductive sums_to : list float -> float -> Prop :=
| sums_to_zero : sums_to [] 0%float
| sums_to_neg_zero : sums_to [] (-0)%float
| sums_to_one x : sums_to [x] x
| sums_to_add xs ys a b :
    sums_to xs a -> sums_to ys b -> sums_to (xs ++ ys) (a + b)%float
| sums_to_perm xs ys a :
    Permutation xs ys -> sums_to xs a -> sums_to ys a.

(** [avg] is the average of the [n] values [xs] of a column, as the
    upload takes it: the sum that numpy takes of the column, which is a
    sum of exactly these values in floating point, divided by [n]. *)
Definition average_of (sizes : list nat) (xs : list float) (n : nat)
    (avg : float) : Prop :=
  List.length xs = n
  /\ sums_to xs (add_reduce sizes xs)
  /\ avg = PrimFloat.div (add_reduce sizes xs) (float_of_nat n).

(** The number a string of decimal digits denotes. *)
Definition digit_value (c : ascii) : Z := (Z.of_nat (nat_of_ascii c) - 48)%Z.

Fixpoint digits_value_from (acc : Z) (s : string) : Z :=
  match s with
  | EmptyString => acc
  | String c s' => digits_value_from (10 * acc + digit_value c) s'
  end.

Definition digits_value (s : string) : Z := digits_value_from 0 s.

(** [n] is the integer nearest to [num / den], ties to the even one. *)
Definition nearest_integer (num den n : Z) : Prop :=
  (2 * Z.abs (n * den - num) <= den)%Z
  /\ ((2 * Z.abs (n * den - num) = den)%Z -> Z.even n = true).

(** Every character of [s] is a decimal digit. *)
Fixpoint digits_only (s : string) : bool :=
  match s with
  | EmptyString => true
  | String c s' =>
      (48 <=? nat_of_ascii c)%nat && (nat_of_ascii c <=? 57)%nat
      && digits_only s'
  end.

(** [text] writes the number [n / 10^p], for [n >= 0], with the sign [s]:
    the integer part, a point and [p] digits. *)
Definition shows (s : bool) (n : Z) (p : nat) (text : string) : Prop :=
  exists whole frac,
    text = (sign_prefix s ++ whole ++ "." ++ frac)%string
    /\ option_map Z.of_int (NilZero.int_of_string whole)
       = Some (n / 10 ^ Z.of_nat p)%Z
    /\ String.length frac = p
    /\ digits_only frac = true
    /\ digits_value frac = (n mod 10 ^ Z.of_nat p)%Z.

(** [text] is the float [x] rounded to [p] digits after the point: for
    the finite [x = +-m * 2^e] it writes [n / 10^p], where [n] is
    [m * 2^e * 10^p] rounded to the nearest integer, ties to the even
    one; the values that are no numbers are written by name. *)
Definition printed (p : nat) (x : float) (text : string) : Prop :=
  match Prim2SF x with
  | S754_nan => text = "nan"%string
  | S754_infinity s => text = (sign_prefix s ++ "inf")%string
  | S754_zero s => shows s 0 p text
  | S754_finite s m e =>
      exists n,
        (0 <= n)%Z
        /\ shows s n p text
        /\ (if (0 <=? e)%Z
            then n = (Z.pos m * 2 ^ e * 10 ^ Z.of_nat p)%Z
            else nearest_integer (Z.pos m * 10 ^ Z.of_nat p) (2 ^ (- e)) n)
  end.

(** A float that is not NaN. *)
Definition present (x : float) : Prop := PrimFloat.is_nan x = false.

(** The key of every stored dataset is unique and was handed out by the
    sequence. *)
Definition well_formed (db : Store) : Prop :=
  NoDup (map EquipmentDataset.id (datasets db))
  /\ Forall (fun d => (EquipmentDataset.id d <= dataset_seq db)%Z)
            (datasets db).

(** [a] was uploaded no earlier than [b]. *)
Definition newer_or_same (a b : EquipmentDataset.t) : Prop :=
  (EquipmentDataset.uploaded_at b <= EquipmentDataset.uploaded_at a)%Z.

(** [a] comes no later than [b] by name. *)
Definition name_before (a b : Equipment.t) : Prop :=
  String.leb (Equipment.equipment_name a) (Equipment.equipment_name b) = true.

(** The labels a Type column contributes to the distribution, one per
    row whose cell is present. *)
Definition present_labels (E : Environment) (s : list cell) : list string :=
  map (char_value E) (filter notna s).

(** The stored equipment rows of a dataset, in table order. *)
Definition records_of (d : EquipmentDataset.t) (db : Store)
  : list Equipment.t :=
  filter (fun e => (Equipment.dataset e =? EquipmentDataset.id d)%Z)
         (equipment db).

(** The messages of the four kinds of failure of [upload_csv]. *)
Definition no_file_message : string := "No file provided".
Definition wrong_extension_message : string := "File must be a CSV".
Definition missing_columns_message : string :=
  "CSV must contain columns: Equipment Name, Type, Flowrate, Pressure, Temperature".
Definition processing_message (e : Exception) : string :=
  ("Error processing CSV: " ++ str e)%string.

Section Outcomes.
Variable E : Environment.

(** The row an upload at time [now] builds from the frame [df] of the
    file [f], and the checks it passed before the row is inserted. *)
Record staged (now : Z) (req : Request) (db : Store)
    (f : UploadedFile) (df : DataFrame) (d : EquipmentDataset.t) : Prop := {
  staged_file : FILES_file req = Some f;
  staged_extension : endswith (name f) ".csv" = true;
  staged_frame : read_csv E f = inr df;
  staged_columns : forallb (contains (columns df)) required_columns = true;
  staged_id : EquipmentDataset.id d = (dataset_seq db + 1)%Z;
  staged_name : EquipmentDataset.name d = name f;
  staged_uploaded_at : EquipmentDataset.uploaded_at d = now;
  staged_uploaded_by : EquipmentDataset.uploaded_by d = user req;
  staged_total_count : EquipmentDataset.total_count d = len df;
  staged_avg_flowrate :
    column_mean E df "Flowrate" = inr (EquipmentDataset.avg_flowrate d);
  staged_avg_pressure :
    column_mean E df "Pressure" = inr (EquipmentDataset.avg_pressure d);
  staged_avg_temperature :
    column_mean E df "Temperature"
    = inr (EquipmentDataset.avg_temperature d);
  staged_equipment_types :
    type_distribution E df = inr (EquipmentDataset.equipment_types d)
}.

(** Why an upload is refused before anything is written, with the
    message of the answer: no file; a name that does not end in [.csv];
    an exception of the parser; a missing column; an exception while the
    statistics are computed; a dataset row that the database rejects. *)
Inductive refusal (now : Z) (req : Request) (db : Store) : string -> Prop :=
| refusal_no_file :
    FILES_file req = None ->
    refusal now req db no_file_message
| refusal_extension f :
    FILES_file req = Some f ->
    endswith (name f) ".csv" = false ->
    refusal now req db wrong_extension_message
| refusal_parser f e :
    FILES_file req = Some f ->
    endswith (name f) ".csv" = true ->
    read_csv E f = inl e ->
    refusal now req db (processing_message e)
| refusal_columns f df :
    FILES_file req = Some f ->
    endswith (name f) ".csv" = true ->
    read_csv E f = inr df ->
    forallb (contains (columns df)) required_columns = false ->
    refusal now req db missing_columns_message
| refusal_statistics f df e :
    FILES_file req = Some f ->
    endswith (name f) ".csv" = true ->
    read_csv E f = inr df ->
    forallb (contains (columns df)) required_columns = true ->
    column_mean E df "Flowrate" = inl e
    \/ column_mean E df "Pressure" = inl e
    \/ column_mean E df "Temperature" = inl e
    \/ type_distribution E df = inl e ->
    refusal now req db (processing_message e)
| refusal_database f df d :
    staged now req db f df d ->
    db_accepts_dataset E d = false ->
    refusal now req db (processing_message (db_error E)).

(** The three ways an upload ends: refused before anything was
    written; interrupted after the dataset row was inserted, by an
    exception of the loop over the rows or by the database rejecting an
    equipment row; or completed, with the dataset row and its equipment
    rows inserted and the retention rule applied. *)
Inductive ingestion (now : Z) (req : Request) (db : Store)
  : Response -> Store -> Prop :=
| ingestion_refused msg :
    refusal now req db msg ->
    ingestion now req db (bad_request msg) db
| ingestion_interrupted f df d e :
    staged now req db f df d ->
    db_accepts_dataset E d = true ->
    equipment_objects E df d = inl e
    \/ (exists objs,
          equipment_objects E df d = inr objs
          /\ forallb (db_accepts_equipment E) objs = false
          /\ e = db_error E) ->
    ingestion now req db
      (bad_request (processing_message e))
      (insert_dataset d db)
| ingestion_completed f df d objs db' :
    staged now req db f df d ->
    db_accepts_dataset E d = true ->
    equipment_objects E df d = inr objs ->
    forallb (db_accepts_equipment E) objs = true ->
    db' = snd (maintain_last_five
                 (insert_equipment objs (insert_dataset d db))) ->
    ingestion now req db
      {| status := HTTP_201_CREATED;
         data := DatasetData d (equipment_items d db') |}
      db'.

End Outcomes.

(* ================================================================= *)
(** * Concrete stores, frames and environments *)

Definition empty_store : Store :=
  {| datasets := []; equipment := []; dataset_seq := 0; equipment_seq := 0 |}.

Definition cell_text (c : cell) : string :=
  match c with
  | Text s => s
  | Num _ => ""
  end.

(** An environment whose parser reads the frame [df] and whose database
    takes every row. The message of [Series.mean] quotes the texts of the
    column, as pandas 2 does on a column of Python objects; a long
    column is added one buffer after the other; [float] refuses every
    text the parser left as text; [repr] and [strftime] are stand-ins,
    right on NaN. *)
Definition lenient_env (df : DataFrame) : Environment :=
  {| read_csv := fun _ => inr df;
     mean_type_error := fun s =>
       Raised ("Could not convert string '"
                 ++ String.concat "" (map cell_text s)
                 ++ "' to numeric")%string;
     sum_pieces := fun _ n => repeat buffersize (n / buffersize);
     float_of_text := fun s =>
       inl (Raised ("could not convert string to float: '" ++ s ++ "'")%string);
     repr_float := format_f 1;
     strftime := str_int;
     db_accepts_dataset := fun _ => true;
     db_accepts_equipment := fun _ => true;
     db_error := Raised "IntegrityError" |}.

(** The same, on a database that cannot store NaN: SQLite binds it as
    NULL, and the float columns of [models.py] are declared without
    [null=True]. *)
Definition not_null_env (df : DataFrame) : Environment :=
  {| read_csv := read_csv (lenient_env df);
     mean_type_error := mean_type_error (lenient_env df);
     sum_pieces := sum_pieces (lenient_env df);
     float_of_text := float_of_text (lenient_env df);
     repr_float := repr_float (lenient_env df);
     strftime := strftime (lenient_env df);
     db_accepts_dataset := fun d =>
       negb (PrimFloat.is_nan (EquipmentDataset.avg_flowrate d))
       && negb (PrimFloat.is_nan (EquipmentDataset.avg_pressure d))
       && negb (PrimFloat.is_nan (EquipmentDataset.avg_temperature d));
     db_accepts_equipment := fun e =>
       negb (PrimFloat.is_nan (Equipment.flowrate e))
       && negb (PrimFloat.is_nan (Equipment.pressure e))
       && negb (PrimFloat.is_nan (Equipment.temperature e));
     db_error := Raised "NOT NULL constraint failed" |}.

(** The same as [lenient_env], with a message of [Series.mean] that
    quotes no cell: pandas 3 reads a column that holds text as a column
    of its string dtype, and its mean is refused for the dtype, whatever
    the cells are. *)
Definition string_dtype_env (df : DataFrame) : Environment :=
  {| read_csv := read_csv (lenient_env df);
     mean_type_error := fun _ =>
       Raised "Cannot perform reduction 'mean' with string dtype";
     sum_pieces := sum_pieces (lenient_env df);
     float_of_text := float_of_text (lenient_env df);
     repr_float := repr_float (lenient_env df);
     strftime := strftime (lenient_env df);
     db_accepts_dataset := db_accepts_dataset (lenient_env df);
     db_accepts_equipment := db_accepts_equipment (lenient_env df);
     db_error := db_error (lenient_env df) |}.

Definition upload_of (file_name : string) : Request :=
  {| FILES_file := Some {| name := file_name; content := "" |};
     user := None |}.

(** The two-row upload of the specification's scenario. *)
Definition pump_valve_frame : DataFrame :=
  {| columns := required_columns;
     rows := [ [Text "Pump1"; Text "Pump"; Num 10; Num 5; Num 20];
               [Text "Valve1"; Text "Valve"; Num 0; Num 2; Num 15] ]%float;
     int64 := [] |}.

(** The store after five uploads of the scenario's file, one at each of
    the times 101 to 105. *)
Definition five_uploads : Store :=
  Eval vm_compute in
    snd ((upload_csv (lenient_env pump_valve_frame) 101 (upload_of "a.csv") ;;;
          upload_csv (lenient_env pump_valve_frame) 102 (upload_of "b.csv") ;;;
          upload_csv (lenient_env pump_valve_frame) 103 (upload_of "c.csv") ;;;
          upload_csv (lenient_env pump_valve_frame) 104 (upload_of "d.csv") ;;;
          upload_csv (lenient_env pump_valve_frame) 105 (upload_of "e.csv"))
           empty_store).

(** The scenario's file with the flow rate of the first row left
    empty. *)
Definition missing_flowrate_frame : DataFrame :=
  {| columns := required_columns;
     rows := [ [Text "Pump1"; Text "Pump"; Num nan; Num 5; Num 20];
               [Text "Valve1"; Text "Valve"; Num 0; Num 2; Num 15] ]%float;
     int64 := [] |}.

(** A file that holds the header line only. *)
Definition header_only_frame : DataFrame :=
  {| columns := required_columns; rows := [];
     int64 := [] |}.

(** The scenario's file with the type of the second row left empty. *)
Definition missing_type_frame : DataFrame :=
  {| columns := required_columns;
     rows := [ [Text "Pump1"; Text "Pump"; Num 10; Num 5; Num 20];
               [Text "Valve1"; Num nan; Num 0; Num 2; Num 15] ]%float;
     int64 := [] |}.

(** The scenario's file without its Type column, and with a flow rate
    that is not a number. *)
Definition no_type_column_frame : DataFrame :=
  {| columns := ["Equipment Name"; "Flowrate"; "Pressure"; "Temperature"]
                  %string;
     rows := [ [Text "Pump1"; Num 10; Num 5; Num 20];
               [Text "Valve1"; Num 0; Num 2; Num 15] ]%float;
     int64 := [] |}.

(** The scenario's file without its Flowrate column. *)
Definition no_flowrate_column_frame : DataFrame :=
  {| columns := ["Equipment Name"; "Type"; "Pressure"; "Temperature"]
                  %string;
     rows := [ [Text "Pump1"; Text "Pump"; Num 5; Num 20];
               [Text "Valve1"; Text "Valve"; Num 2; Num 15] ]%float;
     int64 := [] |}.

(** A file of ten pumps: every flow rate is 0.1, the nearest float to
    it; the pressures are 1e16 and nine times 1.0; the temperatures are
    written without a point and read as integers. *)
Definition tenth : float := 0x1.999999999999ap-4%float.

Definition ten_pumps_row (i : nat) : list cell :=
  [ Text ("Pump" ++ str_int (Z.of_nat i))%string; Text "Pump";
    Num tenth; Num (if (i =? 1)%nat then 1e16 else 1)%float; Num 20%float ].

Definition ten_pumps_frame : DataFrame :=
  {| columns := required_columns;
     rows := map ten_pumps_row (seq 1 10);
     int64 := ["Temperature"%string] |}.

Definition text_flowrate_frame : DataFrame :=
  {| columns := required_columns;
     rows := [ [Text "Pump1"; Text "Pump"; Text "abc"; Num 5; Num 20];
               [Text "Valve1"; Text "Valve"; Text "7,5"; Num 2; Num 15] ]
               %float;
     int64 := [] |}.


(** The invariant of the store between uploads: unique keys, every
    equipment row referencing a key the sequence has handed out, and
    every dataset holding as many equipment rows as its [total_count]. *)
Definition consistent (db : Store) : Prop :=
  well_formed db
  /\ Forall (fun e => (Equipment.dataset e <= dataset_seq db)%Z) (equipment db)
  /\ Forall (fun d => List.length (records_of d db)
                      = EquipmentDataset.total_count d)
            (datasets db).

(** [shown] is [full] cut to at most [n] characters: it is the part of
    [full] before a character boundary, and holds [n] characters, or all
    of them when [full] has fewer. *)
Definition truncated (n : nat) (full shown : string) : Prop :=
  exists rest,
    full = (shown ++ rest)%string
    /\ str_len shown = Nat.min n (str_len full)
    /\ match rest with
       | EmptyString => True
       | String c _ => continuation c = false
       end.

(** A line of the report's equipment table for the row [e]: the name cut
    to 20 characters, the type cut to 15, and the three measurements
    rounded to one digit after the point. *)
Definition listing_line (e : Equipment.t) (line : list string) : Prop :=
  exists nm ty fl pr te,
    line = [nm; ty; fl; pr; te]
    /\ truncated 20 (Equipment.equipment_name e) nm
    /\ truncated 15 (Equipment.type e) ty
    /\ printed 1 (Equipment.flowrate e) fl
    /\ printed 1 (Equipment.pressure e) pr
    /\ printed 1 (Equipment.temperature e) te.

(** The scenario's rows in the opposite order, and the store after
    their upload. *)
Definition valve_pump_frame : DataFrame :=
  {| columns := required_columns;
     rows := [ [Text "Valve1"; Text "Valve"; Num 0; Num 2; Num 15];
               [Text "Pump1"; Text "Pump"; Num 10; Num 5; Num 20] ]%float;
     int64 := [] |}.

Definition valve_pump_store : Store :=
  Eval vm_compute in
    snd (upload_csv (lenient_env valve_pump_frame) 100 (upload_of "plant.csv")
                    empty_store).

(** A file of 25 heat exchangers with long names, and the store after
    its upload. *)
Definition exchanger_row (i : nat) : list cell :=
  [ Text ("Heat Exchanger Unit Number " ++ str_int (Z.of_nat i))%string;
    Text "Shell-and-Tube Exchanger";
    Num (float_of_nat i); Num 2.5%float; Num 0.25%float ].

Definition exchangers_frame : DataFrame :=
  {| columns := required_columns; rows := map exchanger_row (seq 1 25);
     int64 := [] |}.

Definition exchangers_store : Store :=
  Eval vm_compute in
    snd (upload_csv (lenient_env exchangers_frame) 100
                    (upload_of "exchangers.csv") empty_store).

(** A file of 25 coolers whose names and type hold the letter u with
    diaeresis, two bytes in UTF-8, and whose measurements have digits to
    round: the flow rate of the row [i] is [i + 0.75], the pressure
    2.56640625 and the temperature 0.25. The store after its upload. *)
Definition u_diaeresis : string :=
  String (ascii_of_nat 195) (String (ascii_of_nat 188) EmptyString).

Definition cooler_row (i : nat) : list cell :=
  [ Text ("K" ++ u_diaeresis ++ "hler-R" ++ u_diaeresis ++ "ckk"
              ++ u_diaeresis ++ "hlwerk Nummer " ++ str_int (Z.of_nat i))
         %string;
    Text ("R" ++ u_diaeresis ++ "ckk" ++ u_diaeresis ++ "hlwerk mit L"
              ++ u_diaeresis ++ "fter")%string;
    Num (float_of_nat i + 0.75)%float; Num 2.56640625%float;
    Num 0.25%float ].

Definition coolers_frame : DataFrame :=
  {| columns := required_columns; rows := map cooler_row (seq 1 25);
     int64 := [] |}.

Definition coolers_store : Store :=
  Eval vm_compute in
    snd (upload_csv (lenient_env coolers_frame) 100
                    (upload_of "coolers.csv") empty_store).

(** The store that the upload of the file with an empty flow rate leaves
    on the database that rejects NaN: the dataset row is in, its
    equipment rows are not. *)
Definition interrupted_store : Store :=
  Eval vm_compute in
    snd (upload_csv (not_null_env missing_flowrate_frame) 100
                    (upload_of "plant.csv") empty_store).

(* ================================================================= *)
(** * The other views of [views.py] *)

(** [upload_csv] as the view set calls it. The body of the request is
    parsed when the view first reads [request.FILES], at line 41, which
    is before the [try] of line 56: an exception of the request parser
    (DRF's [ParseError], [UnsupportedMediaType]) leaves the view from
    there. [request] is that exception, or the request once parsed. *)
Definition upload_csv_action (E : Environment) (now : Z)
    (request : result Request) : M Response :=
  match request with
  | inl e => raise e
  | inr request => upload_csv E now request
  end.

(** The float nearest to the rational [num / den], for positive [num] and
    [den]: the quotient is scaled to a 53-bit mantissa, rounded ties to
    even, and scaled back. *)
Definition nearest_float (num den : Z) : float :=
  let l := (Z.log2 num - Z.log2 den)%Z in
  let scale k := if (0 <=? k)%Z then (num * 2 ^ k / den)%Z
                 else (num / (den * 2 ^ (- k)))%Z in
  let k0 := (52 - l)%Z in
  let k := if (2 ^ 53 <=? scale k0)%Z then (k0 - 1)%Z
           else if (scale k0 <? 2 ^ 52)%Z then (k0 + 1)%Z else k0 in
  let mant := if (0 <=? k)%Z then round_half_even (num * 2 ^ k) den
              else round_half_even num (den * 2 ^ (- k)) in
  Z.ldexp (PrimFloat.of_uint63 (Uint63.of_Z mant)) (- k).

(** [round(x, ndigits)] on a float, for [ndigits >= 0]: the decimal
    nearest to [x], ties to even, then the float nearest to that decimal. *)
Definition py_round (ndigits : nat) (x : float) : float :=
  match Prim2SF x with
  | S754_finite s m e =>
      if (0 <=? e)%Z then x
      else
        let n := scaled_digits ndigits m e in
        if (n =? 0)%Z then (if s then (-0)%float else 0%float)
        else
          let r := nearest_float n (10 ^ Z.of_nat ndigits) in
          if s then PrimFloat.opp r else r
  | _ => x
  end.

Module Summary.
(** The [summary_data] of the [summary] view; the three averages are its
    nested [statistics]. *)
Record t : Type := {
  id : Z;
  name : string;
  uploaded_at : Z;
  total_count : nat;
  avg_flowrate : float;
  avg_pressure : float;
  avg_temperature : float;
  equipment_types : JsonObject
}.
End Summary.

(** [summary]: the status and the data of the answer. *)
Definition summary (pk : Z) : M (nat * Summary.t) :=
  dataset <- get_object pk ;;
  let summary_data :=
    {| Summary.id := EquipmentDataset.id dataset;
       Summary.name := EquipmentDataset.name dataset;
       Summary.uploaded_at := EquipmentDataset.uploaded_at dataset;
       Summary.total_count := EquipmentDataset.total_count dataset;
       Summary.avg_flowrate :=
         py_round 2 (EquipmentDataset.avg_flowrate dataset);
       Summary.avg_pressure :=
         py_round 2 (EquipmentDataset.avg_pressure dataset);
       Summary.avg_temperature :=
         py_round 2 (EquipmentDataset.avg_temperature dataset);
       Summary.equipment_types :=
         EquipmentDataset.equipment_types dataset |} in
  ret (HTTP_200_OK, summary_data).

(** [datasets_to_delete] of [upload_csv], on the store it is evaluated
    on: the datasets after the fifth most recent when more than five are
    stored, none otherwise. *)
Definition datasets_to_delete (db : Store) : list EquipmentDataset.t :=
  if (5 <? List.length (EquipmentDataset_objects_all db))%nat
  then slice_from 5 EquipmentDataset_objects_all db
  else [].

(* ================================================================= *)
(** * More vocabulary *)

(** Every equipment row references a stored dataset. *)
Definition referential (db : Store) : Prop :=
  forall e, In e (equipment db) ->
            exists d, In d (datasets db)
                      /\ EquipmentDataset.id d = Equipment.dataset e.

(** The equipment row [e] holds the cells of the file row [row]: the
    name and the type as stored strings, the three measurements as
    floats. *)
Definition ingested_row (E : Environment) (df : DataFrame)
    (row : list cell) (e : Equipment.t) : Prop :=
  exists c0 c1 c2 c3 c4,
    row_getitem (columns df) row "Equipment Name" = inr c0
    /\ row_getitem (columns df) row "Type" = inr c1
    /\ row_getitem (columns df) row "Flowrate" = inr c2
    /\ row_getitem (columns df) row "Pressure" = inr c3
    /\ row_getitem (columns df) row "Temperature" = inr c4
    /\ Equipment.equipment_name e = char_value E c0
    /\ Equipment.type e = char_value E c1
    /\ py_float E c2 = inr (Equipment.flowrate e)
    /\ py_float E c3 = inr (Equipment.pressure e)
    /\ py_float E c4 = inr (Equipment.temperature e).

(** More counts first. *)
Definition at_least_as_frequent (a b : string * nat) : Prop :=
  (snd b <= snd a)%nat.

(* ================================================================= *)
(** * The desktop client ([desktop-app/main.py]) *)

Module Desktop.

(** [s.split(sep)] for a separator of one character. *)
Fixpoint split (sep : ascii) (s : string) : list string :=
  match s with
  | EmptyString => [EmptyString]
  | String c s' =>
      if Ascii.eqb c sep then EmptyString :: split sep s'
      else
        match split sep s' with
        | [] => [String c EmptyString]
        | part :: parts => String c part :: parts
        end
  end.

(** [l[-1]] on a list that is not empty. *)
Definition last_item (l : list string) : string := List.last l EmptyString.

(** The widgets [select_file] touches. *)
Record UploadBox : Type := {
  selected_file : option string;
  file_label : string;
  upload_btn_enabled : bool
}.

(** [select_file], for the path the file dialog returned (empty when the
    dialog was cancelled). *)
Definition select_file (file_path : string) (w : UploadBox) : UploadBox :=
  match file_path with
  | EmptyString => w
  | _ =>
      {| selected_file := Some file_path;
         file_label :=
           ("Selected: " ++ last_item (split "/" file_path))%string;
         upload_btn_enabled := true |}
  end.

(** The JSON of a dataset as the client holds it: the fields, and the
    equipment items when the answer carries them. *)
Record DatasetJson : Type := {
  fields : EquipmentDataset.t;
  equipment_items : option (list Equipment.t)
}.

(** [dataset.get('equipment_items', [])]. *)
Definition get_equipment_items (dataset : DatasetJson) : list Equipment.t :=
  match equipment_items dataset with
  | Some items => items
  | None => []
  end.

(** The three lines of the third chart, over the same item names. *)
Record LineChart : Type := {
  line_names : list string;
  line_flowrates : list float;
  line_pressures : list float;
  line_temperatures : list float
}.

(** What [update_visualizations] draws: the pie of the types, the bars
    of the three averages, and the line chart, which is left blank when
    there are no items. *)
Record Charts : Type := {
  pie_counts : list nat;
  pie_labels : list string;
  pie_colors : list string;
  bar_values : list float;
  line_chart : option LineChart
}.

Definition colors : list string :=
  ["#667eea"; "#764ba2"; "#48bb78"; "#ed8936"; "#e53e3e"; "#319795"]%string.

(** [ax1.pie(counts, ...)] raises a [ValueError] when the wedge sizes
    sum to zero, as they do when there is no wedge. *)
Definition pie_raises (counts : list nat) : bool :=
  (list_sum counts =? 0)%nat.

(** [update_visualizations]: the charts drawn, or [None] when the pie
    raised; the pie is the first chart, so that nothing is drawn
    then. *)
Definition update_visualizations (dataset : DatasetJson) : option Charts :=
  let types := map fst (EquipmentDataset.equipment_types (fields dataset)) in
  let counts := map snd (EquipmentDataset.equipment_types (fields dataset)) in
  if pie_raises counts then None
  else
    let equipment_items := firstn 10 (get_equipment_items dataset) in
    Some
      {| pie_counts := counts;
         pie_labels := types;
         pie_colors := firstn (List.length types) colors;
         bar_values := [ EquipmentDataset.avg_flowrate (fields dataset);
                         EquipmentDataset.avg_pressure (fields dataset);
                         EquipmentDataset.avg_temperature (fields dataset) ];
         line_chart :=
           match equipment_items with
           | [] => None
           | _ :: _ =>
               Some {| line_names :=
                         map (fun item =>
                                slice_to 10 (Equipment.equipment_name item))
                             equipment_items;
                       line_flowrates :=
                         map Equipment.flowrate equipment_items;
                       line_pressures :=
                         map Equipment.pressure equipment_items;
                       line_temperatures :=
                         map Equipment.temperature equipment_items |}
           end |}.

End Desktop.

(** The character [c] occurs in [s]. *)
Fixpoint has_char (c : ascii) (s : string) : bool :=
  match s with
  | EmptyString => false
  | String c' s' => Ascii.eqb c' c || has_char c s'
  end.
(* ================================================================= *)
(** * Facts about [order_by] *)

Section OrderingFacts.
Context {A : Type}.
Variable leb : A -> A -> bool.

Lemma insert_sorted_perm x l : Permutation (x :: l) (insert_sorted leb x l).
Proof.
  induction l as [|y l IH]; simpl; [reflexivity|].
  destruct (leb x y); [reflexivity|].
  rewrite perm_swap. now apply perm_skip.
Qed.

Lemma order_by_perm l : Permutation l (order_by leb l).
Proof.
  induction l as [|x l IH]; simpl; [constructor|].
  etransitivity; [apply perm_skip, IH | apply insert_sorted_perm].
Qed.

Lemma order_by_length l : List.length (order_by leb l) = List.length l.
Proof. symmetry. apply Permutation_length, order_by_perm. Qed.

Lemma order_by_In x l : In x (order_by leb l) <-> In x l.
Proof.
  split; apply Permutation_in;
    [symmetry|]; apply order_by_perm.
Qed.

Hypothesis leb_total : forall x y, leb x y = true \/ leb y x = true.

Let le x y := leb x y = true.

Lemma insert_sorted_HdRel a x l :
  le a x -> HdRel le a l -> HdRel le a (insert_sorted leb x l).
Proof.
  intros Hax Hal. destruct l as [|y l]; simpl; [now constructor|].
  destruct (leb x y); constructor; [assumption|].
  now inversion Hal.
Qed.

Lemma insert_sorted_Sorted x l :
  Sorted le l -> Sorted le (insert_sorted leb x l).
Proof.
  induction 1 as [|y l Hl IH Hy]; simpl.
  - repeat constructor.
  - destruct (leb x y) eqn:Hxy.
    + constructor; [now constructor|]. now constructor.
    + constructor; [assumption|].
      apply insert_sorted_HdRel; [|assumption].
      destruct (leb_total x y) as [H|H]; [congruence|exact H].
Qed.

Lemma order_by_Sorted l : Sorted le (order_by leb l).
Proof.
  induction l; simpl; [constructor|now apply insert_sorted_Sorted].
Qed.

Hypothesis leb_trans : forall x y z, le x y -> le y z -> le x z.

Lemma order_by_StronglySorted l : StronglySorted le (order_by leb l).
Proof.
  apply Sorted_StronglySorted; [|apply order_by_Sorted].
  intros x y z. apply leb_trans.
Qed.
End OrderingFacts.

(* ================================================================= *)
(** * Facts about the Python helpers *)

Lemma slice_to_split n s :
  exists rest,
    s = (slice_to n s ++ rest)%string
    /\ match rest with
       | EmptyString => True
       | String c _ => continuation c = false
       end.
Proof.
  revert n. induction s as [|c s IH]; intros n.
  - exists EmptyString. split; [reflexivity|exact I].
  - cbn [slice_to]. destruct (continuation c) eqn:Hc.
    + destruct (IH n) as (rest & Hs & Hrest).
      exists rest. split; [|exact Hrest]. cbn [append]. now rewrite <- Hs.
    + destruct n as [|n].
      * exists (String c s). split; [reflexivity|exact Hc].
      * destruct (IH n) as (rest & Hs & Hrest).
        exists rest. split; [|exact Hrest]. cbn [append]. now rewrite <- Hs.
Qed.

Lemma slice_to_str_len n s :
  str_len (slice_to n s) = Nat.min n (str_len s).
Proof.
  revert n. induction s as [|c s IH]; intros n.
  - simpl. now rewrite Nat.min_0_r.
  - cbn [slice_to str_len]. destruct (continuation c) eqn:Hc.
    + cbn [str_len]. rewrite Hc. apply IH.
    + destruct n as [|n]; [reflexivity|].
      cbn [str_len]. rewrite Hc, IH. reflexivity.
Qed.

Lemma slice_to_truncated n s : truncated n s (slice_to n s).
Proof.
  destruct (slice_to_split n s) as (rest & Hs & Hrest).
  exists rest. split; [exact Hs|]. split; [apply slice_to_str_len|exact Hrest].
Qed.

(** Text below 128 has one byte for each character. *)
Lemma str_len_ascii s :
  (forall c, In c (list_ascii_of_string s) -> continuation c = false) ->
  str_len s = String.length s.
Proof.
  induction s as [|c s IH]; intros H; [reflexivity|].
  cbn [str_len String.length]. rewrite (H c) by (left; reflexivity).
  f_equal. apply IH. intros c' Hc'. apply H. right. exact Hc'.
Qed.

Lemma append_length (a b : string) :
  String.length (a ++ b)%string = (String.length a + String.length b)%nat.
Proof. induction a; simpl; auto. Qed.

Lemma append_assoc (a b c : string) :
  ((a ++ b) ++ c = a ++ (b ++ c))%string.
Proof. induction a; simpl; congruence. Qed.

Lemma prefix_append p s :
  String.prefix p s = true <-> exists t, s = (p ++ t)%string.
Proof.
  revert s. induction p as [|c p IH]; intros s.
  - split; [intros _; exists s; reflexivity|]. intros _. now destruct s.
  - destruct s as [|c' s]; simpl.
    + split; [discriminate|]. intros [t Ht]. discriminate Ht.
    + destruct (ascii_dec c c') as [->|Hne].
      * rewrite IH. split; intros [t Ht]; exists t; congruence.
      * split; [discriminate|]. intros [t Ht]. congruence.
Qed.

Lemma occurs_in_occursb sub s : occurs_in sub s -> occursb sub s = true.
Proof.
  intros (pre & post & ->).
  induction pre as [|c pre IH]; cbn [append occursb].
  - assert (H : String.prefix sub (sub ++ post) = true)
      by (apply prefix_append; now exists post).
    destruct (sub ++ post)%string; cbn [occursb]; now rewrite H.
  - rewrite IH. apply orb_true_r.
Qed.

Lemma digits_fixed_length k n : String.length (digits_fixed k n) = k.
Proof.
  revert n. induction k as [|k IH]; intros n; simpl; [reflexivity|].
  rewrite append_length, IH. simpl. lia.
Qed.


(** ** Sums and means *)


Lemma sums_to_snoc xs a x : sums_to xs a -> sums_to (xs ++ [x]) (a + x)%float.
Proof. intros H. apply sums_to_add; [exact H|constructor]. Qed.

Lemma fold_add_sums_to xs ys acc :
  sums_to ys acc -> sums_to (ys ++ xs) (fold_left PrimFloat.add xs acc).
Proof.
  revert ys acc. induction xs as [|x xs IH]; intros ys acc H; simpl.
  - now rewrite app_nil_r.
  - replace (ys ++ x :: xs) with ((ys ++ [x]) ++ xs)
      by (rewrite <- app_assoc; reflexivity).
    apply IH. now apply sums_to_snoc.
Qed.

Lemma Permutation_lanes {A} (ls : list (list A)) (xs : list A) :
  List.length ls = List.length xs ->
  Permutation (List.concat (map (fun p => fst p ++ [snd p]) (combine ls xs)))
              (List.concat ls ++ xs).
Proof.
  revert xs. induction ls as [|l ls IH]; intros [|x xs] Hlen;
    try discriminate Hlen; simpl; [constructor|].
  rewrite <- !app_assoc. apply Permutation_app_head. simpl.
  apply Permutation_cons_app. apply IH. now injection Hlen.
Qed.

Lemma lanes_sums_to l0 l1 l2 l3 l4 l5 l6 l7 r0 r1 r2 r3 r4 r5 r6 r7 :
  sums_to l0 r0 -> sums_to l1 r1 -> sums_to l2 r2 -> sums_to l3 r3 ->
  sums_to l4 r4 -> sums_to l5 r5 -> sums_to l6 r6 -> sums_to l7 r7 ->
  sums_to (List.concat [l0; l1; l2; l3; l4; l5; l6; l7])
          (((r0 + r1) + (r2 + r3)) + ((r4 + r5) + (r6 + r7)))%float.
Proof.
  intros H0 H1 H2 H3 H4 H5 H6 H7.
  pose proof (sums_to_add _ _ _ _
                (sums_to_add _ _ _ _ (sums_to_add _ _ _ _ H0 H1)
                                     (sums_to_add _ _ _ _ H2 H3))
                (sums_to_add _ _ _ _ (sums_to_add _ _ _ _ H4 H5)
                                     (sums_to_add _ _ _ _ H6 H7))) as H.
  rewrite <- !app_assoc in H. cbn [List.concat]. now rewrite app_nil_r.
Qed.

Lemma accumulate_sums_to a :
  forall l0 l1 l2 l3 l4 l5 l6 l7 r0 r1 r2 r3 r4 r5 r6 r7,
    sums_to l0 r0 -> sums_to l1 r1 -> sums_to l2 r2 -> sums_to l3 r3 ->
    sums_to l4 r4 -> sums_to l5 r5 -> sums_to l6 r6 -> sums_to l7 r7 ->
    sums_to (List.concat [l0; l1; l2; l3; l4; l5; l6; l7] ++ a)
            (accumulate r0 r1 r2 r3 r4 r5 r6 r7 a).
Proof.
  induction a as [a IH] using (induction_ltof1 _ (@List.length float)).
  intros l0 l1 l2 l3 l4 l5 l6 l7 r0 r1 r2 r3 r4 r5 r6 r7
         H0 H1 H2 H3 H4 H5 H6 H7.
  pose proof (lanes_sums_to _ _ _ _ _ _ _ _ _ _ _ _ _ _ _ _
                H0 H1 H2 H3 H4 H5 H6 H7) as Hlanes.
  destruct a as [|x0 [|x1 [|x2 [|x3 [|x4 [|x5 [|x6 [|x7 a']]]]]]]];
    try (cbn [accumulate]; apply fold_add_sums_to; exact Hlanes).
  cbn [accumulate].
  eapply sums_to_perm;
    [|apply (IH a');
      [unfold ltof; simpl; lia
      |apply sums_to_snoc, H0|apply sums_to_snoc, H1
      |apply sums_to_snoc, H2|apply sums_to_snoc, H3
      |apply sums_to_snoc, H4|apply sums_to_snoc, H5
      |apply sums_to_snoc, H6|apply sums_to_snoc, H7]].
  change (x0 :: x1 :: x2 :: x3 :: x4 :: x5 :: x6 :: x7 :: a')
    with ([x0; x1; x2; x3; x4; x5; x6; x7] ++ a').
  rewrite (app_assoc (List.concat [l0; l1; l2; l3; l4; l5; l6; l7])).
  apply Permutation_app_tail.
  apply (Permutation_lanes [l0; l1; l2; l3; l4; l5; l6; l7]
                           [x0; x1; x2; x3; x4; x5; x6; x7]).
  reflexivity.
Qed.

Lemma block_sum_sums_to a : sums_to a (block_sum a).
Proof.
  destruct a as [|x0 [|x1 [|x2 [|x3 [|x4 [|x5 [|x6 [|x7 a']]]]]]]];
    try (apply (fold_add_sums_to _ [] (-0)%float); constructor).
  cbn [block_sum].
  apply (accumulate_sums_to a' [x0] [x1] [x2] [x3] [x4] [x5] [x6] [x7]);
    constructor.
Qed.

Lemma pairwise_sum_rec_sums_to depth a : sums_to a (pairwise_sum_rec depth a).
Proof.
  revert a. induction depth as [|depth IH]; intros a; cbn [pairwise_sum_rec].
  - apply block_sum_sums_to.
  - cbv zeta. destruct (128 <? List.length a)%nat; [|apply block_sum_sums_to].
    set (n2 := (List.length a / 2 - (List.length a / 2) mod 8)%nat).
    rewrite <- (firstn_skipn n2 a) at 1.
    apply sums_to_add; apply IH.
Qed.

Lemma split_point n :
  (128 < n)%nat ->
  (1 <= n / 2 - (n / 2) mod 8 /\ n / 2 - (n / 2) mod 8 < n)%nat.
Proof.
  intros Hn.
  pose proof (Nat.div_mod_eq n 2) as H2.
  pose proof (Nat.mod_upper_bound n 2 ltac:(lia)) as Hr2.
  pose proof (Nat.mod_upper_bound (n / 2) 8 ltac:(lia)) as Hr8.
  lia.
Qed.

Lemma pairwise_sum_rec_any d1 :
  forall d2 a,
    (List.length a <= d1)%nat -> (List.length a <= d2)%nat ->
    pairwise_sum_rec d1 a = pairwise_sum_rec d2 a.
Proof.
  induction d1 as [|d1 IH]; intros d2 a H1 H2.
  - destruct a; [|simpl in H1; lia]. destruct d2; reflexivity.
  - destruct d2 as [|d2].
    + destruct a; [|simpl in H2; lia]. reflexivity.
    + cbn [pairwise_sum_rec]. cbv zeta.
      destruct (128 <? List.length a)%nat eqn:Hn; [|reflexivity].
      apply Nat.ltb_lt in Hn. destruct (split_point _ Hn) as [Hlo Hhi].
      f_equal; apply IH;
        rewrite ?length_firstn, ?length_skipn; lia.
Qed.

(** The depth that [pairwise_sum] gives is enough: a larger one gives
    the same sum. *)
Lemma pairwise_sum_rec_depth d a :
  (List.length a <= d)%nat -> pairwise_sum_rec d a = pairwise_sum a.
Proof. intros H. now apply pairwise_sum_rec_any. Qed.

Lemma pieces_concat sizes :
  forall xs, List.concat (pieces sizes xs) = xs.
Proof.
  induction sizes as [|n sizes IH]; intros xs; cbn [pieces List.concat].
  - apply app_nil_r.
  - rewrite IH. apply firstn_skipn.
Qed.

Lemma fold_pairwise_sums_to chunks :
  forall ys acc,
    sums_to ys acc ->
    sums_to (ys ++ List.concat chunks)
            (fold_left (fun acc chunk => (acc + pairwise_sum chunk)%float)
                       chunks acc).
Proof.
  induction chunks as [|c chunks IH]; intros ys acc H; simpl.
  - now rewrite app_nil_r.
  - rewrite app_assoc. apply IH. apply sums_to_add; [exact H|].
    apply pairwise_sum_rec_sums_to.
Qed.

(** What numpy computes is a sum of the values handed to it, whatever
    the pieces. *)
Lemma add_reduce_sums_to sizes xs : sums_to xs (add_reduce sizes xs).
Proof.
  unfold add_reduce.
  rewrite <- (pieces_concat sizes xs) at 1.
  apply (fold_pairwise_sums_to _ [] 0%float). constructor.
Qed.

(** Fewer than eight values are added from the first to the last. *)
Lemma add_reduce_short xs :
  (List.length xs < 8)%nat ->
  add_reduce [] xs = (0 + fold_left PrimFloat.add xs (-0))%float.
Proof.
  intros H. unfold add_reduce, pairwise_sum. cbn [pieces fold_left].
  f_equal.
  destruct xs as [|x0 [|x1 [|x2 [|x3 [|x4 [|x5 [|x6 [|x7 a']]]]]]]];
    try reflexivity.
  simpl in H. lia.
Qed.

Lemma nansum_present sizes xs :
  Forall present xs -> nansum sizes (map Num xs) = add_reduce sizes xs.
Proof.
  intros Hxs. unfold nansum. f_equal.
  induction Hxs as [|x xs Hx _ IH]; simpl; [reflexivity|].
  unfold present in Hx. now rewrite Hx, IH.
Qed.

Lemma filter_notna_present xs :
  Forall present xs -> filter notna (map Num xs) = map Num xs.
Proof.
  induction 1 as [|x xs Hx _ IH]; simpl; [reflexivity|].
  unfold notna at 1. simpl. unfold present in Hx. rewrite Hx. simpl.
  now rewrite IH.
Qed.

Lemma nanmean_present sizes xs :
  Forall present xs -> xs <> [] ->
  nanmean sizes (map Num xs)
  = PrimFloat.div (add_reduce sizes xs) (float_of_nat (List.length xs)).
Proof.
  intros Hxs Hne. unfold nanmean.
  rewrite filter_notna_present, length_map, nansum_present by assumption.
  destruct xs; [congruence|reflexivity].
Qed.

Lemma nanmean_nil sizes : nanmean sizes [] = nan.
Proof. reflexivity. Qed.

Lemma existsb_is_text_nums xs : existsb is_text (map Num xs) = false.
Proof. induction xs; simpl; auto. Qed.

(** ** Columns of a frame *)

Lemma get_loc_contains labels col :
  contains labels col = true -> exists i, get_loc labels col = Some i.
Proof.
  unfold contains. induction labels as [|l labels IH]; simpl; [discriminate|].
  rewrite String.eqb_sym.
  destruct (String.eqb l col); simpl; [now eexists|].
  intros H. destruct (IH H) as [i ->]. now eexists.
Qed.

Lemma getitem_length df col s :
  getitem df col = inr s -> List.length s = len df.
Proof.
  unfold getitem, len. destruct (get_loc (columns df) col); [|discriminate].
  intros [= <-]. apply length_map.
Qed.

Lemma required_columns_contains df col :
  forallb (contains (columns df)) required_columns = true ->
  In col required_columns ->
  contains (columns df) col = true.
Proof.
  intros H Hin. rewrite forallb_forall in H. now apply H.
Qed.

(* ================================================================= *)
(** * What an upload does to the store *)

Lemma for_each_delete_returns l db :
  for_each l delete db = (inr tt, snd (for_each l delete db)).
Proof.
  revert db. induction l as [|x l IH]; intros db; [reflexivity|].
  simpl. unfold bind. simpl. apply IH.
Qed.

Section Ingestion.
Variable E : Environment.

Lemma maintain_last_five_returns db :
  maintain_last_five db = (inr tt, snd (maintain_last_five db)).
Proof.
  unfold maintain_last_five, bind, count, fetch.
  destruct (5 <? _)%nat; [|reflexivity].
  apply for_each_delete_returns.
Qed.


(** The upload has answered and left the store as it was: name the
    reason of the refusal. *)
Ltac refused_with reason :=
  do 2 eexists; split; [reflexivity|]; constructor; reason.

Lemma upload_csv_ingestion now req db :
  exists resp db',
    upload_csv E now req db = (inr resp, db')
    /\ ingestion E now req db resp db'.
Proof.
  unfold upload_csv.
  destruct (FILES_file req) as [f|] eqn:Hfile;
    [|refused_with ltac:(now constructor)].
  destruct (endswith (name f) ".csv") eqn:Hext; cbn [negb];
    [|refused_with ltac:(now apply refusal_extension with f)].
  unfold try_except, bind, lift.
  destruct (read_csv E f) as [e|df] eqn:Hread;
    [refused_with ltac:(now apply refusal_parser with f)|].
  destruct (forallb (contains (columns df)) required_columns) eqn:Hcols;
    cbn [negb];
    [|refused_with ltac:(now apply refusal_columns with f df)].
  destruct (column_mean E df "Flowrate") as [e|a1] eqn:H1;
    [refused_with ltac:(apply refusal_statistics with f df; auto)|].
  destruct (column_mean E df "Pressure") as [e|a2] eqn:H2;
    [refused_with ltac:(apply refusal_statistics with f df; auto)|].
  destruct (column_mean E df "Temperature") as [e|a3] eqn:H3;
    [refused_with ltac:(apply refusal_statistics with f df; auto)|].
  destruct (type_distribution E df) as [e|td] eqn:H4;
    [refused_with ltac:(apply refusal_statistics with f df; auto)|].
  unfold EquipmentDataset_objects_create.
  match goal with
  | |- context [db_accepts_dataset E ?obj] => set (d := obj)
  end.
  assert (Hst : staged E now req db f df d) by (constructor; auto).
  destruct (db_accepts_dataset E d) eqn:Hacc;
    [|refused_with ltac:(now apply refusal_database with f df d)].
  destruct (equipment_objects E df d) as [e|objs] eqn:Hobjs;
    [do 2 eexists; split; [reflexivity|econstructor 2; eauto]|].
  unfold Equipment_objects_bulk_create.
  destruct (forallb (db_accepts_equipment E) objs) eqn:Hall;
    [|do 2 eexists; split; [reflexivity|econstructor 2; eauto 6]].
  rewrite maintain_last_five_returns.
  unfold serializer_data, bind, fetch, ret.
  do 2 eexists; split; [reflexivity|].
  econstructor 3; eauto.
Qed.

Lemma upload_csv_inv now req db resp db' :
  upload_csv E now req db = (inr resp, db') ->
  ingestion E now req db resp db'.
Proof.
  intros H.
  destruct (upload_csv_ingestion now req db) as (r & s & Heq & Hin).
  rewrite Heq in H. now inversion H; subst.
Qed.

(** The view catches what it raises: it always answers. *)
Lemma upload_csv_answers now req db :
  exists resp, fst (upload_csv E now req db) = inr resp.
Proof.
  destruct (upload_csv_ingestion now req db) as (r & s & Heq & _).
  exists r. now rewrite Heq.
Qed.

End Ingestion.

(* ================================================================= *)
(** * Summary statistics of an upload *)

Section Statistics.
Variable E : Environment.

Lemma column_mean_present df col xs :
  getitem df col = inr (map Num xs) ->
  Forall present xs ->
  (1 <= len df)%nat ->
  column_mean E df col
  = inr (PrimFloat.div
           (add_reduce (sum_sizes E (contains (int64 df) col) (len df)) xs)
           (float_of_nat (len df))).
Proof.
  intros Hcol Hxs Hlen. unfold column_mean, mean. rewrite Hcol.
  rewrite existsb_is_text_nums.
  pose proof (getitem_length _ _ _ Hcol) as Hl.
  rewrite Hl. rewrite length_map in Hl.
  rewrite nanmean_present, Hl; [reflexivity|assumption|].
  intros ->. simpl in Hl. lia.
Qed.

Lemma staged_frame_eq now req db f df f' df' d :
  FILES_file req = Some f ->
  read_csv E f = inr df ->
  staged E now req db f' df' d ->
  f' = f /\ df' = df.
Proof.
  intros Hf Hr [Hf' _ Hr' _ _ _ _ _ _ _ _ _ _].
  assert (f' = f) by congruence. subst. split; congruence.
Qed.

Lemma column_mean_numeric df col s :
  getitem df col = inr s ->
  existsb is_text s = false ->
  column_mean E df col
  = inr (nanmean (sum_sizes E (contains (int64 df) col) (List.length s)) s).
Proof.
  intros Hs Htext. unfold column_mean, mean. now rewrite Hs, Htext.
Qed.

Lemma type_distribution_defined df :
  forallb (contains (columns df)) required_columns = true ->
  exists td, type_distribution E df = inr td.
Proof.
  intros Hcols. unfold type_distribution, getitem.
  destruct (get_loc_contains (columns df) "Type") as [i ->].
  - apply (required_columns_contains df); [exact Hcols|simpl; auto].
  - now eexists.
Qed.

Lemma getitem_no_text df col s row :
  getitem df col = inr s ->
  existsb is_text s = false ->
  In row (rows df) ->
  exists x, row_getitem (columns df) row col = inr (Num x).
Proof.
  unfold getitem, row_getitem.
  destruct (get_loc (columns df) col) as [i|]; [|discriminate].
  intros [= <-] Htext Hrow.
  destruct (nth i row (Num nan)) as [x|t] eqn:Hcell; [now exists x|].
  exfalso. rewrite <- not_true_iff_false in Htext. apply Htext.
  apply existsb_exists. exists (Text t). split; [|reflexivity].
  rewrite <- Hcell. now apply (in_map (fun r => nth i r (Num nan))).
Qed.

Lemma row_getitem_defined df row col :
  forallb (contains (columns df)) required_columns = true ->
  In col required_columns ->
  exists c, row_getitem (columns df) row col = inr c.
Proof.
  intros Hcols Hin. unfold row_getitem.
  destruct (get_loc_contains (columns df) col) as [i ->];
    [now apply required_columns_contains|now eexists].
Qed.

(** The loop over the rows raises nothing when the three numeric columns
    hold no text. *)
Lemma equipment_objects_defined df d s1 s2 s3 :
  forallb (contains (columns df)) required_columns = true ->
  getitem df "Flowrate" = inr s1 -> existsb is_text s1 = false ->
  getitem df "Pressure" = inr s2 -> existsb is_text s2 = false ->
  getitem df "Temperature" = inr s3 -> existsb is_text s3 = false ->
  exists objs, equipment_objects E df d = inr objs.
Proof.
  intros Hcols H1 T1 H2 T2 H3 T3. unfold equipment_objects.
  assert (Hrows : forall row, In row (rows df) ->
                              exists e, equipment_object E df d row = inr e).
  { intros row Hrow. unfold equipment_object.
    destruct (row_getitem_defined df row "Equipment Name" Hcols) as [c ->];
      [simpl; auto|].
    destruct (row_getitem_defined df row "Type" Hcols) as [c' ->];
      [simpl; auto|].
    destruct (getitem_no_text _ _ _ _ H1 T1 Hrow) as [x1 ->].
    destruct (getitem_no_text _ _ _ _ H2 T2 Hrow) as [x2 ->].
    destruct (getitem_no_text _ _ _ _ H3 T3 Hrow) as [x3 ->].
    simpl. now eexists. }
  induction (rows df) as [|row l IH]; simpl; [now eexists|].
  destruct (Hrows row) as [e ->]; [now left|].
  destruct IH as [objs ->]; [|now eexists].
  intros r Hr. apply Hrows. now right.
Qed.

(** A file that passes the checks, with numeric columns free of text,
    is ingested when the database takes its rows. *)
Lemma upload_csv_accepted now req db f df s1 s2 s3 resp db' :
  FILES_file req = Some f ->
  endswith (name f) ".csv" = true ->
  read_csv E f = inr df ->
  forallb (contains (columns df)) required_columns = true ->
  getitem df "Flowrate" = inr s1 -> existsb is_text s1 = false ->
  getitem df "Pressure" = inr s2 -> existsb is_text s2 = false ->
  getitem df "Temperature" = inr s3 -> existsb is_text s3 = false ->
  (forall d, db_accepts_dataset E d = true) ->
  (forall e, db_accepts_equipment E e = true) ->
  upload_csv E now req db = (inr resp, db') ->
  status resp = HTTP_201_CREATED.
Proof.
  intros Hf Hext Hr Hcols H1 T1 H2 T2 H3 T3 Hds Heq Hrun.
  apply upload_csv_inv in Hrun.
  destruct Hrun as [msg Hwhy|f' df' d e Hst _ Hwhy|]; [| |reflexivity];
    exfalso.
  - destruct Hwhy as [Hn|f' Hf' He|f' e Hf' _ Hr'|f' df' Hf' _ Hr' Hc
                      |f' df' e Hf' _ Hr' _ Hstat|f' df' d _ Hrej];
      try congruence.
    assert (f' = f) by congruence. subst.
    assert (df' = df) by congruence. subst.
    rewrite (column_mean_numeric _ _ _ H1 T1),
      (column_mean_numeric _ _ _ H2 T2),
      (column_mean_numeric _ _ _ H3 T3) in Hstat.
    destruct (type_distribution_defined df Hcols) as [td Htd].
    rewrite Htd in Hstat.
    destruct Hstat as [H|[H|[H|H]]]; discriminate H.
  - destruct (staged_frame_eq _ _ _ _ _ _ _ _ Hf Hr Hst) as [-> ->].
    destruct (equipment_objects_defined df d _ _ _ Hcols H1 T1 H2 T2 H3 T3)
      as [objs Hobjs].
    rewrite Hobjs in Hwhy.
    destruct Hwhy as [H|(objs' & H & Hrej & _)]; [discriminate H|].
    rewrite <- not_true_iff_false in Hrej. apply Hrej.
    apply forallb_forall. intros x _. apply Heq.
Qed.

(** C1. For a frame of N >= 1 rows whose Flowrate, Pressure and
    Temperature cells are all present numbers, the upload answers; when it
    succeeds it answers with a dataset whose [total_count] is N and whose
    three averages are the sum of the column divided by N, the sum being
    the one numpy takes, a sum of exactly the N values of the column in
    floating point; and it succeeds whenever the database takes the
    rows. *)
Theorem upload_csv_statistics now req db f df flow press temp :
  FILES_file req = Some f ->
  endswith (name f) ".csv" = true ->
  read_csv E f = inr df ->
  forallb (contains (columns df)) required_columns = true ->
  getitem df "Flowrate" = inr (map Num flow) -> Forall present flow ->
  getitem df "Pressure" = inr (map Num press) -> Forall present press ->
  getitem df "Temperature" = inr (map Num temp) -> Forall present temp ->
  (1 <= len df)%nat ->
  exists resp db',
    upload_csv E now req db = (inr resp, db')
    /\ (status resp = HTTP_201_CREATED ->
        exists d items,
          data resp = DatasetData d items
          /\ EquipmentDataset.total_count d = len df
          /\ average_of (sum_sizes E (contains (int64 df) "Flowrate") (len df))
                        flow (len df) (EquipmentDataset.avg_flowrate d)
          /\ average_of (sum_sizes E (contains (int64 df) "Pressure") (len df))
                        press (len df) (EquipmentDataset.avg_pressure d)
          /\ average_of
               (sum_sizes E (contains (int64 df) "Temperature") (len df))
               temp (len df) (EquipmentDataset.avg_temperature d)
          /\ ((len df <= buffersize)%nat ->
              EquipmentDataset.avg_flowrate d
              = ((0 + pairwise_sum flow) / float_of_nat (len df))%float
              /\ EquipmentDataset.avg_pressure d
                 = ((0 + pairwise_sum press) / float_of_nat (len df))%float
              /\ EquipmentDataset.avg_temperature d
                 = ((0 + pairwise_sum temp) / float_of_nat (len df))%float))
    /\ ((forall d, db_accepts_dataset E d = true) ->
        (forall e, db_accepts_equipment E e = true) ->
        status resp = HTTP_201_CREATED).
Proof.
  intros Hf Hext Hr Hcols Hc1 Hp1 Hc2 Hp2 Hc3 Hp3 Hlen.
  destruct (upload_csv_ingestion E now req db) as (resp & db' & Hrun & Hin).
  exists resp, db'. split; [exact Hrun|]. split.
  - intros Hok.
    destruct Hin as [msg _|f' df' d e Hst _ _|f' df' d objs db2 Hst _ _ _ _];
      try discriminate Hok.
    destruct (staged_frame_eq _ _ _ _ _ _ _ _ Hf Hr Hst) as [-> ->].
    destruct Hst as [_ _ _ _ _ _ _ _ Hn Ha1 Ha2 Ha3 _].
    rewrite (column_mean_present _ _ _ Hc1 Hp1 Hlen) in Ha1.
    rewrite (column_mean_present _ _ _ Hc2 Hp2 Hlen) in Ha2.
    rewrite (column_mean_present _ _ _ Hc3 Hp3 Hlen) in Ha3.
    pose proof (getitem_length _ _ _ Hc1) as Hl1.
    pose proof (getitem_length _ _ _ Hc2) as Hl2.
    pose proof (getitem_length _ _ _ Hc3) as Hl3.
    rewrite length_map in Hl1, Hl2, Hl3. fold (len df) in Hl1, Hl2, Hl3.
    exists d, (equipment_items d db2). simpl.
    split; [reflexivity|]. split; [exact Hn|].
    injection Ha1 as Ha1. injection Ha2 as Ha2. injection Ha3 as Ha3.
    unfold average_of.
    split; [split; [exact Hl1|split; [apply add_reduce_sums_to|]];
            now symmetry|].
    split; [split; [exact Hl2|split; [apply add_reduce_sums_to|]];
            now symmetry|].
    split; [split; [exact Hl3|split; [apply add_reduce_sums_to|]];
            now symmetry|].
    intros Hshort. apply Nat.leb_le in Hshort.
    unfold sum_sizes in Ha1, Ha2, Ha3. rewrite Hshort in Ha1, Ha2, Ha3.
    repeat split; now symmetry.
  - intros Hds Heq.
    eapply (upload_csv_accepted now req db f df); eauto;
      apply existsb_is_text_nums.
Qed.

End Statistics.

(** The scenario of the specification: the rows
    [("Pump1","Pump",10.0,5.0,20.0)] and [("Valve1","Valve",0.0,2.0,15.0)]
    are stored with [total_count = 2], averages 5.0, 3.5 and 17.5 and the
    distribution [{"Pump": 1, "Valve": 1}]. *)
Lemma upload_csv_statistics_scenario :
  exists resp db',
    upload_csv (lenient_env pump_valve_frame) 100 (upload_of "plant.csv")
               empty_store = (inr resp, db')
    /\ status resp = HTTP_201_CREATED
    /\ exists d items,
        data resp = DatasetData d items
        /\ EquipmentDataset.total_count d = 2%nat
        /\ EquipmentDataset.avg_flowrate d = 5%float
        /\ EquipmentDataset.avg_pressure d = 3.5%float
        /\ EquipmentDataset.avg_temperature d = 17.5%float
        /\ EquipmentDataset.equipment_types d
           = [("Pump", 1%nat); ("Valve", 1%nat)]%string.
Proof.
  destruct (upload_csv_statistics (lenient_env pump_valve_frame)
              100 (upload_of "plant.csv") empty_store
              {| name := "plant.csv"; content := "" |} pump_valve_frame
              [10; 0]%float [5; 2]%float [20; 15]%float
              eq_refl eq_refl eq_refl eq_refl eq_refl
              ltac:(repeat constructor) eq_refl
              ltac:(repeat constructor) eq_refl
              ltac:(repeat constructor)
              ltac:(vm_compute; lia))
    as (resp & db' & Hrun & Hvalues & Hok).
  specialize (Hok (fun _ => eq_refl) (fun _ => eq_refl)).
  destruct (Hvalues Hok)
    as (d & items & Hd & Hn
        & (_ & _ & H1) & (_ & _ & H2) & (_ & _ & H3) & _).
  exists resp, db'. split; [exact Hrun|]. split; [exact Hok|].
  exists d, items. split; [exact Hd|].
  split; [exact Hn|]. split; [exact H1|]. split; [exact H2|].
  split; [exact H3|].
  vm_compute in Hrun. injection Hrun as <- _. simpl in Hd.
  injection Hd as <- _. reflexivity.
Defined.

(** Ten rows. The flow rates, ten times 0.1, are added in pairs and
    average 0.1 again, where adding them one after the other would give
    0.09999999999999999; of the pressures 1e16 and nine times 1.0, added
    in pairs, 1e16 + 8 is left, and they average 1000000000000000.75. *)
Lemma upload_csv_statistics_ten_pumps :
  exists resp db' d items,
    upload_csv (lenient_env ten_pumps_frame) 100 (upload_of "pumps.csv")
               empty_store = (inr resp, db')
    /\ resp = {| status := HTTP_201_CREATED; data := DatasetData d items |}
    /\ EquipmentDataset.total_count d = 10%nat
    /\ EquipmentDataset.avg_flowrate d = tenth
    /\ (fold_left PrimFloat.add (repeat tenth 10) 0 / 10)%float
       = 0x1.9999999999999p-4%float
    /\ EquipmentDataset.avg_pressure d = 1000000000000000.75%float
    /\ EquipmentDataset.avg_temperature d = 20%float.
Proof.
  do 4 eexists. split; [vm_compute; reflexivity|].
  repeat split.
Qed.

(* ================================================================= *)
(** * The retention rule *)

Lemma filter_filter {A} (p q : A -> bool) l :
  filter p (filter q l) = filter (fun a => q a && p a) l.
Proof.
  induction l as [|a l IH]; simpl; [reflexivity|].
  destruct (q a); simpl; [destruct (p a)|]; now rewrite IH.
Qed.

Lemma filter_Permutation {A} (p : A -> bool) l l' :
  Permutation l l' -> Permutation (filter p l) (filter p l').
Proof.
  induction 1 as [|a l l' _ IH|a b l|l1 l2 l3 _ IH1 _ IH2]; simpl.
  - constructor.
  - destruct (p a); [now constructor|assumption].
  - destruct (p a), (p b); try reflexivity. apply perm_swap.
  - now transitivity (filter p l2).
Qed.

Lemma filter_none {A} (p : A -> bool) l :
  (forall a, In a l -> p a = false) -> filter p l = [].
Proof.
  induction l as [|a l IH]; intros H; simpl; [reflexivity|].
  rewrite (H a) by now left. apply IH. intros b Hb. apply H. now right.
Qed.

Lemma filter_all {A} (p : A -> bool) l :
  (forall a, In a l -> p a = true) -> filter p l = l.
Proof.
  intros H. apply forallb_filter_id, forallb_forall, H.
Qed.

Lemma NoDup_app_disjoint {A} (l1 l2 : list A) :
  NoDup (l1 ++ l2) -> forall a, In a l1 -> ~ In a l2.
Proof.
  induction l1 as [|x l1 IH]; simpl; intros Hnd a Hin; [contradiction|].
  inversion Hnd as [|? ? Hx Hnd']; subst.
  destruct Hin as [->|Hin]; [|now apply IH].
  intros Ha. apply Hx, in_or_app. now right.
Qed.

Lemma StronglySorted_app_le {A} (R : A -> A -> Prop) l1 l2 :
  StronglySorted R (l1 ++ l2) ->
  forall a b, In a l1 -> In b l2 -> R a b.
Proof.
  induction l1 as [|x l1 IH]; simpl; intros Hs a b Ha Hb; [contradiction|].
  apply StronglySorted_inv in Hs. destruct Hs as [Hs Hx].
  destruct Ha as [->|Ha]; [|now apply (IH Hs)].
  rewrite Forall_forall in Hx. apply Hx, in_or_app. now right.
Qed.

Lemma In_firstn {A} n (l : list A) x : In x (firstn n l) -> In x l.
Proof.
  rewrite <- (firstn_skipn n l) at 2. intros H. apply in_or_app. now left.
Qed.

Lemma StronglySorted_firstn {A} (R : A -> A -> Prop) n l :
  StronglySorted R l -> StronglySorted R (firstn n l).
Proof.
  revert l. induction n as [|n IH]; intros l Hs; simpl; [constructor|].
  destruct l as [|a l]; [constructor|].
  apply StronglySorted_inv in Hs. destruct Hs as [Hs Ha].
  constructor; [now apply IH|].
  rewrite Forall_forall in *. intros b Hb. apply Ha.
  eapply In_firstn, Hb.
Qed.

Lemma newest_first_sorted l :
  StronglySorted newer_or_same (order_by newest_first l).
Proof.
  pose proof (order_by_StronglySorted newest_first) as H.
  eapply StronglySorted_ind with (P := StronglySorted newer_or_same);
    [constructor| |apply H].
  - intros a l' _ IH Ha. constructor; [exact IH|].
    rewrite Forall_forall in *. intros b Hb.
    specialize (Ha b Hb). unfold newest_first in Ha. unfold newer_or_same.
    lia.
  - intros x y. unfold newest_first. lia.
  - intros x y z. unfold newest_first. lia.
Qed.

(** What the cascade of [delete] calls leaves in the two tables. *)
Lemma for_each_delete_datasets l db :
  datasets (snd (for_each l delete db))
  = filter (fun d =>
              negb (existsb (fun x => (EquipmentDataset.id d
                                       =? EquipmentDataset.id x)%Z) l))
           (datasets db).
Proof.
  revert db. induction l as [|x l IH]; intros db; simpl.
  - symmetry. apply filter_all. reflexivity.
  - unfold bind. simpl. rewrite IH. simpl. rewrite filter_filter.
    apply filter_ext. intros d. now rewrite negb_orb.
Qed.

Lemma for_each_delete_equipment l db :
  equipment (snd (for_each l delete db))
  = filter (fun e =>
              negb (existsb (fun x => (Equipment.dataset e
                                       =? EquipmentDataset.id x)%Z) l))
           (equipment db).
Proof.
  revert db. induction l as [|x l IH]; intros db; simpl.
  - symmetry. apply filter_all. reflexivity.
  - unfold bind. simpl. rewrite IH. simpl. rewrite filter_filter.
    apply filter_ext. intros d. now rewrite negb_orb.
Qed.

(** After the rule ran, the table holds the five most recent rows it
    held before, or all of them if they were five or fewer. *)
Lemma maintain_last_five_datasets db :
  NoDup (map EquipmentDataset.id (datasets db)) ->
  Permutation (datasets (snd (maintain_last_five db)))
              (firstn 5 (order_by newest_first (datasets db))).
Proof.
  intros Hnd. unfold maintain_last_five, bind, count, fetch, slice_from,
    EquipmentDataset_objects_all.
  set (sorted := order_by newest_first (datasets db)).
  assert (Hperm : Permutation (datasets db) sorted)
    by apply order_by_perm.
  destruct (5 <? List.length sorted)%nat eqn:Hlen.
  - rewrite for_each_delete_datasets.
    set (gone := skipn 5 sorted).
    match goal with
    | |- context [filter ?p (datasets db)] => set (keep := p)
    end.
    rewrite (filter_Permutation keep _ _ Hperm).
    rewrite <- (firstn_skipn 5 sorted) at 1. fold gone.
    rewrite filter_app.
    assert (Hids : NoDup (map EquipmentDataset.id (firstn 5 sorted ++ gone))).
    { unfold gone. rewrite firstn_skipn.
      eapply Permutation_NoDup; [apply Permutation_map, Hperm|exact Hnd]. }
    rewrite map_app in Hids.
    rewrite (filter_none keep gone), app_nil_r.
    + rewrite filter_all; [reflexivity|].
      intros a Ha. unfold keep. apply negb_true_iff.
      match goal with
      | |- existsb ?f ?l = false => destruct (existsb f l) eqn:Hex
      end; [|reflexivity]. exfalso.
      apply existsb_exists in Hex. destruct Hex as (x & Hx & Heq).
      apply Z.eqb_eq in Heq.
      apply (NoDup_app_disjoint _ _ Hids (EquipmentDataset.id a)).
      * now apply in_map.
      * rewrite Heq. now apply in_map.
    + intros a Ha. unfold keep. apply negb_false_iff, existsb_exists.
      exists a. split; [assumption|apply Z.eqb_refl].
  - unfold ret. cbn [snd]. apply Nat.ltb_ge in Hlen.
    now rewrite firstn_all2.
Qed.

Lemma insert_dataset_fresh d db :
  well_formed db ->
  EquipmentDataset.id d = (dataset_seq db + 1)%Z ->
  NoDup (map EquipmentDataset.id (datasets db ++ [d])).
Proof.
  intros [Hnd Hle] Hid. rewrite map_app. apply NoDup_app.
  - exact Hnd.
  - repeat constructor. intros [].
  - intros a Ha [<-|[]].
    apply in_map_iff in Ha. destruct Ha as (x & Hx & Hin).
    rewrite Forall_forall in Hle. specialize (Hle x Hin). lia.
Qed.

Lemma history_list_recent db :
  exists recent,
    history_list db
    = (inr {| status := HTTP_200_OK; data := SummaryList recent |}, db)
    /\ (List.length recent <= 5)%nat
    /\ StronglySorted newer_or_same recent
    /\ recent = firstn 5 (order_by newest_first (datasets db)).
Proof.
  eexists. split; [reflexivity|].
  unfold slice_until, order_by_uploaded_at_desc, EquipmentDataset_objects_all.
  split; [apply firstn_le_length|].
  split; [apply StronglySorted_firstn, newest_first_sorted|].
  f_equal.
  generalize (newest_first_sorted (datasets db)).
  generalize (order_by newest_first (datasets db)) as l.
  induction l as [|a l IH]; intros Hs; [reflexivity|].
  apply StronglySorted_inv in Hs. destruct Hs as [Hs Ha].
  simpl. rewrite (IH Hs). clear IH Hs.
  destruct l as [|b l]; [reflexivity|]. simpl.
  inversion Ha as [|? ? Hab _]; subst.
  unfold newest_first, newer_or_same in *.
  destruct (Z.leb_spec (EquipmentDataset.uploaded_at b)
                       (EquipmentDataset.uploaded_at a)); [reflexivity|lia].
Qed.

Section Retention.
Variable E : Environment.

(** C2. After a successful upload the store holds at most five
    datasets: the five most recent of those it held once the new row was
    inserted. When more than five were held exactly five remain, and no
    deleted dataset is newer than a remaining one. The history listing
    then returns the stored datasets, at most five, most recent first. *)
Theorem upload_csv_retention now req db resp db' :
  well_formed db ->
  upload_csv E now req db = (inr resp, db') ->
  status resp = HTTP_201_CREATED ->
  exists d recent,
    let stored := datasets db ++ [d] in
    (List.length (datasets db') <= 5)%nat
    /\ Permutation (datasets db') (firstn 5 (order_by newest_first stored))
    /\ ((5 < List.length stored)%nat -> List.length (datasets db') = 5%nat)
    /\ (forall kept gone,
           In kept (datasets db') -> In gone stored ->
           ~ In gone (datasets db') -> newer_or_same kept gone)
    /\ history_list db'
       = (inr {| status := HTTP_200_OK; data := SummaryList recent |}, db')
    /\ (List.length recent <= 5)%nat
    /\ StronglySorted newer_or_same recent
    /\ Permutation recent (datasets db').
Proof.
  intros Hwf Hrun Hok. apply upload_csv_inv in Hrun.
  destruct Hrun as [msg _|f df d e Hst _ _|f df d objs db2 Hst _ _ _ Hdb];
    try discriminate Hok.
  pose proof (insert_dataset_fresh d db Hwf (staged_id _ _ _ _ _ _ _ Hst))
    as Hnd.
  pose proof (maintain_last_five_datasets
                (insert_equipment objs (insert_dataset d db)) Hnd) as Hperm.
  rewrite <- Hdb in Hperm. cbn [insert_equipment insert_dataset datasets]
    in Hperm.
  set (stored := datasets db ++ [d]) in *.
  set (sorted := order_by newest_first stored) in *.
  assert (Hlen : (List.length (datasets db2) <= 5)%nat).
  { rewrite (Permutation_length Hperm). apply firstn_le_length. }
  destruct (history_list_recent db2) as (recent & Hhist & Hr5 & Hrs & Hreq).
  exists d, recent. cbv zeta. fold stored. fold sorted.
  repeat split; try assumption.
  - intros Hmore. rewrite (Permutation_length Hperm), length_firstn.
    unfold sorted. rewrite order_by_length. lia.
  - intros kept gone Hk Hg Hng.
    apply (StronglySorted_app_le newer_or_same (firstn 5 sorted)
                                 (skipn 5 sorted)).
    + rewrite firstn_skipn. apply newest_first_sorted.
    + eapply Permutation_in; [exact Hperm|exact Hk].
    + assert (Hin : In gone (firstn 5 sorted ++ skipn 5 sorted)).
      { rewrite firstn_skipn. now apply order_by_In. }
      apply in_app_or in Hin. destruct Hin as [Hin|Hin]; [|exact Hin].
      exfalso. apply Hng.
      eapply Permutation_in; [symmetry; exact Hperm|exact Hin].
  - rewrite Hreq, firstn_all2.
    + symmetry. apply order_by_perm.
    + now rewrite order_by_length.
Qed.

End Retention.

Lemma five_uploads_well_formed : well_formed five_uploads.
Proof.
  split.
  - repeat constructor; simpl; intuition discriminate.
  - repeat constructor; simpl; lia.
Qed.

(** A sixth upload, at time 106, onto five stored datasets: the oldest
    one (key 1) is deleted, and the history lists the new dataset and the
    four most recent of the former five, newest first. *)
Lemma upload_csv_retention_sixth_upload :
  exists resp db',
    upload_csv (lenient_env pump_valve_frame) 106 (upload_of "f.csv")
               five_uploads = (inr resp, db')
    /\ status resp = HTTP_201_CREATED
    /\ map EquipmentDataset.id (datasets five_uploads) = [1; 2; 3; 4; 5]%Z
    /\ map EquipmentDataset.id (datasets db') = [2; 3; 4; 5; 6]%Z
    /\ exists recent,
        history_list db'
        = (inr {| status := HTTP_200_OK; data := SummaryList recent |}, db')
        /\ map EquipmentDataset.id recent = [6; 5; 4; 3; 2]%Z
        /\ StronglySorted newer_or_same recent.
Proof.
  eexists. eexists. split; [vm_compute; reflexivity|].
  split; [reflexivity|]. split; [reflexivity|]. split; [reflexivity|].
  destruct (upload_csv_retention (lenient_env pump_valve_frame)
              106 (upload_of "f.csv") five_uploads _ _
              five_uploads_well_formed
              ltac:(vm_compute; reflexivity) eq_refl)
    as (d & recent & _ & _ & _ & _ & Hhist & _ & Hsorted & _).
  exists recent. split; [exact Hhist|]. split; [|exact Hsorted].
  vm_compute in Hhist. injection Hhist as <-. reflexivity.
Defined.

(* ================================================================= *)
(** * What an upload persists *)

Lemma collect_length {A B} (f : A -> result B) l ys :
  collect f l = inr ys -> List.length ys = List.length l.
Proof.
  revert ys. induction l as [|x l IH]; simpl; intros ys H.
  - now inversion H.
  - destruct (f x); [discriminate|].
    destruct (collect f l); [discriminate|].
    inversion H; subst. simpl. f_equal. now apply IH.
Qed.

Lemma collect_Forall {A B} (f : A -> result B) (P : B -> Prop) l ys :
  (forall x y, f x = inr y -> P y) ->
  collect f l = inr ys -> Forall P ys.
Proof.
  intros HP. revert ys. induction l as [|x l IH]; simpl; intros ys H.
  - inversion H. constructor.
  - destruct (f x) eqn:Hx; [discriminate|].
    destruct (collect f l); [discriminate|].
    inversion H; subst. constructor; [eapply HP, Hx|now apply IH].
Qed.

Section Persistence.
Variable E : Environment.

Lemma equipment_object_dataset df d row e :
  equipment_object E df d row = inr e ->
  Equipment.dataset e = EquipmentDataset.id d.
Proof.
  unfold equipment_object.
  repeat match goal with
         | |- context [match ?x with inl _ => _ | inr _ => _ end] =>
             destruct x; [discriminate|]
         end.
  now intros [= <-].
Qed.

Lemma equipment_objects_count df d objs :
  equipment_objects E df d = inr objs ->
  List.length objs = len df
  /\ Forall (fun e => Equipment.dataset e = EquipmentDataset.id d) objs.
Proof.
  unfold equipment_objects, len. intros H. split.
  - eapply collect_length, H.
  - eapply collect_Forall; [|exact H].
    intros row e. apply equipment_object_dataset.
Qed.

(** C3, as the code has it. An upload opens no transaction: it inserts
    the dataset row, then all its equipment rows in one bulk insert. It
    ends in one of three ways. Completed: the dataset row and one
    equipment row per row of the file, all referencing it, were inserted
    before the retention rule ran. Refused, for one of the reasons of
    [refusal]: the store is as it was. Interrupted, by an exception of
    the loop over the rows or by the database rejecting an equipment row:
    no equipment row was inserted, and the new dataset row stays in the
    store. *)
Theorem upload_csv_persistence now req db resp db' :
  upload_csv E now req db = (inr resp, db') ->
  (status resp = HTTP_201_CREATED
   /\ exists d objs,
       data resp = DatasetData d (equipment_items d db')
       /\ List.length objs = EquipmentDataset.total_count d
       /\ Forall (fun e => Equipment.dataset e = EquipmentDataset.id d) objs
       /\ db' = snd (maintain_last_five
                       (insert_equipment objs (insert_dataset d db))))
  \/ (exists msg,
         resp = bad_request msg /\ refusal E now req db msg /\ db' = db)
  \/ (exists f df d e,
         resp = bad_request (processing_message e)
         /\ staged E now req db f df d
         /\ (equipment_objects E df d = inl e
             \/ exists objs,
                 equipment_objects E df d = inr objs
                 /\ forallb (db_accepts_equipment E) objs = false
                 /\ e = db_error E)
         /\ db' = insert_dataset d db
         /\ equipment db' = equipment db).
Proof.
  intros Hrun. apply upload_csv_inv in Hrun.
  destruct Hrun as [msg Hwhy|f df d e Hst _ Hwhy
                    |f df d objs db2 Hst _ Hobjs _ Hdb].
  - right. left. now exists msg.
  - right. right. exists f, df, d, e.
    split; [reflexivity|]. split; [exact Hst|]. split; [exact Hwhy|].
    split; reflexivity.
  - left. split; [reflexivity|]. exists d, objs.
    destruct (equipment_objects_count _ _ _ Hobjs) as [Hlen Hfk].
    repeat split; try assumption.
    rewrite (staged_total_count _ _ _ _ _ _ _ Hst). exact Hlen.
Qed.

End Persistence.

(** C3 fails as stated. On a database that rejects NaN, the file whose
    first row has no flow rate passes the statistics (the mean skips the
    missing cell), its dataset row is inserted, and the bulk insert of
    its rows is then rejected: the upload answers 400 and the store, empty
    before, holds a dataset with [total_count = 2] and no equipment
    row. *)
Lemma upload_csv_not_atomic :
  exists resp db' d,
    upload_csv (not_null_env missing_flowrate_frame) 100
               (upload_of "plant.csv") empty_store = (inr resp, db')
    /\ resp = {| status := HTTP_400_BAD_REQUEST;
                 data := Error "Error processing CSV: NOT NULL constraint failed" |}
    /\ db' <> empty_store
    /\ datasets db' = [d]
    /\ EquipmentDataset.total_count d = 2%nat
    /\ equipment db' = [].
Proof.
  do 3 eexists. split; [vm_compute; reflexivity|].
  repeat split. discriminate.
Qed.

(** The three outcomes, each on a concrete upload to the empty store:
    completed, refused, interrupted. *)
Lemma upload_csv_persistence_runs :
  (exists resp db',
      upload_csv (lenient_env pump_valve_frame) 100 (upload_of "plant.csv")
                 empty_store = (inr resp, db')
      /\ status resp = HTTP_201_CREATED
      /\ List.length (datasets db') = 1%nat
      /\ List.length (equipment db') = 2%nat)
  /\ (exists resp,
         upload_csv (lenient_env pump_valve_frame) 100 (upload_of "plant.txt")
                    empty_store = (inr resp, empty_store)
         /\ refusal (lenient_env pump_valve_frame) 100 (upload_of "plant.txt")
                    empty_store wrong_extension_message)
  /\ (exists resp db' d,
         upload_csv (not_null_env missing_flowrate_frame) 100
                    (upload_of "plant.csv") empty_store = (inr resp, db')
         /\ status resp = HTTP_400_BAD_REQUEST
         /\ db' = insert_dataset d empty_store
         /\ EquipmentDataset.total_count d = 2%nat
         /\ equipment db' = []).
Proof.
  split; [|split].
  - do 2 eexists. split; [vm_compute; reflexivity|].
    destruct (upload_csv_persistence (lenient_env pump_valve_frame) 100
                (upload_of "plant.csv") empty_store _ _
                ltac:(vm_compute; reflexivity))
      as [[Hok _]|[(msg & Hbad & _)|(f & df & d & e & Hbad & _)]];
      [|discriminate Hbad|discriminate Hbad].
    split; [exact Hok|]. split; reflexivity.
  - eexists. split; [vm_compute; reflexivity|].
    destruct (upload_csv_persistence (lenient_env pump_valve_frame) 100
                (upload_of "plant.txt") empty_store _ _
                ltac:(vm_compute; reflexivity))
      as [[Hok _]|[(msg & Hbad & Hwhy & _)|(f & df & d & e & _ & Hst & _)]].
    + discriminate Hok.
    + injection Hbad as <-. exact Hwhy.
    + destruct Hst as [Hf Hext _ _ _ _ _ _ _ _ _ _ _].
      injection Hf as <-. discriminate Hext.
  - destruct (upload_csv_persistence (not_null_env missing_flowrate_frame)
                100 (upload_of "plant.csv") empty_store _ _
                ltac:(vm_compute; reflexivity))
      as [[Hok _]|[(msg & _ & _ & Hdb)|(f & df & d & e & _ & Hst & _ & Hdb & Heq)]].
    + discriminate Hok.
    + discriminate Hdb.
    + do 2 eexists. exists d. split; [vm_compute; reflexivity|].
      split; [reflexivity|]. split; [exact Hdb|].
      split; [|exact Heq].
      destruct Hst as [Hf _ Hr _ _ _ _ _ Hn _ _ _ _].
      injection Hf as <-. injection Hr as <-. exact Hn.
Defined.

(* ================================================================= *)
(** * A file without data rows *)

Lemma nan_is_not_zero : nan <> 0%float.
Proof.
  intros H. apply (f_equal PrimFloat.is_nan) in H.
  vm_compute in H. discriminate H.
Qed.

Section NoRows.
Variable E : Environment.

Lemma column_mean_no_rows df col a :
  rows df = [] -> column_mean E df col = inr a -> a = nan.
Proof.
  unfold column_mean, getitem. intros Hrows.
  destruct (get_loc (columns df) col); [|discriminate].
  rewrite Hrows. simpl. unfold mean. simpl. now intros [= <-].
Qed.

(** C4, as the code has it. For a file with no data rows each average is
    the mean of an empty column, which is NaN and not 0.0. The upload
    either succeeds, answering a dataset with [total_count = 0] and three
    NaN averages, or fails and leaves the store unchanged. *)
Theorem upload_csv_no_rows now req db resp db' f df :
  FILES_file req = Some f ->
  read_csv E f = inr df ->
  rows df = [] ->
  upload_csv E now req db = (inr resp, db') ->
  (status resp = HTTP_201_CREATED
   /\ exists d,
       data resp = DatasetData d (equipment_items d db')
       /\ EquipmentDataset.total_count d = 0%nat
       /\ EquipmentDataset.avg_flowrate d = nan
       /\ EquipmentDataset.avg_pressure d = nan
       /\ EquipmentDataset.avg_temperature d = nan)
  \/ (status resp = HTTP_400_BAD_REQUEST /\ db' = db).
Proof.
  intros Hf Hr Hrows Hrun. apply upload_csv_inv in Hrun.
  destruct Hrun as [msg _|f' df' d e Hst _ Hwhy|f' df' d objs db2 Hst _ _ _ _].
  - right. auto.
  - exfalso.
    destruct (staged_frame_eq _ _ _ _ _ _ _ _ _ Hf Hr Hst) as [-> ->].
    unfold equipment_objects in Hwhy. rewrite Hrows in Hwhy. simpl in Hwhy.
    destruct Hwhy as [H|(objs & H & Hrej & _)]; [discriminate H|].
    injection H as <-. discriminate Hrej.
  - left. split; [reflexivity|]. exists d.
    destruct (staged_frame_eq _ _ _ _ _ _ _ _ _ Hf Hr Hst) as [-> ->].
    destruct Hst as [_ _ _ _ _ _ _ _ Hn Ha1 Ha2 Ha3 _].
    repeat split.
    + rewrite Hn. unfold len. now rewrite Hrows.
    + eapply column_mean_no_rows; eassumption.
    + eapply column_mean_no_rows; eassumption.
    + eapply column_mean_no_rows; eassumption.
Qed.

End NoRows.

(** C4 fails as stated. On the database that takes every row, the upload
    of a header-only file succeeds with an average flow rate that is NaN,
    not 0.0; on the database that rejects NaN the same upload fails. *)
Lemma upload_csv_no_rows_not_zero :
  (exists resp db' d items,
      upload_csv (lenient_env header_only_frame) 100 (upload_of "empty.csv")
                 empty_store = (inr resp, db')
      /\ resp = {| status := HTTP_201_CREATED; data := DatasetData d items |}
      /\ EquipmentDataset.total_count d = 0%nat
      /\ PrimFloat.is_nan (EquipmentDataset.avg_flowrate d) = true
      /\ EquipmentDataset.avg_flowrate d <> 0%float)
  /\ (exists resp,
         upload_csv (not_null_env header_only_frame) 100
                    (upload_of "empty.csv") empty_store
         = (inr resp, empty_store)
         /\ status resp = HTTP_400_BAD_REQUEST).
Proof.
  split.
  - do 4 eexists. split; [vm_compute; reflexivity|].
    repeat split. apply nan_is_not_zero.
  - eexists. split; [vm_compute; reflexivity|]. reflexivity.
Qed.

(** Both outcomes of the upload of a header-only file. *)
Lemma upload_csv_no_rows_runs :
  (exists resp db' d,
      upload_csv (lenient_env header_only_frame) 100 (upload_of "empty.csv")
                 empty_store = (inr resp, db')
      /\ status resp = HTTP_201_CREATED
      /\ data resp = DatasetData d (equipment_items d db')
      /\ EquipmentDataset.avg_flowrate d = nan
      /\ EquipmentDataset.avg_pressure d = nan
      /\ EquipmentDataset.avg_temperature d = nan)
  /\ (exists resp db',
         upload_csv (not_null_env header_only_frame) 100
                    (upload_of "empty.csv") empty_store = (inr resp, db')
         /\ status resp = HTTP_400_BAD_REQUEST
         /\ db' = empty_store).
Proof.
  split.
  - destruct (upload_csv_no_rows (lenient_env header_only_frame) 100
                (upload_of "empty.csv") empty_store
                {| status := HTTP_201_CREATED;
                   data := DatasetData
                     {| EquipmentDataset.id := 1;
                        EquipmentDataset.name := "empty.csv";
                        EquipmentDataset.uploaded_at := 100;
                        EquipmentDataset.uploaded_by := None;
                        EquipmentDataset.file := "empty.csv";
                        EquipmentDataset.total_count := 0;
                        EquipmentDataset.avg_flowrate := nan;
                        EquipmentDataset.avg_pressure := nan;
                        EquipmentDataset.avg_temperature := nan;
                        EquipmentDataset.equipment_types := [] |} [] |}
                (snd (upload_csv (lenient_env header_only_frame) 100
                        (upload_of "empty.csv") empty_store))
                {| name := "empty.csv"; content := "" |} header_only_frame
                eq_refl eq_refl eq_refl ltac:(vm_compute; reflexivity))
      as [[Hok (d & Hd & _ & H1 & H2 & H3)]|[Hbad _]]; [|discriminate Hbad].
    exists {| status := HTTP_201_CREATED;
              data := DatasetData d
                        (equipment_items d
                           (snd (upload_csv (lenient_env header_only_frame)
                                   100 (upload_of "empty.csv")
                                   empty_store))) |}.
    eexists. exists d.
    split; [rewrite <- Hd; vm_compute; reflexivity|].
    repeat split; assumption.
  - destruct (upload_csv_no_rows (not_null_env header_only_frame) 100
                (upload_of "empty.csv") empty_store
                (bad_request "Error processing CSV: NOT NULL constraint failed")
                empty_store
                {| name := "empty.csv"; content := "" |} header_only_frame
                eq_refl eq_refl eq_refl ltac:(vm_compute; reflexivity))
      as [[Hok _]|[Hbad Hdb]]; [discriminate Hok|].
    do 2 eexists. split; [vm_compute; reflexivity|].
    split; reflexivity.
Defined.

(* ================================================================= *)
(** * The type distribution *)

Lemma list_sum_Permutation l l' :
  Permutation l l' -> list_sum l = list_sum l'.
Proof.
  induction 1; simpl; lia.
Qed.

Lemma tally_keys label acc k :
  In k (map fst (tally label acc)) <-> k = label \/ In k (map fst acc).
Proof.
  induction acc as [|[k' n] acc IH]; simpl.
  - intuition.
  - destruct (String.eqb_spec k' label) as [->|Hne]; simpl.
    + intuition.
    + rewrite IH. intuition.
Qed.

Lemma tally_NoDup label acc :
  NoDup (map fst acc) -> NoDup (map fst (tally label acc)).
Proof.
  induction acc as [|[k n] acc IH]; simpl; intros Hnd.
  - repeat constructor. intros [].
  - inversion Hnd as [|? ? Hk Hnd']; subst.
    destruct (String.eqb_spec k label) as [->|Hne]; simpl.
    + now constructor.
    + constructor; [|now apply IH].
      rewrite tally_keys. intros [->|H]; [congruence|contradiction].
Qed.

Lemma tally_sum label acc :
  list_sum (map snd (tally label acc)) = S (list_sum (map snd acc)).
Proof.
  induction acc as [|[k n] acc IH]; simpl; [reflexivity|].
  destruct (String.eqb k label); simpl; [reflexivity|].
  rewrite IH. lia.
Qed.

Lemma tally_all_spec labels :
  let counted := tally_all labels in
  NoDup (map fst counted)
  /\ (forall k, In k (map fst counted) <-> In k labels)
  /\ list_sum (map snd counted) = List.length labels.
Proof.
  unfold tally_all.
  assert (H : forall acc,
             NoDup (map fst acc) ->
             let counted := fold_left (fun a l => tally l a) labels acc in
             NoDup (map fst counted)
             /\ (forall k, In k (map fst counted)
                           <-> In k labels \/ In k (map fst acc))
             /\ list_sum (map snd counted)
                = (List.length labels + list_sum (map snd acc))%nat).
  { induction labels as [|l labels IH]; intros acc Hnd; simpl.
    - intuition.
    - destruct (IH (tally l acc) (tally_NoDup l acc Hnd)) as (H1 & H2 & H3).
      split; [exact H1|]. split.
      + intros k. rewrite H2, tally_keys. intuition.
      + rewrite H3, tally_sum. lia. }
  destruct (H [] (NoDup_nil _)) as (H1 & H2 & H3).
  split; [exact H1|]. split.
  - intros k. rewrite H2. simpl. intuition.
  - rewrite H3. simpl. lia.
Qed.

Lemma tally_In label acc k n :
  NoDup (map fst acc) ->
  In (k, n) (tally label acc) ->
  (k <> label /\ In (k, n) acc)
  \/ (k = label
      /\ ((~ In label (map fst acc) /\ n = 1%nat)
          \/ exists m, In (label, m) acc /\ n = S m)).
Proof.
  induction acc as [|[k' m] acc IH]; simpl; intros Hnd Hin.
  - destruct Hin as [[= <- <-]|[]]. right. split; [reflexivity|]. left. tauto.
  - inversion Hnd as [|? ? Hk' Hnd']; subst.
    destruct (String.eqb_spec k' label) as [->|Hne].
    + destruct Hin as [[= <- <-]|Hin].
      * right. split; [reflexivity|]. right. exists m. auto.
      * left. split; [|now right].
        intros ->. apply Hk'. now apply (in_map fst _ _ Hin).
    + destruct Hin as [[= <- <-]|Hin].
      * left. split; [exact Hne|now left].
      * destruct (IH Hnd' Hin) as [[Hkl Hacc]|[-> [[Hno ->]|(m' & Hm' & ->)]]].
        -- left. split; [exact Hkl|now right].
        -- right. split; [reflexivity|]. left. split; [|reflexivity].
           intros [Heq|H]; [now apply Hne|now apply Hno].
        -- right. split; [reflexivity|]. right. exists m'. auto.
Qed.

Lemma tally_all_snoc labels label :
  tally_all (labels ++ [label]) = tally label (tally_all labels).
Proof. unfold tally_all. now rewrite fold_left_app. Qed.

(** Each label is counted as often as it occurs. *)
Lemma tally_all_counts labels k n :
  In (k, n) (tally_all labels) -> n = count_occ string_dec labels k.
Proof.
  revert k n. induction labels as [|label labels IH] using rev_ind;
    intros k n Hin; [destruct Hin|].
  rewrite tally_all_snoc in Hin. rewrite count_occ_app. simpl.
  destruct (tally_all_spec labels) as (Hnd & Hkeys & _).
  apply (tally_In _ _ _ _ Hnd) in Hin.
  destruct Hin as [[Hne Hin]|[-> [[Hno ->]|(m & Hin & ->)]]].
  - destruct (string_dec label k); [congruence|].
    rewrite (IH _ _ Hin). lia.
  - destruct (string_dec label label); [|congruence].
    rewrite Hkeys in Hno.
    apply (count_occ_not_In string_dec) in Hno. lia.
  - destruct (string_dec label label); [|congruence].
    rewrite (IH _ _ Hin). lia.
Qed.

Section Distribution.
Variable E : Environment.

Lemma value_counts_count s label n :
  In (label, n) (value_counts E s) ->
  n = count_occ string_dec (present_labels E s) label.
Proof.
  unfold value_counts. intros Hin. apply order_by_In in Hin.
  now apply tally_all_counts.
Qed.

Lemma value_counts_spec s :
  let counted := value_counts E s in
  NoDup (map fst counted)
  /\ (forall label,
         In label (map fst counted)
         <-> exists c, In c s /\ isna c = false /\ char_value E c = label)
  /\ list_sum (map snd counted) = List.length (filter notna s).
Proof.
  unfold value_counts.
  set (labels := map (char_value E) (filter notna s)).
  destruct (tally_all_spec labels) as (Hnd & Hkeys & Hsum).
  pose proof (order_by_perm more_frequent_first (tally_all labels)) as Hperm.
  split; [|split].
  - eapply Permutation_NoDup; [apply Permutation_map, Hperm|exact Hnd].
  - intros label. split.
    + intros Hin.
      apply (Permutation_in _ (Permutation_sym (Permutation_map fst Hperm)))
        in Hin.
      apply Hkeys, in_map_iff in Hin. destruct Hin as (c & Hc & Hin).
      apply filter_In in Hin. destruct Hin as [Hin Hna].
      exists c. unfold notna in Hna. apply negb_true_iff in Hna. auto.
    + intros (c & Hin & Hna & Hc).
      apply (Permutation_in _ (Permutation_map fst Hperm)).
      apply Hkeys, in_map_iff. exists c. split; [exact Hc|].
      apply filter_In. split; [exact Hin|].
      unfold notna. now rewrite Hna.
  - rewrite <- (list_sum_Permutation _ _ (Permutation_map snd Hperm)).
    rewrite Hsum. unfold labels. apply length_map.
Qed.

(** C5, as the code has it. After a successful upload the keys of
    [equipment_types] are distinct and are exactly the labels of the Type
    cells that are present (a missing cell is no label), compared
    character by character; each value is the number of rows that bear
    the label; the values sum to the number of rows whose Type cell is
    present, which is N when none is missing. *)
Theorem upload_csv_type_distribution now req db resp db' f df s :
  FILES_file req = Some f ->
  read_csv E f = inr df ->
  getitem df "Type" = inr s ->
  upload_csv E now req db = (inr resp, db') ->
  status resp = HTTP_201_CREATED ->
  exists d items,
    data resp = DatasetData d items
    /\ let types := EquipmentDataset.equipment_types d in
       NoDup (map fst types)
       /\ (forall label,
              In label (map fst types)
              <-> exists c, In c s /\ isna c = false
                            /\ char_value E c = label)
       /\ (forall label n,
              In (label, n) types ->
              n = count_occ string_dec (present_labels E s) label)
       /\ list_sum (map snd types) = List.length (filter notna s)
       /\ (forallb notna s = true ->
           list_sum (map snd types) = EquipmentDataset.total_count d).
Proof.
  intros Hf Hr Hs Hrun Hok. apply upload_csv_inv in Hrun.
  destruct Hrun as [msg _|f' df' d e Hst _ _|f' df' d objs db2 Hst _ _ _ _];
    try discriminate Hok.
  destruct (staged_frame_eq _ _ _ _ _ _ _ _ _ Hf Hr Hst) as [-> ->].
  destruct Hst as [_ _ _ _ _ _ _ _ Hn _ _ _ Htd].
  unfold type_distribution in Htd. rewrite Hs in Htd.
  injection Htd as Htd.
  exists d, (equipment_items d db2). split; [reflexivity|].
  cbv zeta. rewrite <- Htd.
  destruct (value_counts_spec s) as (H1 & H2 & H3).
  repeat split; try assumption; try apply H2.
  - apply value_counts_count.
  - intros Hall. rewrite H3, Hn, (forallb_filter_id _ _ Hall).
    eapply getitem_length, Hs.
Qed.

End Distribution.

(** C5 fails as stated. The two-row file whose second row has no type is
    stored with [total_count = 2] and the distribution [{"Pump": 1}]: the
    values sum to 1, not to 2, while the second row is stored with the
    type ["nan"]. *)
Lemma upload_csv_type_distribution_missing_label :
  exists resp db' d items,
    upload_csv (lenient_env missing_type_frame) 100 (upload_of "plant.csv")
               empty_store = (inr resp, db')
    /\ resp = {| status := HTTP_201_CREATED; data := DatasetData d items |}
    /\ EquipmentDataset.total_count d = 2%nat
    /\ EquipmentDataset.equipment_types d = [("Pump"%string, 1%nat)]
    /\ list_sum (map snd (EquipmentDataset.equipment_types d))
       <> EquipmentDataset.total_count d
    /\ map Equipment.type items = ["Pump"; "nan"]%string.
Proof.
  do 4 eexists. split; [vm_compute; reflexivity|].
  repeat split. discriminate.
Qed.

(** The distribution of the scenario's file, and of the file with a
    missing type. *)
Lemma upload_csv_type_distribution_runs :
  (exists resp db' d items,
      upload_csv (lenient_env pump_valve_frame) 100 (upload_of "plant.csv")
                 empty_store = (inr resp, db')
      /\ data resp = DatasetData d items
      /\ NoDup (map fst (EquipmentDataset.equipment_types d))
      /\ list_sum (map snd (EquipmentDataset.equipment_types d)) = 2%nat)
  /\ (exists resp db' d items,
         upload_csv (lenient_env missing_type_frame) 100
                    (upload_of "plant.csv") empty_store = (inr resp, db')
         /\ data resp = DatasetData d items
         /\ list_sum (map snd (EquipmentDataset.equipment_types d)) = 1%nat).
Proof.
  split.
  - destruct (upload_csv_type_distribution (lenient_env pump_valve_frame)
                100 (upload_of "plant.csv") empty_store
                (match fst (upload_csv (lenient_env pump_valve_frame) 100
                              (upload_of "plant.csv") empty_store) with
                 | inr r => r
                 | inl _ => bad_request ""
                 end)
                (snd (upload_csv (lenient_env pump_valve_frame) 100
                        (upload_of "plant.csv") empty_store))
                {| name := "plant.csv"; content := "" |} pump_valve_frame
                [Text "Pump"; Text "Valve"]
                eq_refl eq_refl eq_refl
                ltac:(vm_compute; reflexivity) eq_refl)
      as (d & items & Hd & Hnd & _ & _ & Hsum & _).
    do 2 eexists. exists d, items.
    split; [vm_compute; reflexivity|].
    split; [exact Hd|]. split; [exact Hnd|exact Hsum].
  - destruct (upload_csv_type_distribution (lenient_env missing_type_frame)
                100 (upload_of "plant.csv") empty_store
                (match fst (upload_csv (lenient_env missing_type_frame) 100
                              (upload_of "plant.csv") empty_store) with
                 | inr r => r
                 | inl _ => bad_request ""
                 end)
                (snd (upload_csv (lenient_env missing_type_frame) 100
                        (upload_of "plant.csv") empty_store))
                {| name := "plant.csv"; content := "" |} missing_type_frame
                [Text "Pump"; Num nan]
                eq_refl eq_refl eq_refl
                ltac:(vm_compute; reflexivity) eq_refl)
      as (d & items & Hd & _ & _ & _ & Hsum & _).
    do 2 eexists. exists d, items.
    split; [vm_compute; reflexivity|].
    split; [exact Hd|exact Hsum].
Defined.

(* ================================================================= *)
(** * Refused uploads *)

Lemma missing_column_fails_check labels col :
  In col required_columns ->
  contains labels col = false ->
  forallb (contains labels) required_columns = false.
Proof.
  intros Hin Hno.
  destruct (forallb (contains labels) required_columns) eqn:Hall;
    [|reflexivity].
  rewrite forallb_forall in Hall. rewrite (Hall col Hin) in Hno.
  discriminate Hno.
Qed.

Lemma required_column_named col :
  In col required_columns -> occurs_in col missing_columns_message.
Proof.
  unfold required_columns, missing_columns_message.
  intros [<-|[<-|[<-|[<-|[<-|[]]]]]].
  - exists "CSV must contain columns: "%string,
      ", Type, Flowrate, Pressure, Temperature"%string. reflexivity.
  - exists "CSV must contain columns: Equipment Name, "%string,
      ", Flowrate, Pressure, Temperature"%string. reflexivity.
  - exists "CSV must contain columns: Equipment Name, Type, "%string,
      ", Pressure, Temperature"%string. reflexivity.
  - exists "CSV must contain columns: Equipment Name, Type, Flowrate, "%string,
      ", Temperature"%string. reflexivity.
  - exists
      "CSV must contain columns: Equipment Name, Type, Flowrate, Pressure, "
        %string, ""%string. reflexivity.
Qed.

Section Refusals.
Variable E : Environment.

Lemma upload_csv_no_file now req db :
  FILES_file req = None ->
  upload_csv E now req db = (inr (bad_request no_file_message), db).
Proof. intros H. unfold upload_csv. now rewrite H. Qed.

Lemma upload_csv_wrong_extension now req db f :
  FILES_file req = Some f ->
  endswith (name f) ".csv" = false ->
  upload_csv E now req db = (inr (bad_request wrong_extension_message), db).
Proof. intros Hf Hext. unfold upload_csv. now rewrite Hf, Hext. Qed.

Lemma upload_csv_unreadable now req db f e :
  FILES_file req = Some f ->
  endswith (name f) ".csv" = true ->
  read_csv E f = inl e ->
  upload_csv E now req db = (inr (bad_request (processing_message e)), db).
Proof.
  intros Hf Hext Hr. unfold upload_csv. rewrite Hf, Hext. cbn [negb].
  unfold try_except, bind, lift. now rewrite Hr.
Qed.

Lemma upload_csv_columns_check_fails now req db f df :
  FILES_file req = Some f ->
  endswith (name f) ".csv" = true ->
  read_csv E f = inr df ->
  forallb (contains (columns df)) required_columns = false ->
  upload_csv E now req db = (inr (bad_request missing_columns_message), db).
Proof.
  intros Hf Hext Hr Hcols. unfold upload_csv. rewrite Hf, Hext. cbn [negb].
  unfold try_except, bind, lift. rewrite Hr, Hcols. reflexivity.
Qed.

Lemma upload_csv_text_flowrate now req db f df s :
  FILES_file req = Some f ->
  endswith (name f) ".csv" = true ->
  read_csv E f = inr df ->
  forallb (contains (columns df)) required_columns = true ->
  getitem df "Flowrate" = inr s ->
  existsb is_text s = true ->
  upload_csv E now req db
  = (inr (bad_request (processing_message (mean_type_error E s))), db).
Proof.
  intros Hf Hext Hr Hcols Hs Htext. unfold upload_csv.
  rewrite Hf, Hext. cbn [negb].
  unfold try_except, bind, lift. rewrite Hr, Hcols. cbn [negb].
  unfold column_mean at 1. rewrite Hs. unfold mean. rewrite Htext.
  reflexivity.
Qed.

(** C6, as the code has it. An upload whose frame lacks a required
    column answers 400 and leaves the store as it was. The message is
    one fixed text, the list of the five required columns: it reads the
    same whichever column is missing and does not tell which one is. *)
Theorem upload_csv_missing_columns now req db f df col :
  FILES_file req = Some f ->
  endswith (name f) ".csv" = true ->
  read_csv E f = inr df ->
  In col required_columns ->
  contains (columns df) col = false ->
  upload_csv E now req db
  = (inr {| status := HTTP_400_BAD_REQUEST;
            data := Error missing_columns_message |}, db)
  /\ missing_columns_message
     = ("CSV must contain columns: " ++ join ", " required_columns)%string
  /\ (forall c, In c required_columns -> occurs_in c missing_columns_message)
  /\ (forall now' req' db' f' df' col',
         FILES_file req' = Some f' ->
         endswith (name f') ".csv" = true ->
         read_csv E f' = inr df' ->
         In col' required_columns ->
         contains (columns df') col' = false ->
         fst (upload_csv E now' req' db') = fst (upload_csv E now req db)).
Proof.
  intros Hf Hext Hr Hin Hno.
  assert (Hrun : forall now req db f df col,
             FILES_file req = Some f ->
             endswith (name f) ".csv" = true ->
             read_csv E f = inr df ->
             In col required_columns ->
             contains (columns df) col = false ->
             upload_csv E now req db
             = (inr (bad_request missing_columns_message), db)).
  { clear. intros now req db f df col Hf Hext Hr Hin Hno.
    apply (upload_csv_columns_check_fails now req db f df Hf Hext Hr).
    now apply missing_column_fails_check with col. }
  split; [now apply (Hrun now req db f df col)|].
  split; [reflexivity|].
  split; [intros c; apply required_column_named|].
  intros now' req' db' f' df' col' Hf' Hext' Hr' Hin' Hno'.
  rewrite (Hrun now req db f df col), (Hrun now' req' db' f' df' col')
    by assumption.
  reflexivity.
Qed.

End Refusals.

(** C6 fails as stated. The file without its Type column and the file
    without its Flowrate column get the same answer; it names Flowrate,
    which the first file has, and Type, which the second has. *)
Lemma upload_csv_missing_columns_not_told :
  exists msg,
    upload_csv (lenient_env no_type_column_frame) 100 (upload_of "plant.csv")
               empty_store
    = (inr (bad_request msg), empty_store)
    /\ upload_csv (lenient_env no_flowrate_column_frame) 100
                  (upload_of "plant.csv") empty_store
       = (inr (bad_request msg), empty_store)
    /\ contains (columns no_type_column_frame) "Flowrate" = true
    /\ occurs_in "Flowrate" msg
    /\ contains (columns no_flowrate_column_frame) "Type" = true
    /\ occurs_in "Type" msg.
Proof.
  exists missing_columns_message.
  split; [reflexivity|]. split; [reflexivity|].
  split; [reflexivity|].
  split; [apply required_column_named; simpl; auto|].
  split; [reflexivity|].
  apply required_column_named; simpl; auto.
Qed.

(** The scenario's file without its Type column is refused with the
    list of the five columns, and nothing is stored. *)
Lemma upload_csv_missing_columns_no_type :
  upload_csv (lenient_env no_type_column_frame) 100 (upload_of "plant.csv")
             empty_store
  = (inr {| status := HTTP_400_BAD_REQUEST;
            data :=
              Error "CSV must contain columns: Equipment Name, Type, Flowrate, Pressure, Temperature" |},
     empty_store)
  /\ occurs_in "Type" missing_columns_message
  /\ occurs_in "Pressure" missing_columns_message.
Proof.
  destruct (upload_csv_missing_columns (lenient_env no_type_column_frame)
              100 (upload_of "plant.csv") empty_store
              {| name := "plant.csv"; content := "" |} no_type_column_frame
              "Type"%string eq_refl eq_refl eq_refl
              ltac:(simpl; auto) eq_refl)
    as (Hrun & _ & Hall & _).
  split; [exact Hrun|].
  split; apply Hall; simpl; auto.
Defined.

(** C7, as the code has it. The four kinds of failure -- no file, a
    name that does not end in [.csv], a missing required column, an
    error while the file is processed -- answer with four different
    messages. A wrong extension is answered whatever the parser would do
    with the file. A flow rate column that holds a text fails when its
    mean is taken: the answer is the processing message followed by the
    text of the exception that [Series.mean] raised, and the view adds
    nothing to that text. None of them changes the store. *)
Theorem upload_csv_failure_kinds (E : Environment) now db :
  (forall req,
      FILES_file req = None ->
      upload_csv E now req db = (inr (bad_request no_file_message), db))
  /\ (forall req f,
         FILES_file req = Some f ->
         endswith (name f) ".csv" = false ->
         forall E' : Environment,
           upload_csv E' now req db
           = (inr (bad_request wrong_extension_message), db))
  /\ (forall req f df,
         FILES_file req = Some f ->
         endswith (name f) ".csv" = true ->
         read_csv E f = inr df ->
         forallb (contains (columns df)) required_columns = false ->
         upload_csv E now req db
         = (inr (bad_request missing_columns_message), db))
  /\ (forall req f df s,
         FILES_file req = Some f ->
         endswith (name f) ".csv" = true ->
         read_csv E f = inr df ->
         forallb (contains (columns df)) required_columns = true ->
         getitem df "Flowrate" = inr s ->
         existsb is_text s = true ->
         upload_csv E now req db
         = (inr (bad_request (processing_message (mean_type_error E s))), db))
  /\ (forall e,
         no_file_message <> wrong_extension_message
         /\ no_file_message <> missing_columns_message
         /\ no_file_message <> processing_message e
         /\ wrong_extension_message <> missing_columns_message
         /\ wrong_extension_message <> processing_message e
         /\ missing_columns_message <> processing_message e).
Proof.
  split; [intros; now apply upload_csv_no_file|].
  split; [intros; now apply upload_csv_wrong_extension with f|].
  split; [intros; now apply upload_csv_columns_check_fails with f df|].
  split; [intros; now apply upload_csv_text_flowrate with f df|].
  intros e. unfold processing_message. repeat split; discriminate.
Qed.

(** C7 fails as stated. When [Series.mean] refuses the column for its
    dtype, as it does for the string dtype of pandas 3, the answer to
    the file whose flow rates are [abc] and [7,5] shows neither of
    them. *)
Lemma upload_csv_failure_without_value :
  exists msg,
    upload_csv (string_dtype_env text_flowrate_frame) 100
               (upload_of "plant.csv") empty_store
    = (inr (bad_request msg), empty_store)
    /\ msg = "Error processing CSV: Cannot perform reduction 'mean' with string dtype"%string
    /\ getitem text_flowrate_frame "Flowrate" = inr [Text "abc"; Text "7,5"]
    /\ ~ occurs_in "abc" msg
    /\ ~ occurs_in "7,5" msg.
Proof.
  eexists. split; [vm_compute; reflexivity|].
  split; [reflexivity|]. split; [reflexivity|].
  split; intros H; apply occurs_in_occursb in H; discriminate H.
Qed.

(** The four failures on concrete uploads; with the message that
    [Series.mean] has on a column of Python objects, the last one quotes
    the texts found in the flow rate column. *)
Lemma upload_csv_failure_kinds_runs :
  upload_csv (lenient_env pump_valve_frame) 100
             {| FILES_file := None; user := None |} empty_store
  = (inr (bad_request "No file provided"), empty_store)
  /\ upload_csv (lenient_env pump_valve_frame) 100 (upload_of "plant.xlsx")
                empty_store
     = (inr (bad_request "File must be a CSV"), empty_store)
  /\ upload_csv (lenient_env no_type_column_frame) 100 (upload_of "plant.csv")
                empty_store
     = (inr (bad_request missing_columns_message), empty_store)
  /\ upload_csv (lenient_env text_flowrate_frame) 100 (upload_of "plant.csv")
                empty_store
     = (inr (bad_request
               "Error processing CSV: Could not convert string 'abc7,5' to numeric"),
        empty_store).
Proof.
  destruct (upload_csv_failure_kinds (lenient_env pump_valve_frame) 100
              empty_store) as (H1 & H2 & _).
  destruct (upload_csv_failure_kinds (lenient_env no_type_column_frame) 100
              empty_store) as (_ & _ & H3 & _).
  destruct (upload_csv_failure_kinds (lenient_env text_flowrate_frame) 100
              empty_store) as (_ & _ & _ & H4 & _).
  split; [exact (H1 {| FILES_file := None; user := None |} eq_refl)|].
  split; [exact (H2 (upload_of "plant.xlsx")
                    {| name := "plant.xlsx"; content := "" |}
                    eq_refl eq_refl (lenient_env pump_valve_frame))|].
  split; [exact (H3 (upload_of "plant.csv")
                    {| name := "plant.csv"; content := "" |}
                    no_type_column_frame eq_refl eq_refl eq_refl eq_refl)|].
  exact (H4 (upload_of "plant.csv")
            {| name := "plant.csv"; content := "" |}
            text_flowrate_frame [Text "abc"; Text "7,5"]
            eq_refl eq_refl eq_refl eq_refl eq_refl eq_refl).
Defined.

(* ================================================================= *)
(** * The invariant of the store *)

Lemma for_each_delete_seq l db :
  dataset_seq (snd (for_each l delete db)) = dataset_seq db.
Proof.
  revert db. induction l as [|x l IH]; intros db; simpl; [reflexivity|].
  unfold bind. simpl. now rewrite IH.
Qed.

(** The rule deletes the datasets of some list [gone], with the
    equipment rows that reference them, and nothing else. *)
Lemma maintain_last_five_deletes db :
  exists gone,
    let db' := snd (maintain_last_five db) in
    datasets db'
    = filter (fun d =>
                negb (existsb (fun x => (EquipmentDataset.id d
                                         =? EquipmentDataset.id x)%Z) gone))
             (datasets db)
    /\ equipment db'
       = filter (fun e =>
                   negb (existsb (fun x => (Equipment.dataset e
                                            =? EquipmentDataset.id x)%Z) gone))
                (equipment db)
    /\ dataset_seq db' = dataset_seq db.
Proof.
  unfold maintain_last_five, bind, count, fetch.
  destruct (5 <? _)%nat.
  - eexists. cbv zeta.
    rewrite for_each_delete_datasets, for_each_delete_equipment,
      for_each_delete_seq.
    repeat split.
  - exists []. simpl. repeat split; symmetry; now apply filter_all.
Qed.

Lemma NoDup_map_filter {A B} (f : A -> B) (p : A -> bool) l :
  NoDup (map f l) -> NoDup (map f (filter p l)).
Proof.
  induction l as [|a l IH]; simpl; intros Hnd; [constructor|].
  inversion Hnd as [|? ? Ha Hnd']; subst.
  destruct (p a); simpl; [|now apply IH].
  constructor; [|now apply IH].
  intros Hin. apply Ha. apply in_map_iff in Hin.
  destruct Hin as (x & Hx & Hin). apply filter_In in Hin.
  apply in_map_iff. exists x. tauto.
Qed.

Lemma Forall_filter {A} (P : A -> Prop) (p : A -> bool) l :
  Forall P l -> Forall P (filter p l).
Proof.
  rewrite !Forall_forall. intros H x Hx. apply filter_In in Hx. now apply H.
Qed.

Lemma assign_ids_dataset last objs :
  map Equipment.dataset (assign_ids last objs) = map Equipment.dataset objs.
Proof.
  revert last. induction objs as [|e objs IH]; intros last; simpl;
    [reflexivity|]. now rewrite IH.
Qed.

Lemma filter_by_key_all {A} (key : A -> Z) (k : Z) l :
  Forall (fun a => key a = k) l -> filter (fun a => (key a =? k)%Z) l = l.
Proof.
  intros H. apply filter_all. rewrite Forall_forall in H.
  intros a Ha. apply Z.eqb_eq. now apply H.
Qed.

Lemma filter_by_key_none {A} (key : A -> Z) (k : Z) l :
  Forall (fun a => key a <> k) l -> filter (fun a => (key a =? k)%Z) l = [].
Proof.
  intros H. apply filter_none. rewrite Forall_forall in H.
  intros a Ha. apply Z.eqb_neq. now apply H.
Qed.

Lemma Forall_map_iff {A B} (f : A -> B) (P : B -> Prop) l :
  Forall P (map f l) <-> Forall (fun a => P (f a)) l.
Proof. apply Forall_map. Qed.

Lemma assign_ids_Forall_dataset (P : Z -> Prop) last objs :
  Forall (fun e => P (Equipment.dataset e)) objs ->
  Forall (fun e => P (Equipment.dataset e)) (assign_ids last objs).
Proof.
  intros H. apply Forall_map_iff. rewrite assign_ids_dataset.
  now apply Forall_map_iff.
Qed.

Lemma assign_ids_length last objs :
  List.length (assign_ids last objs) = List.length objs.
Proof.
  rewrite <- (length_map Equipment.dataset), assign_ids_dataset.
  apply length_map.
Qed.

(** Inserting a dataset with a fresh key and [total_count] equipment
    rows that reference it keeps the invariant. *)
Lemma insert_consistent d objs db :
  consistent db ->
  EquipmentDataset.id d = (dataset_seq db + 1)%Z ->
  List.length objs = EquipmentDataset.total_count d ->
  Forall (fun e => Equipment.dataset e = EquipmentDataset.id d) objs ->
  consistent (insert_equipment objs (insert_dataset d db)).
Proof.
  intros (Hwf & Hfk & Hcount) Hid Hlen Hobjs.
  pose proof Hwf as [Hnd Hle].
  assert (Hold : Forall (fun e => Equipment.dataset e <> EquipmentDataset.id d)
                        (equipment db)).
  { eapply Forall_impl; [|exact Hfk]. intros e He. simpl in He. lia. }
  split; [split|split]; cbn [insert_equipment insert_dataset datasets
                             equipment dataset_seq equipment_seq].
  - now apply insert_dataset_fresh.
  - apply Forall_app. split.
    + eapply Forall_impl; [|exact Hle]. intros x Hx. simpl in Hx. lia.
    + repeat constructor. lia.
  - apply Forall_app. split.
    + eapply Forall_impl; [|exact Hfk]. intros x Hx. simpl in Hx. lia.
    + apply (assign_ids_Forall_dataset
               (fun k => (k <= dataset_seq db + 1)%Z)).
      eapply Forall_impl; [|exact Hobjs]. intros x Hx. simpl in Hx. lia.
  - apply Forall_app. split.
    + rewrite Forall_forall in *. intros x Hx.
      unfold records_of. cbn [equipment insert_equipment insert_dataset].
      rewrite filter_app.
      rewrite (filter_by_key_none Equipment.dataset (EquipmentDataset.id x)
                 (assign_ids _ objs)).
      * rewrite app_nil_r. now apply Hcount.
      * apply (assign_ids_Forall_dataset
                 (fun k => k <> EquipmentDataset.id x)).
        apply Forall_forall. intros e He. rewrite (Hobjs e He).
        specialize (Hle x Hx). simpl in Hle. lia.
    + repeat constructor. unfold records_of.
      cbn [equipment insert_equipment insert_dataset].
      rewrite filter_app, (filter_by_key_none _ _ _ Hold). simpl.
      rewrite filter_by_key_all.
      * now rewrite assign_ids_length.
      * now apply (assign_ids_Forall_dataset
                     (fun k => k = EquipmentDataset.id d)).
Qed.

Lemma maintain_last_five_consistent db :
  consistent db -> consistent (snd (maintain_last_five db)).
Proof.
  intros ((Hnd & Hle) & Hfk & Hcount).
  destruct (maintain_last_five_deletes db) as (gone & Hd & He & Hs).
  cbv zeta in *.
  set (db' := snd (maintain_last_five db)) in *.
  split; [split|split].
  - rewrite Hd. now apply NoDup_map_filter.
  - rewrite Hd, Hs. now apply Forall_filter.
  - rewrite He, Hs. now apply Forall_filter.
  - rewrite Hd. apply Forall_forall. intros x Hx.
    apply filter_In in Hx. destruct Hx as [Hx Hkept].
    rewrite Forall_forall in Hcount. rewrite <- (Hcount x Hx).
    unfold records_of. rewrite He, filter_filter.
    f_equal. apply filter_ext_in. intros e _.
    destruct (Z.eqb_spec (Equipment.dataset e) (EquipmentDataset.id x))
      as [->|Hne]; [|now rewrite andb_false_r].
    now rewrite Hkept.
Qed.

Lemma empty_store_consistent : consistent empty_store.
Proof. repeat split; constructor. Qed.

(** A successful upload keeps the invariant. *)
Lemma upload_csv_consistent E now req db resp db' :
  consistent db ->
  upload_csv E now req db = (inr resp, db') ->
  status resp = HTTP_201_CREATED ->
  consistent db'.
Proof.
  intros Hc Hrun Hok. apply upload_csv_inv in Hrun.
  destruct Hrun as [msg _|f df d e Hst _ _|f df d objs db2 Hst _ Hobjs _ ->];
    try discriminate Hok.
  destruct (equipment_objects_count _ _ _ _ Hobjs) as [Hlen Hfk].
  apply maintain_last_five_consistent, insert_consistent; try assumption.
  - apply (staged_id _ _ _ _ _ _ _ Hst).
  - now rewrite (staged_total_count _ _ _ _ _ _ _ Hst).
Qed.

(* ================================================================= *)
(** * Reading a dataset back *)

Lemma ascii_compare_N a b :
  Ascii.compare a b = N.compare (N_of_ascii a) (N_of_ascii b).
Proof. reflexivity. Qed.

Lemma string_compare_trans_not_gt s1 :
  forall s2 s3,
    String.compare s1 s2 <> Gt -> String.compare s2 s3 <> Gt ->
    String.compare s1 s3 <> Gt.
Proof.
  induction s1 as [|a s1 IH]; intros [|b s2] [|c s3]; simpl;
    try congruence.
  rewrite !ascii_compare_N.
  destruct (N.compare_spec (N_of_ascii a) (N_of_ascii b)) as [Hab|Hab|Hab];
    destruct (N.compare_spec (N_of_ascii b) (N_of_ascii c)) as [Hbc|Hbc|Hbc];
    try congruence; intros H1 H2.
  - rewrite Hab, Hbc, N.compare_refl. now apply IH with s2.
  - rewrite Hab. apply N.compare_lt_iff in Hbc. now rewrite Hbc.
  - rewrite <- Hbc. apply N.compare_lt_iff in Hab. now rewrite Hab.
  - assert (H : (N_of_ascii a < N_of_ascii c)%N) by lia.
    apply N.compare_lt_iff in H. now rewrite H.
Qed.

Lemma string_leb_trans s1 s2 s3 :
  String.leb s1 s2 = true -> String.leb s2 s3 = true ->
  String.leb s1 s3 = true.
Proof.
  unfold String.leb. intros H1 H2.
  pose proof (string_compare_trans_not_gt s1 s2 s3) as H.
  destruct (String.compare s1 s2), (String.compare s2 s3),
    (String.compare s1 s3); try reflexivity; try discriminate;
    exfalso; apply H; congruence.
Qed.

Lemma equipment_items_sorted d db :
  StronglySorted name_before (equipment_items d db).
Proof.
  unfold equipment_items.
  apply (order_by_StronglySorted by_equipment_name).
  - intros x y. apply String.leb_total.
  - intros x y z. apply string_leb_trans.
Qed.

Lemma equipment_items_records d db :
  Permutation (equipment_items d db) (records_of d db).
Proof. symmetry. apply order_by_perm. Qed.

Lemma get_object_stored pk db d db' :
  get_object pk db = (inr d, db') ->
  db' = db /\ In d (datasets db) /\ EquipmentDataset.id d = pk.
Proof.
  unfold get_object, get_queryset, EquipmentDataset_objects_all, ret, raise.
  destruct (find _ _) as [x|] eqn:Hfind; [|discriminate].
  intros [= <- <-]. apply find_some in Hfind. destruct Hfind as [Hin Hid].
  split; [reflexivity|]. split.
  - now apply order_by_In in Hin.
  - now apply Z.eqb_eq.
Qed.

Lemma round_half_even_nearest num den :
  (0 < den)%Z -> (0 <= num)%Z ->
  nearest_integer num den (round_half_even num den).
Proof.
  intros Hden Hnum. unfold nearest_integer, round_half_even.
  pose proof (Z.div_mod num den ltac:(lia)) as Hdm.
  pose proof (Z.mod_pos_bound num den Hden) as Hr.
  set (q := (num / den)%Z) in *. set (r := (num mod den)%Z) in *.
  destruct (Z.compare_spec (2 * r) den) as [Heq|Hlt|Hgt].
  - destruct (Z.even q) eqn:Heven.
    + split; [nia|]. intros _. exact Heven.
    + split; [nia|]. intros _.
      replace (q + 1)%Z with (Z.succ q) by lia.
      rewrite Z.even_succ, <- Z.negb_even, Heven. reflexivity.
  - split; [nia|]. intros H. exfalso. nia.
  - split; [nia|]. intros H. exfalso. nia.
Qed.

Lemma digits_value_from_snoc acc s c :
  digits_value_from acc (s ++ String c "")
  = (10 * digits_value_from acc s + digit_value c)%Z.
Proof.
  revert acc. induction s as [|a s IH]; intros acc; simpl; [reflexivity|].
  apply IH.
Qed.

Lemma digit_value_char d : digit_value (digit_char d) = (d mod 10)%Z.
Proof.
  unfold digit_value, digit_char.
  pose proof (Z.mod_pos_bound d 10 ltac:(lia)) as Hd.
  rewrite nat_ascii_embedding by lia. lia.
Qed.

(** The digits written for the fraction denote it. *)
Lemma digits_fixed_value k n :
  digits_value (digits_fixed k n) = (n mod 10 ^ Z.of_nat k)%Z.
Proof.
  unfold digits_value. revert n.
  induction k as [|k IH]; intros n.
  - simpl. now rewrite Z.mod_1_r.
  - cbn [digits_fixed]. rewrite digits_value_from_snoc, IH, digit_value_char.
    rewrite Nat2Z.inj_succ, Z.pow_succ_r by lia.
    rewrite (Z.rem_mul_r n 10 (10 ^ Z.of_nat k)) by lia. lia.
Qed.

(** [str(n)] parses back to [n]. *)
Lemma str_int_value n :
  option_map Z.of_int (NilZero.int_of_string (str_int n)) = Some n.
Proof.
  unfold str_int. rewrite NilZero.isi.
  - simpl. now rewrite DecimalZ.of_to.
  - intros H. pose proof (DecimalZ.of_to n) as Hn. rewrite H in Hn.
    simpl in Hn. subst n. discriminate H.
  - intros H. pose proof (DecimalZ.of_to n) as Hn. rewrite H in Hn.
    simpl in Hn. subst n. discriminate H.
Qed.

Lemma scaled_digits_nonneg p m e : (0 <= scaled_digits p m e)%Z.
Proof.
  unfold scaled_digits.
  destruct (0 <=? e)%Z eqn:He.
  - apply Z.leb_le in He.
    apply Z.mul_nonneg_nonneg; [apply Z.mul_nonneg_nonneg|]; try lia;
      apply Z.pow_nonneg; lia.
  - unfold round_half_even.
    assert (Hden : (0 < 2 ^ (- e))%Z) by (apply Z.pow_pos_nonneg; lia).
    assert (Hnum : (0 <= Z.pos m * 10 ^ Z.of_nat p)%Z)
      by (apply Z.mul_nonneg_nonneg; [lia|apply Z.pow_nonneg; lia]).
    pose proof (Z.div_pos _ _ Hnum Hden) as Hq.
    destruct (_ ?= _)%Z; [destruct (Z.even _)| |]; lia.
Qed.

Lemma digits_only_app a b :
  digits_only (a ++ b) = digits_only a && digits_only b.
Proof.
  induction a as [|c a IH]; simpl; [reflexivity|].
  rewrite IH. now rewrite andb_assoc.
Qed.

Lemma digits_fixed_digits k n : digits_only (digits_fixed k n) = true.
Proof.
  revert n. induction k as [|k IH]; intros n; [reflexivity|].
  cbn [digits_fixed]. rewrite digits_only_app, IH. cbn [digits_only andb].
  unfold digit_char.
  pose proof (Z.mod_pos_bound n 10 ltac:(lia)) as Hd.
  rewrite nat_ascii_embedding by lia.
  rewrite andb_true_r. apply andb_true_intro.
  split; apply Nat.leb_le; lia.
Qed.

Lemma fixed_point_shows p s n :
  (0 <= n)%Z -> shows s n (S p) (fixed_point (S p) s n).
Proof.
  intros Hn. unfold shows, fixed_point.
  exists (str_int (n / 10 ^ Z.of_nat (S p))).
  exists (digits_fixed (S p) (n mod 10 ^ Z.of_nat (S p))).
  split; [reflexivity|].
  split; [apply str_int_value|].
  split; [apply digits_fixed_length|].
  split; [apply digits_fixed_digits|].
  rewrite digits_fixed_value. apply Z.mod_mod.
  apply Z.pow_nonzero; lia.
Qed.

(** What [format] writes is the float rounded to the digits asked
    for. *)
Lemma format_f_printed p x : printed (S p) x (format_f (S p) x).
Proof.
  unfold printed, format_f. destruct (Prim2SF x) as [s|s| |s m e].
  - apply fixed_point_shows. lia.
  - reflexivity.
  - reflexivity.
  - exists (scaled_digits (S p) m e).
    split; [apply scaled_digits_nonneg|].
    split; [apply fixed_point_shows, scaled_digits_nonneg|].
    unfold scaled_digits. destruct (0 <=? e)%Z eqn:He; [reflexivity|].
    apply Z.leb_gt in He. apply round_half_even_nearest.
    + apply Z.pow_pos_nonneg; lia.
    + apply Z.mul_nonneg_nonneg; [lia|apply Z.pow_nonneg; lia].
Qed.

Lemma equipment_line_listing e : listing_line e (equipment_line e).
Proof.
  unfold listing_line, equipment_line. do 5 eexists.
  split; [reflexivity|].
  split; [apply slice_to_truncated|].
  split; [apply slice_to_truncated|].
  repeat split; apply format_f_printed.
Qed.

Lemma map_Forall2 {A B} (f : A -> B) (R : A -> B -> Prop) l :
  (forall a, R a (f a)) -> Forall2 R l (map f l).
Proof. intros H. induction l; simpl; constructor; auto. Qed.

(** C8, as the code has it. The report of a stored dataset lists the
    first twenty of the equipment rows stored for it: min(20, M) lines,
    where M is the number of rows the table holds for the dataset, which
    is [total_count] only when the rows of the upload were stored. Each
    line holds the name cut to 20 characters, the type cut to 15, and the
    three values rounded to one digit after the point. The statistics
    table shows the three stored averages rounded to two digits, and the
    information table the stored [total_count]. *)
Theorem generate_pdf_listing (E : Environment) pk db d :
  get_object pk db = (inr d, db) ->
  exists report lines fl pr te,
    generate_pdf E pk db
    = (inr {| status := HTTP_200_OK; data := Pdf report |}, db)
    /\ equipment_data report
       = ["Name"; "Type"; "Flowrate"; "Pressure"; "Temp"]%string :: lines
    /\ List.length lines = Nat.min 20 (List.length (records_of d db))
    /\ (List.length (records_of d db) = EquipmentDataset.total_count d ->
        List.length lines = Nat.min 20 (EquipmentDataset.total_count d))
    /\ Forall2 listing_line (firstn 20 (equipment_items d db)) lines
    /\ stats_data report
       = [ ["Metric"; "Average Value"]; ["Flowrate"; fl];
           ["Pressure"; pr]; ["Temperature"; te] ]%string
    /\ printed 2 (EquipmentDataset.avg_flowrate d) fl
    /\ printed 2 (EquipmentDataset.avg_pressure d) pr
    /\ printed 2 (EquipmentDataset.avg_temperature d) te
    /\ In ["Total Equipment:"%string;
           str_int (Z.of_nat (EquipmentDataset.total_count d))]
          (info_data report).
Proof.
  intros Hget.
  unfold generate_pdf, bind. rewrite Hget.
  unfold fetch, slice_until, ret. do 5 eexists.
  split; [reflexivity|]. cbn [equipment_data stats_data info_data].
  split; [reflexivity|].
  assert (Hlen : List.length (map equipment_line
                                  (firstn 20 (equipment_items d db)))
                 = Nat.min 20 (List.length (records_of d db))).
  { rewrite length_map, length_firstn.
    now rewrite (Permutation_length (equipment_items_records d db)). }
  split; [exact Hlen|].
  split; [intros Hcount; now rewrite Hlen, Hcount|].
  split; [apply map_Forall2, equipment_line_listing|].
  split; [reflexivity|].
  split; [apply format_f_printed|].
  split; [apply format_f_printed|].
  split; [apply format_f_printed|].
  simpl. auto.
Qed.

(** C8 fails as stated. The store that the interrupted upload leaves
    holds a dataset with [total_count = 2] and no equipment row: its
    report lists no row, not min(20, 2) = 2 of them. *)
Lemma generate_pdf_listing_interrupted :
  exists d report,
    In d (datasets interrupted_store)
    /\ EquipmentDataset.id d = 1%Z
    /\ EquipmentDataset.total_count d = 2%nat
    /\ generate_pdf (not_null_env missing_flowrate_frame) 1 interrupted_store
       = (inr {| status := HTTP_200_OK; data := Pdf report |},
          interrupted_store)
    /\ equipment_data report
       = [ ["Name"; "Type"; "Flowrate"; "Pressure"; "Temp"]%string ]
    /\ List.length (tl (equipment_data report))
       <> Nat.min 20 (EquipmentDataset.total_count d).
Proof.
  do 2 eexists. split; [left; reflexivity|].
  split; [reflexivity|]. split; [reflexivity|].
  split; [vm_compute; reflexivity|].
  split; [reflexivity|]. discriminate.
Qed.

(** C9. Generating a report leaves the store as it was, whether the
    dataset exists or not. *)
Theorem generate_pdf_read_only (E : Environment) pk db :
  snd (generate_pdf E pk db) = db.
Proof.
  unfold generate_pdf, bind, get_object, fetch, ret, raise.
  destruct (find _ _); reflexivity.
Qed.

(** C10. The equipment rows of a stored dataset are read back sorted by
    [equipment_name] -- a rearrangement of the rows stored for it -- by
    the detail view and by the report alike, and the report lists the
    first twenty of the rows in that order. *)
Theorem equipment_items_by_name (E : Environment) pk db d :
  get_object pk db = (inr d, db) ->
  let items := equipment_items d db in
  StronglySorted name_before items
  /\ Permutation items (records_of d db)
  /\ retrieve pk db
     = (inr {| status := HTTP_200_OK; data := DatasetData d items |}, db)
  /\ exists report,
      generate_pdf E pk db
      = (inr {| status := HTTP_200_OK; data := Pdf report |}, db)
      /\ equipment_data report
         = ["Name"; "Type"; "Flowrate"; "Pressure"; "Temp"]%string
           :: map equipment_line (firstn 20 items).
Proof.
  intros Hget items.
  split; [apply equipment_items_sorted|].
  split; [apply equipment_items_records|].
  split.
  - unfold retrieve, bind. rewrite Hget. reflexivity.
  - unfold generate_pdf, bind. rewrite Hget.
    eexists. split; reflexivity.
Qed.

Lemma exchangers_store_consistent : consistent exchangers_store.
Proof.
  eapply (upload_csv_consistent (lenient_env exchangers_frame) 100
            (upload_of "exchangers.csv") empty_store).
  - apply empty_store_consistent.
  - vm_compute. reflexivity.
  - reflexivity.
Qed.

(** The report of the 25 coolers lists 20 of them. The names are cut
    after 20 characters, which are 23 bytes, and the types after 15; in
    the listing 1.75 is shown as 1.8 (the tie goes to the even digit),
    2.56640625 as 2.6 and 0.25 as 0.2; the averages 13.75, 2.56640625
    and 0.25 are shown as 13.75, 2.57 and 0.25. *)
Lemma generate_pdf_listing_coolers :
  exists d report lines,
    get_object 1 coolers_store = (inr d, coolers_store)
    /\ EquipmentDataset.total_count d = 25%nat
    /\ generate_pdf (lenient_env coolers_frame) 1 coolers_store
       = (inr {| status := HTTP_200_OK; data := Pdf report |},
          coolers_store)
    /\ equipment_data report
       = ["Name"; "Type"; "Flowrate"; "Pressure"; "Temp"]%string :: lines
    /\ List.length lines = 20%nat
    /\ hd [] lines
       = [ "K" ++ u_diaeresis ++ "hler-R" ++ u_diaeresis ++ "ckk"
               ++ u_diaeresis ++ "hlwerk ";
           "R" ++ u_diaeresis ++ "ckk" ++ u_diaeresis ++ "hlwerk mi";
           "1.8"; "2.6"; "0.2" ]%string
    /\ String.length (hd "" (hd [] lines)) = 23%nat
    /\ stats_data report
       = [ ["Metric"; "Average Value"]; ["Flowrate"; "13.75"];
           ["Pressure"; "2.57"]; ["Temperature"; "0.25"] ]%string.
Proof.
  destruct (generate_pdf_listing (lenient_env coolers_frame) 1
              coolers_store _ ltac:(vm_compute; reflexivity))
    as (report & lines & fl & pr & te
        & Hrun & Hdata & Hlen & _ & _ & Hstats & _).
  eexists. exists report, lines.
  split; [vm_compute; reflexivity|].
  split; [reflexivity|].
  split; [exact Hrun|].
  split; [exact Hdata|].
  split; [exact Hlen|].
  vm_compute in Hrun. injection Hrun as <-.
  injection Hdata as <-.
  repeat split.
Defined.

(** The file lists Valve1 before Pump1, and so does the table; the
    detail view and the report return Pump1 before Valve1. *)
Lemma equipment_items_by_name_reversed_file :
  exists d items report,
    get_object 1 valve_pump_store = (inr d, valve_pump_store)
    /\ map Equipment.equipment_name (records_of d valve_pump_store)
       = ["Valve1"; "Pump1"]%string
    /\ retrieve 1 valve_pump_store
       = (inr {| status := HTTP_200_OK; data := DatasetData d items |},
          valve_pump_store)
    /\ map Equipment.equipment_name items = ["Pump1"; "Valve1"]%string
    /\ StronglySorted name_before items
    /\ generate_pdf (lenient_env valve_pump_frame) 1 valve_pump_store
       = (inr {| status := HTTP_200_OK; data := Pdf report |},
          valve_pump_store)
    /\ equipment_data report
       = [ ["Name"; "Type"; "Flowrate"; "Pressure"; "Temp"];
           ["Pump1"; "Pump"; "10.0"; "5.0"; "20.0"];
           ["Valve1"; "Valve"; "0.0"; "2.0"; "15.0"] ]%string.
Proof.
  destruct (equipment_items_by_name (lenient_env valve_pump_frame) 1
              valve_pump_store _ ltac:(vm_compute; reflexivity))
    as (Hsorted & _ & Hretrieve & report & Hrun & Hdata).
  eexists. eexists. exists report.
  split; [vm_compute; reflexivity|].
  split; [reflexivity|].
  split; [exact Hretrieve|].
  split; [reflexivity|].
  split; [exact Hsorted|].
  split; [exact Hrun|].
  rewrite Hdata. reflexivity.
Defined.

(* ================================================================= *)
(** * Further properties of [upload_csv] *)

(** X1. The only exception that leaves the upload view is the one that
    reading [request.FILES] raises while the request is parsed, before
    the [try]; nothing is written then. Once the request is parsed the
    view lets no exception escape: whatever the file, the parser of the
    CSV and the database do, it answers, with status 201 or 400. *)
Theorem upload_csv_always_answers (E : Environment) now request db :
  match request with
  | inl e => upload_csv_action E now request db = (inl e, db)
  | inr req =>
      exists resp db',
        upload_csv_action E now request db = (inr resp, db')
        /\ (status resp = HTTP_201_CREATED
            \/ status resp = HTTP_400_BAD_REQUEST)
  end
  /\ (forall e db',
         upload_csv_action E now request db = (inl e, db') ->
         request = inl e /\ db' = db).
Proof.
  destruct request as [e|req]; cbn [upload_csv_action].
  - split; [reflexivity|]. unfold raise. intros e' db' [= <- <-].
    split; reflexivity.
  - destruct (upload_csv_ingestion E now req db) as (resp & db' & Hrun & Hin).
    split.
    + exists resp, db'. split; [exact Hrun|].
      destruct Hin; [right|right|left]; reflexivity.
    + intros e db'' H. rewrite Hrun in H. discriminate H.
Qed.

Lemma insert_dataset_well_formed d db :
  well_formed db ->
  EquipmentDataset.id d = (dataset_seq db + 1)%Z ->
  well_formed (insert_dataset d db).
Proof.
  intros Hwf Hid. split; cbn [insert_dataset datasets dataset_seq].
  - now apply insert_dataset_fresh.
  - destruct Hwf as [_ Hle]. apply Forall_app. split.
    + eapply Forall_impl; [|exact Hle]. intros x Hx. simpl in Hx. lia.
    + repeat constructor. lia.
Qed.

Lemma maintain_last_five_well_formed db :
  well_formed db -> well_formed (snd (maintain_last_five db)).
Proof.
  intros [Hnd Hle].
  destruct (maintain_last_five_deletes db) as (gone & Hd & _ & Hs).
  cbv zeta in *. split.
  - rewrite Hd. now apply NoDup_map_filter.
  - rewrite Hd, Hs. now apply Forall_filter.
Qed.

Lemma maintain_last_five_subset db d :
  In d (datasets (snd (maintain_last_five db))) -> In d (datasets db).
Proof.
  destruct (maintain_last_five_deletes db) as (gone & Hd & _).
  cbv zeta in Hd. rewrite Hd. intros H. now apply filter_In in H.
Qed.

Lemma maintain_last_five_seq db :
  dataset_seq (snd (maintain_last_five db)) = dataset_seq db.
Proof.
  destruct (maintain_last_five_deletes db) as (gone & _ & _ & Hs).
  exact Hs.
Qed.

(** X2. Keys stay unique over every upload, completed, refused or
    interrupted, and are never handed out twice: the sequence moves by
    at most one, and a dataset that is stored afterwards and was not
    stored before carries the key that follows the old sequence value. *)
Theorem upload_csv_keys (E : Environment) now req db resp db' :
  well_formed db ->
  upload_csv E now req db = (inr resp, db') ->
  well_formed db'
  /\ (dataset_seq db <= dataset_seq db' <= dataset_seq db + 1)%Z
  /\ (forall d, In d (datasets db') ->
                In d (datasets db)
                \/ EquipmentDataset.id d = (dataset_seq db + 1)%Z).
Proof.
  intros Hwf Hrun. apply upload_csv_inv in Hrun.
  destruct Hrun as [msg _|f df d e Hst _ _|f df d objs db2 Hst _ _ _ ->].
  - split; [exact Hwf|]. split; [lia|]. auto.
  - pose proof (staged_id _ _ _ _ _ _ _ Hst) as Hid.
    split; [now apply insert_dataset_well_formed|].
    split; [simpl; lia|].
    intros x Hx. simpl in Hx. apply in_app_or in Hx.
    destruct Hx as [Hx|[<-|[]]]; auto.
  - pose proof (staged_id _ _ _ _ _ _ _ Hst) as Hid.
    split; [|split].
    + apply maintain_last_five_well_formed.
      destruct (insert_dataset_well_formed d db Hwf Hid) as [H1 H2].
      split; assumption.
    + rewrite maintain_last_five_seq. simpl. lia.
    + intros x Hx. apply maintain_last_five_subset in Hx.
      simpl in Hx. apply in_app_or in Hx.
      destruct Hx as [Hx|[<-|[]]]; auto.
Qed.

(** Keys over the sixth upload: the new dataset gets key 6, and key 1,
    deleted by the retention rule, is not handed out again. *)
Lemma upload_csv_keys_sixth_upload :
  exists resp db',
    upload_csv (lenient_env pump_valve_frame) 106 (upload_of "f.csv")
               five_uploads = (inr resp, db')
    /\ well_formed db'
    /\ dataset_seq five_uploads = 5%Z
    /\ dataset_seq db' = 6%Z
    /\ map EquipmentDataset.id (datasets db') = [2; 3; 4; 5; 6]%Z.
Proof.
  do 2 eexists. split; [vm_compute; reflexivity|].
  destruct (upload_csv_keys (lenient_env pump_valve_frame) 106
              (upload_of "f.csv") five_uploads _ _
              five_uploads_well_formed ltac:(vm_compute; reflexivity))
    as (Hwf & _ & _).
  split; [exact Hwf|]. repeat split.
Defined.

Lemma insert_referential d objs db :
  referential db ->
  Forall (fun e => Equipment.dataset e = EquipmentDataset.id d) objs ->
  referential (insert_equipment objs (insert_dataset d db)).
Proof.
  intros Href Hobjs e He. simpl in *. apply in_app_or in He.
  destruct He as [He|He].
  - destruct (Href e He) as (x & Hx & Hid).
    exists x. split; [apply in_or_app; now left|exact Hid].
  - exists d. split; [apply in_or_app; right; now left|].
    pose proof (assign_ids_Forall_dataset
                  (fun k => k = EquipmentDataset.id d) (equipment_seq db)
                  objs Hobjs) as Hall.
    rewrite Forall_forall in Hall. symmetry. now apply Hall.
Qed.

Lemma maintain_last_five_referential db :
  referential db -> referential (snd (maintain_last_five db)).
Proof.
  intros Href e He.
  destruct (maintain_last_five_deletes db) as (gone & Hd & Heq & _).
  cbv zeta in *. rewrite Heq in He. apply filter_In in He.
  destruct He as [He Hkept].
  destruct (Href e He) as (x & Hx & Hid).
  exists x. split; [|exact Hid].
  rewrite Hd. apply filter_In. split; [exact Hx|].
  now rewrite Hid.
Qed.

(** X3. No upload leaves an orphan: if every equipment row referenced a
    stored dataset before, every equipment row does so afterwards, also
    for the datasets that the retention rule deleted and for an upload
    that was interrupted. *)
Theorem upload_csv_referential (E : Environment) now req db resp db' :
  referential db ->
  upload_csv E now req db = (inr resp, db') ->
  referential db'.
Proof.
  intros Href Hrun. apply upload_csv_inv in Hrun.
  destruct Hrun as [msg _|f df d e Hst _ _|f df d objs db2 Hst _ Hobjs _ ->].
  - exact Href.
  - intros x Hx. destruct (Href x Hx) as (p & Hp & Hid).
    exists p. split; [apply in_or_app; now left|exact Hid].
  - apply maintain_last_five_referential, insert_referential;
      [exact Href|].
    now destruct (equipment_objects_count _ _ _ _ Hobjs).
Qed.

Lemma referential_check db :
  forallb (fun e =>
             existsb (fun d => (EquipmentDataset.id d
                                =? Equipment.dataset e)%Z) (datasets db))
          (equipment db) = true ->
  referential db.
Proof.
  intros H e He. rewrite forallb_forall in H.
  specialize (H e He). apply existsb_exists in H.
  destruct H as (d & Hd & Hid). exists d. split; [exact Hd|].
  now apply Z.eqb_eq.
Qed.

(** After the sixth upload the rows of the deleted dataset are gone with
    it: ten equipment rows remain, each referencing a stored dataset. *)
Lemma upload_csv_referential_sixth_upload :
  exists resp db',
    upload_csv (lenient_env pump_valve_frame) 106 (upload_of "f.csv")
               five_uploads = (inr resp, db')
    /\ List.length (equipment five_uploads) = 10%nat
    /\ List.length (equipment db') = 10%nat
    /\ referential db'.
Proof.
  do 2 eexists. split; [vm_compute; reflexivity|].
  split; [reflexivity|]. split; [reflexivity|].
  eapply (upload_csv_referential (lenient_env pump_valve_frame) 106
            (upload_of "f.csv") five_uploads);
    [|vm_compute; reflexivity].
  apply referential_check. reflexivity.
Defined.

(** X4. A successful upload keeps the aggregates consistent with the
    rows: if every stored dataset held as many equipment rows as its
    [total_count] before, every stored dataset does so afterwards, the
    new one included. *)
Theorem upload_csv_keeps_counts (E : Environment) now req db resp db' :
  consistent db ->
  upload_csv E now req db = (inr resp, db') ->
  status resp = HTTP_201_CREATED ->
  consistent db'
  /\ Forall (fun d => List.length (records_of d db')
                      = EquipmentDataset.total_count d) (datasets db').
Proof.
  intros Hc Hrun Hok.
  pose proof (upload_csv_consistent E now req db resp db' Hc Hrun Hok) as H.
  split; [exact H|]. now destruct H as (_ & _ & H).
Qed.

Lemma upload_csv_keeps_counts_sixth_upload :
  exists resp db',
    upload_csv (lenient_env pump_valve_frame) 106 (upload_of "f.csv")
               five_uploads = (inr resp, db')
    /\ consistent db'
    /\ map (fun d => List.length (records_of d db')) (datasets db')
       = [2; 2; 2; 2; 2]%nat.
Proof.
  do 2 eexists. split; [vm_compute; reflexivity|].
  split; [|reflexivity].
  eapply (upload_csv_keeps_counts (lenient_env pump_valve_frame) 106
            (upload_of "f.csv") five_uploads);
    [|vm_compute; reflexivity|reflexivity].
  split; [exact five_uploads_well_formed|].
  split; repeat constructor; simpl; lia.
Defined.

(* ================================================================= *)
(** * Reading back what was uploaded *)

Lemma NoDup_map_unique {A B} (f : A -> B) l x y :
  NoDup (map f l) -> In x l -> In y l -> f x = f y -> x = y.
Proof.
  induction l as [|a l IH]; simpl; intros Hnd Hx Hy Heq; [contradiction|].
  inversion Hnd as [|? ? Ha Hnd']; subst.
  destruct Hx as [->|Hx], Hy as [->|Hy]; try reflexivity.
  - exfalso. apply Ha. rewrite Heq. now apply in_map.
  - exfalso. apply Ha. rewrite <- Heq. now apply in_map.
  - now apply IH.
Qed.

Lemma In_skipn {A} n (l : list A) x : In x (skipn n l) -> In x l.
Proof.
  rewrite <- (firstn_skipn n l) at 2. intros H. apply in_or_app. now right.
Qed.

(** A stored dataset is found under its key. *)
Lemma get_object_found d db :
  well_formed db -> In d (datasets db) ->
  get_object (EquipmentDataset.id d) db = (inr d, db).
Proof.
  intros [Hnd _] Hin.
  unfold get_object, get_queryset, EquipmentDataset_objects_all, ret, raise.
  destruct (find _ _) as [x|] eqn:Hfind.
  - apply find_some in Hfind. destruct Hfind as [Hx Hid].
    apply order_by_In in Hx. apply Z.eqb_eq in Hid.
    now rewrite (NoDup_map_unique EquipmentDataset.id _ x d Hnd Hx Hin Hid).
  - exfalso. apply (order_by_In newest_first) in Hin.
    apply (find_none _ _ Hfind d) in Hin.
    now rewrite Z.eqb_refl in Hin.
Qed.

(** A dataset that is newer than every other one comes first. *)
Lemma newest_first_head d l :
  (forall x, In x l ->
             x = d \/ (EquipmentDataset.uploaded_at x
                       < EquipmentDataset.uploaded_at d)%Z) ->
  (exists rest, order_by newest_first l = d :: rest)
  \/ (forall x, In x l ->
                (EquipmentDataset.uploaded_at x
                 < EquipmentDataset.uploaded_at d)%Z).
Proof.
  induction l as [|x l IH]; intros Hall; [right; intros ? []|].
  assert (Hl : forall y, In y l ->
                         y = d \/ (EquipmentDataset.uploaded_at y
                                   < EquipmentDataset.uploaded_at d)%Z)
    by (intros y Hy; apply Hall; now right).
  specialize (IH Hl). simpl.
  destruct (Hall x (or_introl eq_refl)) as [->|Hx].
  - left. destruct IH as [[rest ->]|Holder].
    + simpl. unfold newest_first at 1. rewrite Z.leb_refl. now eexists.
    + destruct (order_by newest_first l) as [|y rest] eqn:Hsorted;
        [now eexists|].
      simpl. unfold newest_first at 1.
      assert (Hy : In y l) by (apply (order_by_In newest_first);
                               rewrite Hsorted; now left).
      specialize (Holder y Hy).
      destruct (Z.leb_spec (EquipmentDataset.uploaded_at y)
                           (EquipmentDataset.uploaded_at d)); [|lia].
      now eexists.
  - destruct IH as [[rest ->]|Holder].
    + left. simpl. unfold newest_first at 1.
      destruct (Z.leb_spec (EquipmentDataset.uploaded_at d)
                           (EquipmentDataset.uploaded_at x)); [lia|].
      now eexists.
    + right. intros y [<-|Hy]; [exact Hx|now apply Holder].
Qed.

Lemma newest_first_head_In d l :
  In d l ->
  (forall x, In x l ->
             x = d \/ (EquipmentDataset.uploaded_at x
                       < EquipmentDataset.uploaded_at d)%Z) ->
  exists rest, order_by newest_first l = d :: rest.
Proof.
  intros Hin Hall.
  destruct (newest_first_head d l Hall) as [H|H]; [exact H|].
  specialize (H d Hin). lia.
Qed.

(** What the retention rule does, in terms of [datasets_to_delete]. *)
Lemma maintain_last_five_spec db :
  let db' := snd (maintain_last_five db) in
  datasets db'
  = filter (fun d =>
              negb (existsb (fun x => (EquipmentDataset.id d
                                       =? EquipmentDataset.id x)%Z)
                            (datasets_to_delete db)))
           (datasets db)
  /\ equipment db'
     = filter (fun e =>
                 negb (existsb (fun x => (Equipment.dataset e
                                          =? EquipmentDataset.id x)%Z)
                               (datasets_to_delete db)))
              (equipment db).
Proof.
  unfold maintain_last_five, datasets_to_delete, bind, count, fetch.
  destruct (5 <? _)%nat; cbv zeta.
  - now rewrite for_each_delete_datasets, for_each_delete_equipment.
  - simpl. split; symmetry; now apply filter_all.
Qed.

(** The newest dataset is not among those the rule deletes. *)
Lemma newest_not_deleted d db :
  well_formed db ->
  In d (datasets db) ->
  (forall x, In x (datasets db) ->
             x = d \/ (EquipmentDataset.uploaded_at x
                       < EquipmentDataset.uploaded_at d)%Z) ->
  existsb (fun x => (EquipmentDataset.id d =? EquipmentDataset.id x)%Z)
          (datasets_to_delete db) = false.
Proof.
  intros [Hnd _] Hin Hall.
  destruct (newest_first_head_In d _ Hin Hall) as [rest Hsorted].
  assert (Hids : NoDup (map EquipmentDataset.id (d :: rest))).
  { rewrite <- Hsorted.
    eapply Permutation_NoDup;
      [apply Permutation_map, (order_by_perm newest_first)|exact Hnd]. }
  apply not_true_iff_false. intros Hex.
  apply existsb_exists in Hex. destruct Hex as (x & Hx & Hid).
  apply Z.eqb_eq in Hid.
  assert (Hrest : In x rest).
  { unfold datasets_to_delete, slice_from, EquipmentDataset_objects_all in Hx.
    rewrite Hsorted in Hx. destruct (5 <? _)%nat; [|destruct Hx].
    apply (In_skipn 4 rest). exact Hx. }
  simpl in Hids. inversion Hids as [|? ? Hd _]; subst.
  apply Hd. rewrite Hid. now apply in_map.
Qed.

Lemma collect_Forall2 {A B} (f : A -> result B) l ys :
  collect f l = inr ys -> Forall2 (fun x y => f x = inr y) l ys.
Proof.
  revert ys. induction l as [|x l IH]; simpl; intros ys H.
  - inversion H. constructor.
  - destruct (f x) eqn:Hx; [discriminate|].
    destruct (collect f l); [discriminate|].
    inversion H; subst. constructor; [exact Hx|now apply IH].
Qed.

Lemma equipment_object_ingested E df d row e :
  equipment_object E df d row = inr e -> ingested_row E df row e.
Proof.
  unfold equipment_object, ingested_row.
  destruct (row_getitem (columns df) row "Equipment Name") as [|c0];
    [discriminate|].
  destruct (row_getitem (columns df) row "Type") as [|c1]; [discriminate|].
  destruct (row_getitem (columns df) row "Flowrate") as [|c2];
    [discriminate|].
  destruct (py_float E c2) as [|x2] eqn:H2; [discriminate|].
  destruct (row_getitem (columns df) row "Pressure") as [|c3];
    [discriminate|].
  destruct (py_float E c3) as [|x3] eqn:H3; [discriminate|].
  destruct (row_getitem (columns df) row "Temperature") as [|c4];
    [discriminate|].
  destruct (py_float E c4) as [|x4] eqn:H4; [discriminate|].
  intros [= <-]. exists c0, c1, c2, c3, c4. simpl. repeat split; assumption.
Qed.

Lemma assign_ids_ingested E df l last objs :
  Forall2 (ingested_row E df) l objs ->
  Forall2 (ingested_row E df) l (assign_ids last objs).
Proof.
  intros H. revert last.
  induction H as [|row e l objs He _ IH]; intros last; simpl;
    constructor; [|apply IH].
  destruct He as (c0 & c1 & c2 & c3 & c4 & H).
  exists c0, c1, c2, c3, c4. exact H.
Qed.

Section ReadBack.
Variable E : Environment.

(** What is stored for the new dataset once an upload at a time later
    than every stored upload has completed. *)
Lemma completed_upload_records now d objs db :
  well_formed db ->
  Forall (fun e => (Equipment.dataset e <= dataset_seq db)%Z) (equipment db) ->
  Forall (fun x => (EquipmentDataset.uploaded_at x < now)%Z) (datasets db) ->
  EquipmentDataset.id d = (dataset_seq db + 1)%Z ->
  EquipmentDataset.uploaded_at d = now ->
  Forall (fun e => Equipment.dataset e = EquipmentDataset.id d) objs ->
  let db' := snd (maintain_last_five
                    (insert_equipment objs (insert_dataset d db))) in
  In d (datasets db')
  /\ records_of d db' = assign_ids (equipment_seq db) objs
  /\ forall x, In x (datasets db') ->
               x = d \/ (EquipmentDataset.uploaded_at x
                         < EquipmentDataset.uploaded_at d)%Z.
Proof.
  intros Hwf Hfk Hold Hid Hnow Hobjs db'. subst db'.
  set (s := insert_equipment objs (insert_dataset d db)).
  assert (Hwfs : well_formed s)
    by (destruct (insert_dataset_well_formed d db Hwf Hid); now split).
  assert (Hin : In d (datasets s)) by (apply in_or_app; right; now left).
  assert (Hall : forall x, In x (datasets s) ->
                           x = d \/ (EquipmentDataset.uploaded_at x
                                     < EquipmentDataset.uploaded_at d)%Z).
  { intros x Hx. simpl in Hx. apply in_app_or in Hx.
    destruct Hx as [Hx|[<-|[]]]; [right|now left].
    rewrite Forall_forall in Hold. rewrite Hnow. now apply Hold. }
  pose proof (newest_not_deleted d s Hwfs Hin Hall) as Hkept.
  destruct (maintain_last_five_spec s) as [Hd He].
  split; [|split].
  - rewrite Hd. apply filter_In. split; [exact Hin|]. now rewrite Hkept.
  - unfold records_of. rewrite He, filter_filter.
    rewrite (filter_ext_in _
               (fun e => (Equipment.dataset e =? EquipmentDataset.id d)%Z)).
    + simpl. rewrite filter_app.
      rewrite (filter_by_key_none Equipment.dataset).
      * simpl. rewrite filter_by_key_all; [reflexivity|].
        now apply (assign_ids_Forall_dataset
                     (fun k => k = EquipmentDataset.id d)).
      * eapply Forall_impl; [|exact Hfk]. intros e H. simpl in H. lia.
    + intros e _.
      destruct (Z.eqb_spec (Equipment.dataset e) (EquipmentDataset.id d))
        as [->|_]; [|apply andb_false_r].
      now rewrite Hkept.
  - intros x Hx. apply Hall. rewrite Hd in Hx. now apply filter_In in Hx.
Qed.

(** X5. Upload, then get by id. When an upload at a time later than
    every stored upload succeeds, the new dataset is stored and found
    under its key; the rows stored for it are the rows of the file, in
    file order, each with its name, type and three measurements; and the
    detail view returns these N rows, sorted by name. *)
Theorem upload_csv_read_back now req db resp db' f df :
  well_formed db ->
  Forall (fun e => (Equipment.dataset e <= dataset_seq db)%Z) (equipment db) ->
  Forall (fun x => (EquipmentDataset.uploaded_at x < now)%Z) (datasets db) ->
  FILES_file req = Some f ->
  read_csv E f = inr df ->
  upload_csv E now req db = (inr resp, db') ->
  status resp = HTTP_201_CREATED ->
  exists d items,
    data resp = DatasetData d items
    /\ In d (datasets db')
    /\ Forall2 (ingested_row E df) (rows df) (records_of d db')
    /\ retrieve (EquipmentDataset.id d) db'
       = (inr {| status := HTTP_200_OK; data := DatasetData d items |}, db')
    /\ Permutation items (records_of d db')
    /\ StronglySorted name_before items
    /\ List.length items = len df.
Proof.
  intros Hwf Hfk Hold Hf Hr Hrun Hok.
  pose proof (upload_csv_inv E _ _ _ _ _ Hrun) as Hin.
  destruct Hin as [msg _|f' df' d e Hst _ _|f' df' d objs db2 Hst _ Hobjs _ Hdb];
    try discriminate Hok.
  destruct (staged_frame_eq _ _ _ _ _ _ _ _ _ Hf Hr Hst) as [-> ->].
  destruct (equipment_objects_count _ _ _ _ Hobjs) as [Hlen Hkeys].
  destruct (completed_upload_records now d objs db Hwf Hfk Hold
              (staged_id _ _ _ _ _ _ _ Hst)
              (staged_uploaded_at _ _ _ _ _ _ _ Hst) Hkeys)
    as (Hstored & Hrecords & _).
  rewrite <- Hdb in Hstored, Hrecords.
  assert (Hwf2 : well_formed db2).
  { subst db2. apply maintain_last_five_well_formed.
    destruct (insert_dataset_well_formed d db Hwf
                (staged_id _ _ _ _ _ _ _ Hst)); now split. }
  exists d, (equipment_items d db2).
  split; [reflexivity|]. split; [exact Hstored|]. split.
  - rewrite Hrecords. apply assign_ids_ingested.
    unfold equipment_objects in Hobjs.
    apply collect_Forall2 in Hobjs.
    eapply Forall2_impl; [|exact Hobjs].
    intros row e. apply equipment_object_ingested.
  - split.
    + unfold retrieve, bind. rewrite (get_object_found d db2 Hwf2 Hstored).
      reflexivity.
    + split; [apply equipment_items_records|].
      split; [apply equipment_items_sorted|].
      rewrite (Permutation_length (equipment_items_records d db2)).
      now rewrite Hrecords, assign_ids_length.
Qed.

(** X6. When an upload at a time later than every stored upload
    succeeds, the new dataset survives the retention rule and is the
    first entry of the history. *)
Theorem upload_csv_heads_history now req db resp db' :
  well_formed db ->
  Forall (fun x => (EquipmentDataset.uploaded_at x < now)%Z) (datasets db) ->
  upload_csv E now req db = (inr resp, db') ->
  status resp = HTTP_201_CREATED ->
  exists d items rest,
    data resp = DatasetData d items
    /\ EquipmentDataset.uploaded_at d = now
    /\ history_list db'
       = (inr {| status := HTTP_200_OK; data := SummaryList (d :: rest) |},
          db').
Proof.
  intros Hwf Hold Hrun Hok.
  pose proof (upload_csv_inv E _ _ _ _ _ Hrun) as Hin.
  destruct Hin as [msg _|f df d e Hst _ _|f df d objs db2 Hst _ Hobjs _ Hdb];
    try discriminate Hok.
  pose proof (staged_id _ _ _ _ _ _ _ Hst) as Hid.
  pose proof (staged_uploaded_at _ _ _ _ _ _ _ Hst) as Hnow.
  set (s := insert_equipment objs (insert_dataset d db)) in *.
  assert (Hwfs : well_formed s)
    by (destruct (insert_dataset_well_formed d db Hwf Hid); now split).
  assert (Hins : In d (datasets s)) by (apply in_or_app; right; now left).
  assert (Hall : forall x, In x (datasets s) ->
                           x = d \/ (EquipmentDataset.uploaded_at x
                                     < EquipmentDataset.uploaded_at d)%Z).
  { intros x Hx. simpl in Hx. apply in_app_or in Hx.
    destruct Hx as [Hx|[<-|[]]]; [right|now left].
    rewrite Forall_forall in Hold. rewrite Hnow. now apply Hold. }
  pose proof (newest_not_deleted d s Hwfs Hins Hall) as Hkept.
  destruct (maintain_last_five_spec s) as [Hd _]. rewrite <- Hdb in Hd.
  assert (Hstored : In d (datasets db2)).
  { rewrite Hd. apply filter_In. split; [exact Hins|]. now rewrite Hkept. }
  assert (Hall2 : forall x, In x (datasets db2) ->
                            x = d \/ (EquipmentDataset.uploaded_at x
                                      < EquipmentDataset.uploaded_at d)%Z).
  { intros x Hx. apply Hall. rewrite Hd in Hx. now apply filter_In in Hx. }
  destruct (newest_first_head_In d _ Hstored Hall2) as [rest Hsorted].
  destruct (history_list_recent db2) as (recent & Hhist & _ & _ & Hrecent).
  rewrite Hsorted in Hrecent. simpl in Hrecent.
  exists d, (equipment_items d db2), (firstn 4 rest).
  split; [reflexivity|]. split; [exact Hnow|].
  now rewrite Hhist, Hrecent.
Qed.

End ReadBack.

Lemma five_uploads_keys_bounded :
  Forall (fun e => (Equipment.dataset e <= dataset_seq five_uploads)%Z)
         (equipment five_uploads).
Proof. repeat constructor; simpl; lia. Qed.

Lemma five_uploads_older :
  Forall (fun x => (EquipmentDataset.uploaded_at x < 106)%Z)
         (datasets five_uploads).
Proof. repeat constructor; simpl; lia. Qed.

(** The file that lists Valve1 before Pump1, uploaded at time 106 onto
    five stored datasets: it is stored under key 6 with its two rows in
    file order, and read back by name. *)
Lemma upload_csv_read_back_sixth_upload :
  exists resp db' d items,
    upload_csv (lenient_env valve_pump_frame) 106 (upload_of "f.csv")
               five_uploads = (inr resp, db')
    /\ data resp = DatasetData d items
    /\ EquipmentDataset.id d = 6%Z
    /\ retrieve 6 db'
       = (inr {| status := HTTP_200_OK; data := DatasetData d items |}, db')
    /\ Forall2 (ingested_row (lenient_env valve_pump_frame) valve_pump_frame)
               (rows valve_pump_frame) (records_of d db')
    /\ map Equipment.equipment_name (records_of d db')
       = ["Valve1"; "Pump1"]%string
    /\ map Equipment.equipment_name items = ["Pump1"; "Valve1"]%string.
Proof.
  destruct (upload_csv_read_back (lenient_env valve_pump_frame) 106
              (upload_of "f.csv") five_uploads _ _
              {| name := "f.csv"; content := "" |} valve_pump_frame
              five_uploads_well_formed five_uploads_keys_bounded
              five_uploads_older eq_refl eq_refl
              ltac:(vm_compute; reflexivity) eq_refl)
    as (d & items & Hdata & _ & Hrows & Hget & _).
  do 2 eexists. exists d, items.
  split; [vm_compute; reflexivity|].
  simpl in Hdata. injection Hdata as <- <-.
  split; [reflexivity|]. split; [reflexivity|].
  split; [exact Hget|]. split; [exact Hrows|].
  split; reflexivity.
Defined.

Lemma upload_csv_heads_history_sixth_upload :
  exists resp db' d rest,
    upload_csv (lenient_env pump_valve_frame) 106 (upload_of "f.csv")
               five_uploads = (inr resp, db')
    /\ history_list db'
       = (inr {| status := HTTP_200_OK; data := SummaryList (d :: rest) |},
          db')
    /\ EquipmentDataset.id d = 6%Z
    /\ EquipmentDataset.name d = "f.csv"%string
    /\ map EquipmentDataset.id rest = [5; 4; 3; 2]%Z.
Proof.
  destruct (upload_csv_heads_history (lenient_env pump_valve_frame) 106
              (upload_of "f.csv") five_uploads _ _
              five_uploads_well_formed five_uploads_older
              ltac:(vm_compute; reflexivity) eq_refl)
    as (d & items & rest & Hdata & _ & Hhist).
  do 2 eexists. exists d, rest.
  split; [vm_compute; reflexivity|].
  split; [exact Hhist|].
  simpl in Hdata. injection Hdata as <- _.
  vm_compute in Hhist. injection Hhist as <-.
  repeat split.
Defined.

(* ================================================================= *)
(** * The read views *)

(** X7. The history, on any store: the view changes nothing and lists
    min(5, number of stored datasets) of the stored datasets, most recent
    first; no stored dataset that is left out is newer than a listed
    one. The [list] action of the view set reads the same datasets. *)
Theorem history_list_most_recent db :
  exists recent,
    history_list db
    = (inr {| status := HTTP_200_OK; data := SummaryList recent |}, db)
    /\ List.length recent = Nat.min 5 (List.length (datasets db))
    /\ StronglySorted newer_or_same recent
    /\ (forall d, In d recent -> In d (datasets db))
    /\ (forall listed other,
           In listed recent -> In other (datasets db) ->
           ~ In other recent -> newer_or_same listed other)
    /\ get_queryset_list db = recent.
Proof.
  destruct (history_list_recent db) as (recent & Hhist & _ & Hsorted & Heq).
  exists recent. split; [exact Hhist|].
  set (sorted := order_by newest_first (datasets db)) in *.
  split; [|split; [exact Hsorted|split; [|split]]].
  - rewrite Heq, length_firstn. unfold sorted.
    now rewrite order_by_length.
  - intros d Hd. rewrite Heq in Hd. apply In_firstn in Hd.
    now apply (order_by_In newest_first).
  - intros listed other Hl Ho Hno.
    apply (StronglySorted_app_le newer_or_same (firstn 5 sorted)
                                 (skipn 5 sorted)).
    + rewrite firstn_skipn. apply newest_first_sorted.
    + now rewrite <- Heq.
    + assert (Hin : In other (firstn 5 sorted ++ skipn 5 sorted)).
      { rewrite firstn_skipn. now apply order_by_In. }
      apply in_app_or in Hin. destruct Hin as [Hin|Hin]; [|exact Hin].
      exfalso. apply Hno. now rewrite Heq.
  - unfold get_queryset_list, slice_until, order_by_uploaded_at_desc.
    unfold history_list, bind, fetch, slice_until,
      order_by_uploaded_at_desc, ret in Hhist.
    now injection Hhist.
Qed.

Lemma find_key_none pk l :
  find (fun d => (EquipmentDataset.id d =? pk)%Z) l = None
  <-> forall d, In d l -> EquipmentDataset.id d <> pk.
Proof.
  split.
  - intros H d Hd Hid. apply (find_none _ _ H) in Hd.
    apply Z.eqb_neq in Hd. contradiction.
  - intros H. destruct (find _ l) as [x|] eqn:Hfind; [|reflexivity].
    apply find_some in Hfind. destruct Hfind as [Hx Hid].
    apply Z.eqb_eq in Hid. now apply H in Hx.
Qed.

Lemma get_object_missing pk db :
  (forall d, In d (datasets db) -> EquipmentDataset.id d <> pk) ->
  get_object pk db = (inl Http404, db).
Proof.
  intros H.
  unfold get_object, get_queryset, EquipmentDataset_objects_all, ret, raise.
  assert (Hnone : find (fun d => (EquipmentDataset.id d =? pk)%Z)
                       (order_by newest_first (datasets db)) = None).
  { apply find_key_none. intros d Hd. apply H.
    now apply (order_by_In newest_first). }
  now rewrite Hnone.
Qed.

(** X8. Looking a dataset up by key, with unique keys: [get_object]
    returns [d] exactly when [d] is stored and has the key, raises
    [Http404] exactly when no stored dataset has the key, and never
    changes the store. *)
Theorem get_object_lookup pk db :
  well_formed db ->
  (forall d, get_object pk db = (inr d, db)
             <-> In d (datasets db) /\ EquipmentDataset.id d = pk)
  /\ (get_object pk db = (inl Http404, db)
      <-> forall d, In d (datasets db) -> EquipmentDataset.id d <> pk)
  /\ snd (get_object pk db) = db.
Proof.
  intros Hwf. split; [|split].
  - intros d. split.
    + intros H. apply get_object_stored in H. tauto.
    + intros [Hin <-]. now apply get_object_found.
  - unfold get_object, get_queryset, EquipmentDataset_objects_all, ret, raise.
    split.
    + intros H d Hd. destruct (find _ _) eqn:Hfind; [discriminate|].
      apply (proj1 (find_key_none pk _) Hfind).
      now apply (order_by_In newest_first).
    + apply get_object_missing.
  - unfold get_object, ret, raise. now destruct (find _ _).
Qed.

Lemma get_object_lookup_five_uploads :
  (exists d, get_object 3 five_uploads = (inr d, five_uploads)
             /\ EquipmentDataset.name d = "c.csv"%string)
  /\ get_object 9 five_uploads = (inl Http404, five_uploads).
Proof.
  destruct (get_object_lookup 3 five_uploads five_uploads_well_formed)
    as (Hfound & _).
  destruct (get_object_lookup 9 five_uploads five_uploads_well_formed)
    as (_ & Hmissing & _).
  split.
  - match eval vm_compute in (nth_error (datasets five_uploads) 2) with
    | Some ?d => exists d
    end.
    split; [apply Hfound|reflexivity].
    split; [|reflexivity]. simpl. right. right. left. reflexivity.
  - apply Hmissing. intros d Hd. simpl in Hd.
    repeat (destruct Hd as [<-|Hd]; [discriminate|]). destruct Hd.
Defined.

(** X9. The views that read one dataset -- the detail view, [summary]
    and [generate_pdf] -- raise [Http404] for a key that no stored
    dataset has, and answer 200 for the key of a stored dataset; the
    detail view, [summary] and the history never change the store. *)
Theorem read_views (E : Environment) pk db :
  well_formed db ->
  ((forall d, In d (datasets db) -> EquipmentDataset.id d <> pk) ->
   retrieve pk db = (inl Http404, db)
   /\ summary pk db = (inl Http404, db)
   /\ generate_pdf E pk db = (inl Http404, db))
  /\ (forall d, In d (datasets db) -> EquipmentDataset.id d = pk ->
       (exists items,
           retrieve pk db
           = (inr {| status := HTTP_200_OK; data := DatasetData d items |}, db))
       /\ (exists s,
              summary pk db = (inr (HTTP_200_OK, s), db)
              /\ Summary.id s = pk
              /\ Summary.name s = EquipmentDataset.name d
              /\ Summary.total_count s = EquipmentDataset.total_count d
              /\ Summary.avg_flowrate s
                 = py_round 2 (EquipmentDataset.avg_flowrate d)
              /\ Summary.avg_pressure s
                 = py_round 2 (EquipmentDataset.avg_pressure d)
              /\ Summary.avg_temperature s
                 = py_round 2 (EquipmentDataset.avg_temperature d)
              /\ Summary.equipment_types s
                 = EquipmentDataset.equipment_types d)
       /\ (exists report,
              generate_pdf E pk db
              = (inr {| status := HTTP_200_OK; data := Pdf report |}, db)))
  /\ snd (retrieve pk db) = db
  /\ snd (summary pk db) = db
  /\ snd (history_list db) = db.
Proof.
  intros Hwf.
  split; [|split; [|split; [|split]]].
  - intros Hno. apply get_object_missing in Hno.
    unfold retrieve, summary, generate_pdf, bind. now rewrite Hno.
  - intros d Hd Hid.
    assert (Hget : get_object pk db = (inr d, db)).
    { subst pk. now apply get_object_found. }
    unfold retrieve, summary, generate_pdf, bind. rewrite Hget.
    split; [now eexists|]. split; [|now eexists].
    eexists. split; [reflexivity|]. simpl. repeat split. exact Hid.
  - unfold retrieve, bind, get_object, serializer_data, bind, fetch, ret, raise.
    now destruct (find _ _).
  - unfold summary, bind, get_object, ret, raise. now destruct (find _ _).
  - reflexivity.
Qed.

(** On the store of the 25 exchangers: key 7 is unknown to the three
    views, and the summary of key 1 carries the stored count and the
    averages 13.0, 2.5 and 0.25. *)
Lemma read_views_exchangers :
  retrieve 7 exchangers_store = (inl Http404, exchangers_store)
  /\ summary 7 exchangers_store = (inl Http404, exchangers_store)
  /\ generate_pdf (lenient_env exchangers_frame) 7 exchangers_store
     = (inl Http404, exchangers_store)
  /\ exists s,
      summary 1 exchangers_store = (inr (HTTP_200_OK, s), exchangers_store)
      /\ Summary.total_count s = 25%nat
      /\ Summary.avg_flowrate s = 13%float
      /\ Summary.avg_pressure s = 2.5%float
      /\ Summary.avg_temperature s = 0.25%float.
Proof.
  destruct exchangers_store_consistent as (Hwf & _).
  destruct (read_views (lenient_env exchangers_frame) 7 exchangers_store Hwf)
    as (Hmissing & _).
  destruct (read_views (lenient_env exchangers_frame) 1 exchangers_store Hwf)
    as (_ & Hfound & _).
  destruct Hmissing as (H1 & H2 & H3).
  { intros d [<-|[]]. discriminate. }
  split; [exact H1|]. split; [exact H2|]. split; [exact H3|].
  destruct (Hfound _ (or_introl eq_refl) eq_refl)
    as (_ & (s & Hs & _ & _ & Hn & Ha & Hb & Hc & _) & _).
  exists s. split; [exact Hs|].
  split; [exact Hn|].
  split; [rewrite Ha; vm_compute; reflexivity|].
  split; [rewrite Hb; vm_compute; reflexivity|].
  rewrite Hc; vm_compute; reflexivity.
Defined.

(* ================================================================= *)
(** * Deleting datasets *)

Lemma filter_idempotent {A} (p : A -> bool) l :
  filter p (filter p l) = filter p l.
Proof.
  rewrite filter_filter. apply filter_ext. intros a. now destruct (p a).
Qed.

Lemma delete_records_of ds d db :
  EquipmentDataset.id d <> EquipmentDataset.id ds ->
  records_of d (snd (delete ds db)) = records_of d db.
Proof.
  intros Hne. unfold records_of. simpl. rewrite filter_filter.
  apply filter_ext. intros e.
  destruct (Z.eqb_spec (Equipment.dataset e) (EquipmentDataset.id d))
    as [->|_]; [|apply andb_false_r].
  apply Z.eqb_neq in Hne. now rewrite Hne.
Qed.

(** X10. [ds.delete()] removes the dataset of that key and, by the
    cascade declared on the foreign key, every equipment row that
    references it; the other datasets and their rows stay as they are.
    Deleting the same dataset again changes nothing. The deletion keeps
    the invariant of the store and leaves no orphan row. *)
Theorem delete_cascades ds db :
  let db' := snd (delete ds db) in
  (forall d, In d (datasets db')
             <-> In d (datasets db)
                 /\ EquipmentDataset.id d <> EquipmentDataset.id ds)
  /\ (forall e, In e (equipment db')
                <-> In e (equipment db)
                    /\ Equipment.dataset e <> EquipmentDataset.id ds)
  /\ (forall d, EquipmentDataset.id d <> EquipmentDataset.id ds ->
                records_of d db' = records_of d db)
  /\ snd (delete ds db') = db'
  /\ (consistent db -> consistent db')
  /\ (referential db -> referential db').
Proof.
  cbv zeta. split; [|split; [|split; [|split; [|split]]]].
  - intros d. simpl. rewrite filter_In, negb_true_iff, Z.eqb_neq. tauto.
  - intros e. simpl. rewrite filter_In, negb_true_iff, Z.eqb_neq. tauto.
  - intros d. apply delete_records_of.
  - unfold delete. simpl. now rewrite !filter_idempotent.
  - intros ((Hnd & Hle) & Hfk & Hcount).
    split; [split|split].
    + simpl. now apply NoDup_map_filter.
    + simpl. now apply Forall_filter.
    + simpl. now apply Forall_filter.
    + apply Forall_forall. intros d Hd. simpl in Hd. apply filter_In in Hd.
      destruct Hd as [Hd Hne]. apply negb_true_iff, Z.eqb_neq in Hne.
      rewrite (delete_records_of ds d db Hne).
      rewrite Forall_forall in Hcount. now apply Hcount.
  - intros Href e He. simpl in He. apply filter_In in He.
    destruct He as [He Hne]. destruct (Href e He) as (d & Hd & Hid).
    exists d. split; [|exact Hid]. simpl. apply filter_In.
    split; [exact Hd|]. now rewrite Hid.
Qed.

(** Deleting the dataset of key 3 out of five: four datasets and their
    eight rows remain. *)
Lemma delete_cascades_five_uploads :
  exists ds,
    get_object 3 five_uploads = (inr ds, five_uploads)
    /\ map EquipmentDataset.id (datasets (snd (delete ds five_uploads)))
       = [1; 2; 4; 5]%Z
    /\ map Equipment.dataset (equipment (snd (delete ds five_uploads)))
       = [1; 1; 2; 2; 4; 4; 5; 5]%Z
    /\ consistent (snd (delete ds five_uploads)).
Proof.
  match eval vm_compute in (nth_error (datasets five_uploads) 2) with
  | Some ?d => exists d; destruct (delete_cascades d five_uploads)
      as (_ & _ & _ & _ & Hc & _)
  end.
  split; [vm_compute; reflexivity|].
  split; [reflexivity|]. split; [reflexivity|].
  apply Hc. split; [exact five_uploads_well_formed|].
  split; [exact five_uploads_keys_bounded|].
  repeat constructor.
Defined.

Lemma maintain_last_five_noop db :
  (List.length (datasets db) <= 5)%nat ->
  maintain_last_five db = (inr tt, db).
Proof.
  intros Hlen. unfold maintain_last_five, bind, count, fetch,
    EquipmentDataset_objects_all.
  rewrite order_by_length.
  destruct (Nat.ltb_spec 5 (List.length (datasets db))); [lia|reflexivity].
Qed.

(** X11. The retention rule settles. With unique keys it leaves at most
    five datasets, each of them stored before; it deletes nothing when
    at most five are stored; so running it again changes nothing. *)
Theorem maintain_last_five_settles db :
  NoDup (map EquipmentDataset.id (datasets db)) ->
  let db' := snd (maintain_last_five db) in
  (List.length (datasets db') <= 5)%nat
  /\ (forall d, In d (datasets db') -> In d (datasets db))
  /\ ((List.length (datasets db) <= 5)%nat -> db' = db)
  /\ snd (maintain_last_five db') = db'.
Proof.
  intros Hnd db'.
  assert (Hlen : (List.length (datasets db') <= 5)%nat).
  { unfold db'.
    rewrite (Permutation_length (maintain_last_five_datasets db Hnd)).
    apply firstn_le_length. }
  split; [exact Hlen|]. split; [|split].
  - intros d. apply maintain_last_five_subset.
  - intros H. unfold db'. now rewrite maintain_last_five_noop.
  - now rewrite maintain_last_five_noop.
Qed.

Lemma maintain_last_five_settles_five_uploads :
  snd (maintain_last_five five_uploads) = five_uploads
  /\ (List.length (datasets (snd (maintain_last_five five_uploads))) <= 5)%nat.
Proof.
  destruct five_uploads_well_formed as [Hnd _].
  destruct (maintain_last_five_settles five_uploads Hnd)
    as (Hlen & _ & Hsame & _).
  split; [apply Hsame; simpl; lia|exact Hlen].
Defined.

(* ================================================================= *)
(** * The distribution, most frequent first *)

Lemma StronglySorted_weaken {A} (R S : A -> A -> Prop) l :
  (forall a b, R a b -> S a b) ->
  StronglySorted R l -> StronglySorted S l.
Proof.
  intros HRS. induction 1 as [|a l _ IH Ha]; constructor; [exact IH|].
  eapply Forall_impl; [|exact Ha]. intros b. apply HRS.
Qed.

(** X12. [value_counts], from which the stored distribution is built,
    lists the most frequent type first: its counts never increase along
    the list, and every listed type occurs at least once. *)
Theorem value_counts_most_frequent_first (E : Environment) s :
  StronglySorted at_least_as_frequent (value_counts E s)
  /\ forall label n, In (label, n) (value_counts E s) -> (1 <= n)%nat.
Proof.
  split.
  - unfold value_counts.
    apply (StronglySorted_weaken
             (fun a b => more_frequent_first a b = true)).
    + intros a b H. unfold more_frequent_first in H.
      unfold at_least_as_frequent. now apply Nat.leb_le.
    + apply (order_by_StronglySorted more_frequent_first).
      * intros a b. unfold more_frequent_first.
        destruct (Nat.leb_spec (snd b) (snd a)); [now left|right].
        apply Nat.leb_le. lia.
      * intros a b c. unfold more_frequent_first.
        rewrite !Nat.leb_le. lia.
  - intros label n Hin.
    pose proof (value_counts_count E s label n Hin) as Hn.
    destruct (value_counts_spec E s) as (_ & Hkeys & _).
    assert (Hl : In label (present_labels E s)).
    { unfold present_labels.
      destruct (proj1 (Hkeys label)) as (c & Hc & Hna & Hlabel).
      - now apply (in_map fst _ _ Hin).
      - apply in_map_iff. exists c. split; [exact Hlabel|].
        apply filter_In. split; [exact Hc|]. unfold notna. now rewrite Hna. }
    apply (count_occ_In string_dec) in Hl. lia.
Qed.

(* ================================================================= *)
(** * What the report prints for a number *)

(** X13. What [f"{x:.pf}"] prints for a finite float [x = m * 2^e],
    with [p >= 1] digits: the sign, the integer part and [p] digits of
    the fraction of [n / 10^p], where [n] is [|x| * 10^p] rounded to the
    nearest integer, ties to the even one -- exactly when [x] is an
    integer. The printed digits parse back to these two parts. *)
Theorem format_f_correct p x s m e :
  Prim2SF x = S754_finite s m e ->
  exists n whole frac,
    format_f (S p) x = (sign_prefix s ++ whole ++ "." ++ frac)%string
    /\ (0 <= n)%Z
    /\ option_map Z.of_int (NilZero.int_of_string whole)
       = Some (n / 10 ^ Z.of_nat (S p))%Z
    /\ String.length frac = S p
    /\ digits_value frac = (n mod 10 ^ Z.of_nat (S p))%Z
    /\ (if (0 <=? e)%Z
        then n = (Z.pos m * 2 ^ e * 10 ^ Z.of_nat (S p))%Z
        else nearest_integer (Z.pos m * 10 ^ Z.of_nat (S p)) (2 ^ (- e)) n).
Proof.
  intros Hx. unfold format_f. rewrite Hx.
  exists (scaled_digits (S p) m e).
  exists (str_int (scaled_digits (S p) m e / 10 ^ Z.of_nat (S p))).
  exists (digits_fixed (S p) (scaled_digits (S p) m e mod 10 ^ Z.of_nat (S p))).
  split; [reflexivity|].
  split; [apply scaled_digits_nonneg|].
  split; [apply str_int_value|].
  split; [apply digits_fixed_length|].
  split.
  - rewrite digits_fixed_value. apply Z.mod_mod.
    apply Z.pow_nonzero; lia.
  - unfold scaled_digits. destruct (0 <=? e)%Z eqn:He; [reflexivity|].
    apply Z.leb_gt in He. apply round_half_even_nearest.
    + apply Z.pow_pos_nonneg; lia.
    + apply Z.mul_nonneg_nonneg; [lia|apply Z.pow_nonneg; lia].
Qed.

(** 0.25 with one digit: 2.5 is a tie and goes to the even 2, printed
    0.2; -2.675 with two digits is below the tie in binary and is printed
    -2.67. *)
Lemma format_f_correct_ties :
  format_f 1 0.25%float = "0.2"%string
  /\ format_f 2 (-0x1.5666666666666p+1)%float = "-2.67"%string
  /\ exists n whole frac,
      format_f 1 0.25%float = (whole ++ "." ++ frac)%string
      /\ n = 2%Z
      /\ nearest_integer (4503599627370496 * 10) (2 ^ 54) n.
Proof.
  destruct (format_f_correct 0 0.25%float false 4503599627370496 (-54)
              eq_refl)
    as (n & whole & frac & Hfmt & _ & Hwhole & Hlen & Hfrac & Hn).
  split; [reflexivity|]. split; [reflexivity|].
  exists n, whole, frac. split; [exact Hfmt|].
  change (nearest_integer (4503599627370496 * 10) 18014398509481984 n) in Hn.
  assert (n = 2%Z) as ->.
  { destruct Hn as [Hbound Heven].
    assert (Hcases : n = 2%Z \/ n = 3%Z) by lia.
    destruct Hcases as [-> | ->]; [reflexivity|].
    specialize (Heven eq_refl). discriminate Heven. }
  split; [reflexivity|exact Hn].
Defined.

(* ================================================================= *)
(** * The extension check *)

Lemma append_nil_r (s : string) : (s ++ "")%string = s.
Proof. induction s; simpl; congruence. Qed.

Lemma string_rev_onto_append s acc :
  string_rev_onto s acc = (string_rev s ++ acc)%string.
Proof.
  unfold string_rev. revert acc.
  induction s as [|c s IH]; intros acc; simpl; [reflexivity|].
  rewrite IH, (IH (String c "")), append_assoc. reflexivity.
Qed.

Lemma string_rev_append a b :
  string_rev (a ++ b) = (string_rev b ++ string_rev a)%string.
Proof.
  induction a as [|c a IH]; simpl.
  - now rewrite append_nil_r.
  - unfold string_rev at 1 3. simpl.
    rewrite !string_rev_onto_append, IH, append_assoc. reflexivity.
Qed.

Lemma string_rev_involutive s : string_rev (string_rev s) = s.
Proof.
  induction s as [|c s IH]; [reflexivity|].
  unfold string_rev at 2. simpl.
  rewrite string_rev_onto_append, string_rev_append, IH. reflexivity.
Qed.

(** [s.endswith(suffix)] holds exactly for the strings that are some
    stem followed by [suffix]. *)
Lemma endswith_append s suffix :
  endswith s suffix = true <-> exists stem, s = (stem ++ suffix)%string.
Proof.
  unfold endswith. rewrite prefix_append. split.
  - intros [t Ht]. exists (string_rev t).
    rewrite <- (string_rev_involutive s), Ht, string_rev_append.
    now rewrite string_rev_involutive.
  - intros [stem ->]. exists (string_rev stem). apply string_rev_append.
Qed.

(** X14. The extension check. An upload that carries a file is answered
    "File must be a CSV" exactly when the file name is not some stem
    followed by [.csv], in lower case: no other failure and no success
    gives that answer, and no name of that form escapes it. *)
Theorem upload_csv_extension_rule (E : Environment) now req db f resp db' :
  FILES_file req = Some f ->
  upload_csv E now req db = (inr resp, db') ->
  (resp = bad_request wrong_extension_message
   <-> ~ exists stem, name f = (stem ++ ".csv")%string).
Proof.
  intros Hf Hrun. rewrite <- endswith_append. split.
  - intros Hresp Hext. apply upload_csv_inv in Hrun.
    destruct Hrun as [msg Hwhy|? ? ? e _ _ _|]; [| |discriminate Hresp].
    + destruct Hwhy as [Hn|f' Hf' He| | | |];
        try (injection Hresp as Hmsg; discriminate Hmsg); congruence.
    + injection Hresp as Hmsg. discriminate Hmsg.
  - intros Hno. apply not_true_iff_false in Hno.
    rewrite (upload_csv_wrong_extension E now req db f Hf Hno) in Hrun.
    now injection Hrun as <- _.
Qed.

(** A name in upper case is refused; the same name in lower case is
    not. *)
Lemma upload_csv_extension_rule_upper_case :
  upload_csv (lenient_env pump_valve_frame) 100 (upload_of "PLANT.CSV")
             empty_store
  = (inr (bad_request wrong_extension_message), empty_store)
  /\ exists resp db',
      upload_csv (lenient_env pump_valve_frame) 100 (upload_of "plant.csv")
                 empty_store = (inr resp, db')
      /\ resp <> bad_request wrong_extension_message.
Proof.
  split; [reflexivity|].
  do 2 eexists. split; [vm_compute; reflexivity|].
  intros Hresp.
  apply (upload_csv_extension_rule (lenient_env pump_valve_frame) 100
           (upload_of "plant.csv") empty_store
           {| name := "plant.csv"; content := "" |} _ _ eq_refl
           ltac:(vm_compute; reflexivity)) in Hresp.
  apply Hresp. now exists "plant"%string.
Defined.

(* ================================================================= *)
(** * The desktop client *)

Lemma split_not_nil sep s : Desktop.split sep s <> [].
Proof.
  destruct s as [|c s]; simpl; [discriminate|].
  destruct (Ascii.eqb c sep); [discriminate|].
  destruct (Desktop.split sep s); discriminate.
Qed.

(** Joining the parts with the separator gives the string back. *)
Lemma join_split sep s :
  join (String sep "") (Desktop.split sep s) = s.
Proof.
  induction s as [|c s IH]; [reflexivity|]. simpl.
  destruct (Ascii.eqb_spec c sep) as [->|Hne].
  - destruct (Desktop.split sep s) as [|part parts] eqn:Hs;
      [now apply split_not_nil in Hs|].
    change (join (String sep "") ("" :: part :: parts))%string
      with (String sep (join (String sep "") (part :: parts))).
    now rewrite IH.
  - destruct (Desktop.split sep s) as [|part parts] eqn:Hs;
      [now apply split_not_nil in Hs|].
    rewrite <- IH. destruct parts; reflexivity.
Qed.

Lemma split_parts_no_sep sep s part :
  In part (Desktop.split sep s) -> has_char sep part = false.
Proof.
  revert part. induction s as [|c s IH]; intros part; simpl.
  - intros [<-|[]]. reflexivity.
  - destruct (Ascii.eqb c sep) eqn:Hc.
    + intros [<-|Hin]; [reflexivity|now apply IH].
    + destruct (Desktop.split sep s) as [|p parts];
        [intros [<-|[]]; simpl; now rewrite Hc|].
      intros [<-|Hin].
      * simpl. rewrite Hc. apply IH. now left.
      * apply IH. now right.
Qed.

Lemma last_In (l : list string) : l <> [] -> In (List.last l ""%string) l.
Proof.
  induction l as [|a l IH]; [congruence|]. intros _.
  destruct l as [|b l]; [now left|].
  right. apply IH. discriminate.
Qed.

Lemma join_snoc sep l b :
  l <> [] -> join sep (l ++ [b]) = (join sep l ++ sep ++ b)%string.
Proof.
  induction l as [|a l IH]; [congruence|]. intros _.
  destruct l as [|a' l]; [reflexivity|].
  change (join sep ((a :: a' :: l) ++ [b]))
    with (a ++ sep ++ join sep ((a' :: l) ++ [b]))%string.
  rewrite IH by discriminate.
  change (join sep (a :: a' :: l))
    with (a ++ sep ++ join sep (a' :: l))%string.
  now rewrite !append_assoc.
Qed.

Lemma last_split sep s :
  s = Desktop.last_item (Desktop.split sep s)
  \/ exists dir,
      s = (dir ++ String sep (Desktop.last_item (Desktop.split sep s)))%string.
Proof.
  unfold Desktop.last_item.
  pose proof (join_split sep s) as Hjoin.
  pose proof (split_not_nil sep s) as Hne.
  rewrite (app_removelast_last ""%string Hne) in Hjoin.
  destruct (removelast (Desktop.split sep s)) as [|a init] eqn:Hinit.
  - left. symmetry. exact Hjoin.
  - right. exists (join (String sep "") (a :: init)).
    rewrite join_snoc in Hjoin by discriminate.
    symmetry. exact Hjoin.
Qed.

(** X15. [select_file]: for a path the dialog returned, the label shows
    the part of the path after its last [/] -- the whole path when it has
    none --, the path is remembered and the upload button is enabled; a
    cancelled dialog changes nothing. Splitting a path at [/] and joining
    the parts with [/] gives the path back. *)
Theorem select_file_label file_path w :
  file_path <> ""%string ->
  exists base,
    Desktop.select_file file_path w
    = {| Desktop.selected_file := Some file_path;
         Desktop.file_label := ("Selected: " ++ base)%string;
         Desktop.upload_btn_enabled := true |}
    /\ has_char "/" base = false
    /\ (file_path = base
        \/ exists dir, file_path = (dir ++ String "/" base)%string)
    /\ join "/" (Desktop.split "/" file_path) = file_path
    /\ Desktop.select_file "" w = w.
Proof.
  intros Hne. exists (Desktop.last_item (Desktop.split "/" file_path)).
  split; [destruct file_path; [congruence|reflexivity]|].
  split.
  - apply (split_parts_no_sep "/" file_path).
    apply last_In, split_not_nil.
  - split; [apply last_split|]. split; [apply join_split|reflexivity].
Qed.

Lemma select_file_label_home :
  Desktop.file_label
    (Desktop.select_file "/home/lab/plant.csv"
       {| Desktop.selected_file := None;
          Desktop.file_label := "No file selected";
          Desktop.upload_btn_enabled := false |})
  = "Selected: plant.csv"%string
  /\ Desktop.split "/" "/home/lab/plant.csv"
     = [""; "home"; "lab"; "plant.csv"]%string.
Proof.
  destruct (select_file_label "/home/lab/plant.csv"
              {| Desktop.selected_file := None;
                 Desktop.file_label := "No file selected";
                 Desktop.upload_btn_enabled := false |}
              ltac:(discriminate))
    as (base & Hsel & _).
  split; reflexivity.
Defined.

Lemma list_sum_zero l : list_sum l = 0%nat -> Forall (fun c => c = 0%nat) l.
Proof.
  induction l as [|c l IH]; simpl; intros H; constructor.
  - lia.
  - apply IH. lia.
Qed.

(** X16. The charts. The pie comes first, and it raises when the counts
    of the types sum to zero, which they do for a dataset without types:
    then no chart is drawn. Otherwise the pie has one wedge and one
    label per type but min(6, number of types) colours, so fewer colours
    than wedges as soon as there are more than six types; and the line
    chart is left blank when there are no equipment items, and else
    plots min(10, n) of the n items, at least one, the same number of
    points on each of its three lines, under the names of the items cut
    to 10 characters. *)
Theorem update_visualizations_bounds dataset :
  let items := Desktop.get_equipment_items dataset in
  let n := List.length items in
  let distribution :=
    EquipmentDataset.equipment_types (Desktop.fields dataset) in
  let types := List.length distribution in
  match Desktop.update_visualizations dataset with
  | None => Forall (fun item => snd item = 0%nat) distribution
  | Some charts =>
      (exists item, In item distribution /\ (1 <= snd item)%nat)
      /\ match Desktop.line_chart charts with
         | None => items = []
         | Some lines =>
             (1 <= Nat.min 10 n)%nat
             /\ List.length (Desktop.line_names lines) = Nat.min 10 n
             /\ List.length (Desktop.line_flowrates lines) = Nat.min 10 n
             /\ List.length (Desktop.line_pressures lines) = Nat.min 10 n
             /\ List.length (Desktop.line_temperatures lines) = Nat.min 10 n
             /\ Forall2 (fun item shown =>
                           truncated 10 (Equipment.equipment_name item) shown)
                        (firstn 10 items) (Desktop.line_names lines)
             /\ map Equipment.flowrate (firstn 10 items)
                = Desktop.line_flowrates lines
         end
      /\ List.length (Desktop.pie_counts charts) = types
      /\ List.length (Desktop.pie_labels charts) = types
      /\ List.length (Desktop.pie_colors charts) = Nat.min types 6
  end
  /\ (distribution = [] -> Desktop.update_visualizations dataset = None).
Proof.
  cbv zeta. unfold Desktop.update_visualizations, Desktop.pie_raises.
  split.
  - destruct (list_sum _ =? 0)%nat eqn:Hsum.
    + apply Nat.eqb_eq, list_sum_zero in Hsum.
      rewrite Forall_map in Hsum. exact Hsum.
    + cbn [Desktop.line_chart Desktop.pie_counts Desktop.pie_labels
           Desktop.pie_colors].
      split.
      { apply Nat.eqb_neq in Hsum.
        induction (EquipmentDataset.equipment_types (Desktop.fields dataset))
          as [|item l IH]; [contradiction Hsum; reflexivity|].
        simpl in Hsum. destruct (snd item) as [|k] eqn:Hk.
        - destruct (IH Hsum) as (i & Hi & Hpos).
          exists i. split; [right; exact Hi|exact Hpos].
        - exists item. split; [left; reflexivity|]. rewrite Hk. lia. }
      split.
      { destruct (firstn 10 (Desktop.get_equipment_items dataset))
          as [|item shown] eqn:Hfirst.
        - destruct (Desktop.get_equipment_items dataset); [reflexivity|].
          discriminate Hfirst.
        - cbn [Desktop.line_names Desktop.line_flowrates
               Desktop.line_pressures Desktop.line_temperatures].
          rewrite !length_map.
          assert (Hlen : List.length (item :: shown)
                         = Nat.min 10
                             (List.length
                                (Desktop.get_equipment_items dataset))).
          { rewrite <- Hfirst. apply length_firstn. }
          rewrite <- Hlen.
          split; [cbn [List.length]; lia|].
          split; [reflexivity|]. split; [reflexivity|].
          split; [reflexivity|]. split; [reflexivity|].
          split; [|reflexivity].
          apply map_Forall2. intros x. apply slice_to_truncated. }
      rewrite length_firstn, !length_map.
      split; [reflexivity|]. split; reflexivity.
  - intros ->. reflexivity.
Qed.
